(** * Energy-report dashboard: validation, transformation, date resolution
      and navigation, verified against the TypeScript sources
      ([requests.ts], [index.ts], [utils.ts], [charting.ts]).

    The development is a shallow embedding.  JavaScript values that come out
    of [response.json()] are the trees of [value]; numbers are idealised as
    integers with a not-a-number element ([num]), so rounding, overflow and
    non-integral numerals are outside that model; strings are sequences of
    one-byte code units.  Where rounding decides the matter, the sums of
    [ProcessBids], the function is given again on IEEE-754 doubles
    ([Double], [Typed]). *)

From stdpp Require Import base list strings.
From Stdlib Require Import ZArith Lia Ascii DecimalString DecimalPos SpecFloat Zpower.

Local Open Scope Z_scope.

(** ** Strings *)

Module Str.

Definition code (c : ascii) : nat := Ascii.nat_of_ascii c.

Definition is_digit (c : ascii) : bool :=
  (48 <=? code c)%nat && (code c <=? 57)%nat.

Definition digit_val (c : ascii) : Z := Z.of_nat (code c) - 48.

(** White space and line terminators that [Number(s)] and [parseInt(s)]
    strip, restricted to one-byte code units. *)
Definition is_space (c : ascii) : bool :=
  let n := code c in
  ((9 <=? n)%nat && (n <=? 13)%nat) || (n =? 32)%nat || (n =? 160)%nat.

Fixpoint to_list (s : string) : list ascii :=
  match s with
  | EmptyString => []
  | String c r => c :: to_list r
  end.

Fixpoint of_list (l : list ascii) : string :=
  match l with
  | [] => EmptyString
  | c :: r => String c (of_list r)
  end.

Fixpoint drop_spaces (l : list ascii) : list ascii :=
  match l with
  | c :: r => if is_space c then drop_spaces r else l
  | [] => []
  end.

Definition trim_start (l : list ascii) : list ascii := drop_spaces l.

Definition trim (l : list ascii) : list ascii :=
  rev (drop_spaces (rev (drop_spaces l))).

(** Value of a run of decimal digits read left to right from [acc]. *)
Fixpoint digits_value (acc : Z) (l : list ascii) : Z :=
  match l with
  | [] => acc
  | c :: r => digits_value (10 * acc + digit_val c) r
  end.

(** Longest prefix of decimal digits. *)
Fixpoint digit_prefix (l : list ascii) : list ascii :=
  match l with
  | c :: r => if is_digit c then c :: digit_prefix r else []
  | [] => []
  end.

Definition hex_val (c : ascii) : option Z :=
  let n := code c in
  if is_digit c then Some (Z.of_nat n - 48)
  else if (97 <=? n)%nat && (n <=? 102)%nat then Some (Z.of_nat n - 87)
  else if (65 <=? n)%nat && (n <=? 70)%nat then Some (Z.of_nat n - 55)
  else None.

(** Value of the longest prefix of hexadecimal digits, with the number of
    digits consumed. *)
Fixpoint hex_prefix_value (acc : Z) (count : nat) (l : list ascii) : Z * nat :=
  match l with
  | c :: r =>
      match hex_val c with
      | Some d => hex_prefix_value (16 * acc + d) (S count) r
      | None => (acc, count)
      end
  | [] => (acc, count)
  end.

(** [s.split(sep)] for a one-character separator. *)
Fixpoint split_aux (sep : ascii) (cur : list ascii) (l : list ascii) : list string :=
  match l with
  | [] => [of_list (rev cur)]
  | c :: r =>
      if Ascii.eqb c sep then of_list (rev cur) :: split_aux sep [] r
      else split_aux sep (c :: cur) r
  end.

Definition split (sep : ascii) (s : string) : list string :=
  split_aux sep [] (to_list s).

(** [s.slice(a, b)] for literal bounds [0 <= a <= b]. *)
Definition slice (a b : nat) (s : string) : string :=
  of_list (take (b - a) (drop a (to_list s))).

(** [s.padStart(2, "0")]. *)
Definition padStart2 (s : string) : string :=
  match String.length s with
  | O => "00"
  | S O => "0" +:+ s
  | _ => s
  end.

(** Decimal rendering of an integer, as [Number.prototype.toString]
    prints integers. *)
Definition of_Z (z : Z) : string := NilEmpty.string_of_int (Z.to_int z).

End Str.

(** ** JavaScript values *)

Set Warnings "-register-all".

(** A JavaScript number: an integer or [NaN]. *)
Inductive num :=
  | NaN
  | Int (z : Z).

(** The values [JSON.parse] builds, and [undefined] for what a read of a
    missing element or property gives.  The property list of [VObj] is the
    object's own enumerable properties in enumeration order. *)
Inductive value :=
  | VUndefined
  | VNull
  | VBool (b : bool)
  | VNum (n : num)
  | VStr (s : string)
  | VArr (elems : list value)
  | VObj (props : list (string * value)).

(** Outcome of code that may throw (every throw in the modelled code is a
    [TypeError]). *)
Inductive result (A : Type) :=
  | Ok (a : A)
  | Throw.
Arguments Ok {A} a.
Arguments Throw {A}.

Definition rbind {A B} (r : result A) (f : A -> result B) : result B :=
  match r with
  | Ok a => f a
  | Throw => Throw
  end.

Notation "'let?' x ':=' r 'in' k" := (rbind r (fun x => k))
  (at level 10, x name, r at level 100, k at level 200).

Module JS.

Definition typeof (v : value) : string :=
  match v with
  | VUndefined => "undefined"
  | VNull => "object"
  | VBool _ => "boolean"
  | VNum _ => "number"
  | VStr _ => "string"
  | VArr _ => "object"
  | VObj _ => "object"
  end.

Definition isArray (v : value) : bool :=
  match v with VArr _ => true | _ => false end.

(** [v === undefined] *)
Definition is_undefined (v : value) : bool :=
  match v with VUndefined => true | _ => false end.

(** [v === null] *)
Definition is_null (v : value) : bool :=
  match v with VNull => true | _ => false end.

(** [v == null]: loose equality holds for [null] and [undefined]. *)
Definition is_nullish (v : value) : bool :=
  match v with VNull | VUndefined => true | _ => false end.

(** Own property named [k] of a property list. *)
Fixpoint lookup (props : list (string * value)) (k : string) : value :=
  match props with
  | [] => VUndefined
  | (k', v) :: rest => if String.eqb k' k then v else lookup rest k
  end.

(** A property name that is a canonical array index. *)
Definition array_index (k : string) : option nat :=
  let l := Str.to_list k in
  if forallb Str.is_digit l && negb (String.eqb k "")
     && String.eqb (Str.of_Z (Str.digits_value 0 l)) k
  then Some (Z.to_nat (Str.digits_value 0 l)) else None.

Definition char_at (s : string) (i : nat) : value :=
  match String.get i s with
  | Some c => VStr (String c EmptyString)
  | None => VUndefined
  end.

(** [v[i]] for a literal index [i].  Reading from [null] or [undefined]
    throws. *)
Definition index (v : value) (i : nat) : result value :=
  match v with
  | VUndefined | VNull => Throw
  | VArr elems => Ok (default VUndefined (elems !! i))
  | VStr s => Ok (char_at s i)
  | VObj props => Ok (lookup props (Str.of_Z (Z.of_nat i)))
  | VBool _ | VNum _ => Ok VUndefined
  end.

(** [v[k]] for a string key [k]: own properties only (members inherited
    from a prototype are not modelled). *)
Definition get (v : value) (k : string) : result value :=
  match v with
  | VUndefined | VNull => Throw
  | VObj props => Ok (lookup props k)
  | VArr elems =>
      if String.eqb k "length" then Ok (VNum (Int (Z.of_nat (length elems))))
      else match array_index k with
           | Some i => Ok (default VUndefined (elems !! i))
           | None => Ok VUndefined
           end
  | VStr s =>
      if String.eqb k "length" then Ok (VNum (Int (Z.of_nat (String.length s))))
      else match array_index k with
           | Some i => Ok (char_at s i)
           | None => Ok VUndefined
           end
  | VBool _ | VNum _ => Ok VUndefined
  end.

(** The pairs a [for (const key in v)] loop filtered by [hasOwnProperty]
    visits, in order. *)
Definition own_entries (v : value) : list (string * value) :=
  match v with
  | VObj props => props
  | VArr elems => imap (fun i e => (Str.of_Z (Z.of_nat i), e)) elems
  | VStr s =>
      imap (fun i c => (Str.of_Z (Z.of_nat i), VStr (String c EmptyString)))
           (Str.to_list s)
  | _ => []
  end.

(** The elements [v.forEach] visits; calling [forEach] on anything but an
    array throws. *)
Definition elements (v : value) : result (list value) :=
  match v with
  | VArr elems => Ok elems
  | _ => Throw
  end.

(** [String(v)]. *)
Fixpoint ToString (v : value) : string :=
  match v with
  | VUndefined => "undefined"
  | VNull => "null"
  | VBool true => "true"
  | VBool false => "false"
  | VNum NaN => "NaN"
  | VNum (Int z) => Str.of_Z z
  | VStr s => s
  | VArr elems =>
      String.concat ","
        (map (fun e => match e with
                       | VUndefined | VNull => ""
                       | _ => ToString e
                       end) elems)
  | VObj _ => "[object Object]"
  end.

(** [v.toString()]: throws on [null] and [undefined]. *)
Definition toString (v : value) : result string :=
  match v with
  | VUndefined | VNull => Throw
  | _ => Ok (ToString v)
  end.

(** [Number(s)] on the integer numerals: surrounding white space is
    dropped, the empty string is [0], an optionally signed run of decimal
    digits is its value, anything else is [NaN]. *)
Definition StringToNumber (s : string) : num :=
  match Str.trim (Str.to_list s) with
  | [] => Int 0
  | c :: r =>
      let '(sign, ds) :=
        if Ascii.eqb c "-" then (-1, r)
        else if Ascii.eqb c "+" then (1, r)
        else (1, c :: r) in
      match ds with
      | [] => NaN
      | _ => if forallb Str.is_digit ds then Int (sign * Str.digits_value 0 ds)
             else NaN
      end
  end.

(** [Number(v)], which is also unary [+v]. *)
Definition ToNumber (v : value) : num :=
  match v with
  | VUndefined => NaN
  | VNull => Int 0
  | VBool b => Int (if b then 1 else 0)
  | VNum n => n
  | VStr s => StringToNumber s
  | VArr _ | VObj _ => StringToNumber (ToString v)
  end.

Definition num_add (a b : num) : num :=
  match a, b with
  | Int x, Int y => Int (x + y)
  | _, _ => NaN
  end.

Definition num_sub (a b : num) : num :=
  match a, b with
  | Int x, Int y => Int (x - y)
  | _, _ => NaN
  end.

Definition num_mul (a b : num) : num :=
  match a, b with
  | Int x, Int y => Int (x * y)
  | _, _ => NaN
  end.

(** [a > b] on numbers; false when either is [NaN]. *)
Definition num_gt (a b : num) : bool :=
  match a, b with
  | Int x, Int y => (y <? x)%Z
  | _, _ => false
  end.

(** Operands that [ToPrimitive] turns into a string. *)
Definition stringy (v : value) : bool :=
  match v with
  | VStr _ | VArr _ | VObj _ => true
  | _ => false
  end.

(** [a + b] *)
Definition add (a b : value) : value :=
  if stringy a || stringy b then VStr (ToString a +:+ ToString b)
  else VNum (num_add (ToNumber a) (ToNumber b)).

(** [a - b] *)
Definition sub (a b : value) : num := num_sub (ToNumber a) (ToNumber b).

(** [a * b] *)
Definition mul (a b : value) : num := num_mul (ToNumber a) (ToNumber b).

(** [v === n] for an integer literal [n]. *)
Definition strict_eq_int (v : value) (n : Z) : bool :=
  match v with
  | VNum (Int z) => (z =? n)%Z
  | _ => false
  end.

(** [v == s] for a string constant [s]. *)
Definition loose_eq_str (v : value) (s : string) : bool :=
  match v with
  | VUndefined | VNull => false
  | VStr _ | VArr _ | VObj _ => String.eqb (ToString v) s
  | VBool _ | VNum _ =>
      match ToNumber v, StringToNumber s with
      | Int x, Int y => (x =? y)%Z
      | _, _ => false
      end
  end.

(** [Number.parseInt(s)]: leading white space, a sign, a [0x] prefix,
    then the longest run of digits; [NaN] when there is none. *)
Definition parseInt_string (s : string) : num :=
  match Str.trim_start (Str.to_list s) with
  | [] => NaN
  | c :: r =>
      let '(sign, ds) :=
        if Ascii.eqb c "-" then (-1, r)
        else if Ascii.eqb c "+" then (1, r)
        else (1, c :: r) in
      match ds with
      | z :: x :: hs =>
          if Ascii.eqb z "0" && (Ascii.eqb x "x" || Ascii.eqb x "X") then
            match Str.hex_prefix_value 0 0 hs with
            | (_, O) => NaN
            | (h, _) => Int (sign * h)
            end
          else
            match Str.digit_prefix ds with
            | [] => NaN
            | p => Int (sign * Str.digits_value 0 p)
            end
      | _ =>
          match Str.digit_prefix ds with
          | [] => NaN
          | p => Int (sign * Str.digits_value 0 p)
          end
      end
  end.

Definition parseInt (v : value) : num := parseInt_string (ToString v).

End JS.

(** [arr.forEach(cb)] where the callback updates captured variables [S] and
    may throw; its return value is discarded. *)
Fixpoint forEach {S : Type} (cb : S -> value -> result S) (elems : list value) (s : S)
  : result S :=
  match elems with
  | [] => Ok s
  | e :: rest => let? s' := cb s e in forEach cb rest s'
  end.

(** Left-to-right evaluation of [f] over a list, stopping at the first throw. *)
Fixpoint mapM {A B : Type} (f : A -> result B) (l : list A) : result (list B) :=
  match l with
  | [] => Ok []
  | a :: rest =>
      let? b := f a in
      let? bs := mapM f rest in
      Ok (b :: bs)
  end.

(** ** utils.ts *)

Definition MonthNames : list string :=
  [ "January"; "February"; "March"; "April"; "May"; "June"; "July";
    "August"; "September"; "October"; "November"; "December" ].

(** [MonthNames[i]] for a number [i]; [None] is [undefined]. *)
Definition MonthNames_at (i : num) : option string :=
  match i with
  | Int z => if (0 <=? z)%Z then MonthNames !! Z.to_nat z else None
  | NaN => None
  end.

(** ** requests.ts: response validation *)

Inductive APIResponse :=
  | dates
  | energy
  | bids.

(** Property read on a value already known not to be [null] or [undefined]. *)
Definition prop (obj : value) (k : string) : value :=
  match JS.get obj k with
  | Ok v => v
  | Throw => VUndefined
  end.

Definition array_elems (v : value) : list value :=
  match v with
  | VArr elems => elems
  | _ => []
  end.

(** Callback of the inner [element.forEach] of the bids case: what it logs
    for one member.  Its [return false] leaves the callback only. *)
Definition bids_member_callback (element : value) : list string :=
  if negb (String.eqb (JS.typeof element) "number")
     && negb (String.eqb (JS.typeof element) "string")
  then ["Bid data is not numeric or strings."]
  else [].

(** Callback of [obj["data"].forEach] of the bids case. *)
Definition bids_callback (element : value) : list string :=
  if negb (JS.isArray element)
  then ["Bid data array does not contain arrays."]
  else flat_map bids_member_callback (array_elems element).

(** The [for] loop in the callback of the energy case, from [dataIndex] on;
    the first violation logs and returns from the callback. *)
Fixpoint energy_row_loop (dataIndex : nat) (rest : list value) : list string :=
  match rest with
  | [] => []
  | e :: rest' =>
      match dataIndex with
      | O =>
          if negb (String.eqb (JS.typeof e) "string") && negb (JS.is_nullish e)
          then ["First element in Energy data array is not a string."]
          else energy_row_loop (S dataIndex) rest'
      | S _ =>
          if negb (String.eqb (JS.typeof e) "number") && negb (JS.is_null e)
          then ["Remaining elements in Energy data array are not numbers or null."]
          else energy_row_loop (S dataIndex) rest'
      end
  end.

(** Callback of [obj["data"].forEach] of the energy case. *)
Definition energy_callback (element : value) : list string :=
  if negb (JS.isArray element)
  then ["Energy data array does not contain arrays."]
  else energy_row_loop 0 (array_elems element).

(** The [for ... in obj] loop of the dates case ([typeof key !== "string"]
    never holds of a property name). *)
Fixpoint dates_loop (entries : list (string * value)) : list string * bool :=
  match entries with
  | [] => ([], true)
  | (key, element) :: rest =>
      if negb (JS.isArray element)
      then (["Date values are not arrays."], false)
      else dates_loop rest
  end.

(** The [for ... in obj["carbonRate"]] loop of the energy case: [None] when
    it runs to its end, the logged message when it returns [false]. *)
Fixpoint carbonRate_loop (entries : list (string * value)) : option string :=
  match entries with
  | [] => None
  | (key, element) :: rest =>
      if negb (String.eqb (JS.typeof element) "number") || JS.is_nullish element
      then Some "Energy carbonRate values are not numbers, or are null."
      else carbonRate_loop rest
  end.

(** [ValidateResponse(obj, type)]: the lines written to [console.error] and
    the returned boolean. *)
Definition ValidateResponse (obj : value) (type : APIResponse) : list string * bool :=
  if negb (String.eqb (JS.typeof obj) "object")
  then (["Response is not an object."], false)
  else if JS.is_nullish obj
  then (["Response is null."], false)
  else
    match type with
    | bids =>
        if JS.is_undefined (prop obj "data")
        then (["Bid data field is missing."], false)
        else if negb (JS.isArray (prop obj "data"))
        then (["Bid data field is not an array."], false)
        else (flat_map bids_callback (array_elems (prop obj "data")), true)
    | dates => dates_loop (JS.own_entries obj)
    | energy =>
        if JS.is_undefined (prop obj "carbonRate")
        then (["Energy carbonRate field is missing."], false)
        else if negb (String.eqb (JS.typeof (prop obj "carbonRate")) "object")
                || JS.is_null (prop obj "carbonRate")
        then (["Energy carbon rate is not an object, or null."], false)
        else if JS.is_undefined (prop obj "data")
        then (["Energy data field is missing."], false)
        else
          match carbonRate_loop (JS.own_entries (prop obj "carbonRate")) with
          | Some msg => ([msg], false)
          | None =>
              if negb (JS.isArray (prop obj "data"))
              then (["Energy data field is not an array."], false)
              else (flat_map energy_callback (array_elems (prop obj "data")), true)
          end
    end.

(** ** requests.ts: processed data *)

Module Bid.
Record t := mk {
  date : value;
  hour : value;
  type : value;
  volume : value;
  price : value;
}.
End Bid.

Module BidData.
Record t := mk {
  bids : list Bid.t;
  profit : num;
  volumeSold : num;
  volumeBrought : num;
  totalVolume : value;
}.
End BidData.

Module EnergyData.
Record t := mk {
  times : list value;
  predictedBuildingDemand : list value;
  predictedSolarGeneration : list value;
  predictedWindGeneration : list value;
  realBuildingDemand : list value;
  realSolarGeneration : list value;
  realWindGeneration : list value;
  predictedTotalGeneration : list value;
  realTotalGeneration : list value;
  predictedNetGeneration : list value;
  realNetGeneration : list value;
  carbonRate : value;
  predictedCarbonSaved : num;
  realCarbonSaved : num;
}.
End EnergyData.

Module ReportDay.
Record t := mk {
  date : string;
  day : num;
}.
End ReportDay.

Module ReportMonth.
(** [name] is [None] when the table read gives [undefined]. *)
Record t := mk {
  days : list ReportDay.t;
  month : num;
  year : num;
  date : string;
  name : option string;
}.
End ReportMonth.

Definition ReportMonths := list ReportMonth.t.

(** The string values of [enum BidType]. *)
Definition BidType_Sell : string := "SELL".
Definition BidType_Buy : string := "BUY".

(** ** requests.ts: ProcessBids *)

(** Body of the [data.data.forEach] callback; the captured variables are the
    fields of the [BidData.t] being built. *)
Definition ProcessBids_callback (acc : BidData.t) (element : value) : result BidData.t :=
  let? date := JS.index element 0 in
  let? hour := JS.index element 1 in
  let? type := JS.index element 2 in
  let? volume := JS.index element 3 in
  let? price := JS.index element 4 in
  let sell := JS.loose_eq_str type BidType_Sell in
  let buy := JS.loose_eq_str type BidType_Buy in
  Ok {| BidData.bids :=
          BidData.bids acc ++ [Bid.mk date hour type volume price];
        BidData.profit :=
          JS.num_add (BidData.profit acc)
            (JS.num_mul (JS.mul volume price) (if sell then Int 1 else Int (-1)));
        BidData.totalVolume := JS.add (BidData.totalVolume acc) volume;
        BidData.volumeSold :=
          JS.num_add (BidData.volumeSold acc)
            (JS.mul volume (VNum (if sell then Int 1 else Int 0)));
        BidData.volumeBrought :=
          JS.num_add (BidData.volumeBrought acc)
            (JS.mul volume (VNum (if buy then Int 1 else Int 0))) |}.

Definition ProcessBids_init : BidData.t :=
  {| BidData.bids := []; BidData.profit := Int 0; BidData.volumeSold := Int 0;
     BidData.volumeBrought := Int 0; BidData.totalVolume := VNum (Int 0) |}.

Definition ProcessBids (data : value) : result BidData.t :=
  let? rows := JS.get data "data" in
  let? elems := JS.elements rows in
  forEach ProcessBids_callback elems ProcessBids_init.

(** ** requests.ts: ProcessEnergy *)

(** The [carbonRate] local of the callback: [0] unless the time stamp is a
    string, then whatever the read of [data.carbonRate] gives. *)
Definition row_carbonRate (data : value) (element0 : value) : result value :=
  match element0 with
  | VStr s =>
      let? rates := JS.get data "carbonRate" in
      JS.get rates (Str.slice 0 10 s)
  | _ => Ok (VNum (Int 0))
  end.

(** Body of the [data.data.forEach] callback. *)
Definition ProcessEnergy_callback (data : value) (acc : EnergyData.t) (element : value)
  : result EnergyData.t :=
  let? e0 := JS.index element 0 in
  let? carbonRate := row_carbonRate data e0 in
  let? e1 := JS.index element 1 in
  let? e2 := JS.index element 2 in
  let? e3 := JS.index element 3 in
  let predictedNet := JS.sub (JS.add e2 e3) e1 in
  let? e4 := JS.index element 4 in
  let? e5 := JS.index element 5 in
  let? e6 := JS.index element 6 in
  let acc1 :=
    {| EnergyData.times := EnergyData.times acc ++ [e0];
       EnergyData.predictedBuildingDemand := EnergyData.predictedBuildingDemand acc ++ [e1];
       EnergyData.predictedSolarGeneration := EnergyData.predictedSolarGeneration acc ++ [e2];
       EnergyData.predictedWindGeneration := EnergyData.predictedWindGeneration acc ++ [e3];
       EnergyData.predictedTotalGeneration :=
         EnergyData.predictedTotalGeneration acc ++ [JS.add e2 e3];
       EnergyData.predictedNetGeneration :=
         EnergyData.predictedNetGeneration acc ++ [VNum predictedNet];
       EnergyData.predictedCarbonSaved :=
         JS.num_add (EnergyData.predictedCarbonSaved acc)
           (JS.mul (VNum predictedNet) carbonRate);
       EnergyData.realBuildingDemand := EnergyData.realBuildingDemand acc ++ [e4];
       EnergyData.realSolarGeneration := EnergyData.realSolarGeneration acc ++ [e5];
       EnergyData.realWindGeneration := EnergyData.realWindGeneration acc ++ [e6];
       EnergyData.realTotalGeneration := EnergyData.realTotalGeneration acc;
       EnergyData.realNetGeneration := EnergyData.realNetGeneration acc;
       EnergyData.carbonRate := EnergyData.carbonRate acc;
       EnergyData.realCarbonSaved := EnergyData.realCarbonSaved acc |} in
  let push_real (total net : value) (co2 : num) : EnergyData.t :=
    {| EnergyData.times := EnergyData.times acc1;
       EnergyData.predictedBuildingDemand := EnergyData.predictedBuildingDemand acc1;
       EnergyData.predictedSolarGeneration := EnergyData.predictedSolarGeneration acc1;
       EnergyData.predictedWindGeneration := EnergyData.predictedWindGeneration acc1;
       EnergyData.predictedTotalGeneration := EnergyData.predictedTotalGeneration acc1;
       EnergyData.predictedNetGeneration := EnergyData.predictedNetGeneration acc1;
       EnergyData.predictedCarbonSaved := EnergyData.predictedCarbonSaved acc1;
       EnergyData.realBuildingDemand := EnergyData.realBuildingDemand acc1;
       EnergyData.realSolarGeneration := EnergyData.realSolarGeneration acc1;
       EnergyData.realWindGeneration := EnergyData.realWindGeneration acc1;
       EnergyData.realTotalGeneration := EnergyData.realTotalGeneration acc1 ++ [total];
       EnergyData.realNetGeneration := EnergyData.realNetGeneration acc1 ++ [net];
       EnergyData.carbonRate := EnergyData.carbonRate acc1;
       EnergyData.realCarbonSaved := co2 |} in
  if JS.is_nullish e5 || JS.is_nullish e6 then
    Ok (push_real VNull VNull (EnergyData.realCarbonSaved acc1))
  else if negb (JS.is_null e4) then
    let net := JS.sub (JS.add e5 e6) e4 in
    Ok (push_real (JS.add e5 e6) (VNum net)
          (JS.num_add (EnergyData.realCarbonSaved acc1) (JS.mul (VNum net) carbonRate)))
  else
    Ok (push_real (JS.add e5 e6) VNull (EnergyData.realCarbonSaved acc1)).

Definition ProcessEnergy_init (rates : value) : EnergyData.t :=
  {| EnergyData.times := [];
     EnergyData.predictedBuildingDemand := [];
     EnergyData.predictedSolarGeneration := [];
     EnergyData.predictedWindGeneration := [];
     EnergyData.realBuildingDemand := [];
     EnergyData.realSolarGeneration := [];
     EnergyData.realWindGeneration := [];
     EnergyData.predictedTotalGeneration := [];
     EnergyData.realTotalGeneration := [];
     EnergyData.predictedNetGeneration := [];
     EnergyData.realNetGeneration := [];
     EnergyData.carbonRate := rates;
     EnergyData.predictedCarbonSaved := Int 0;
     EnergyData.realCarbonSaved := Int 0 |}.

Definition ProcessEnergy (data : value) : result EnergyData.t :=
  let? rows := JS.get data "data" in
  let? elems := JS.elements rows in
  let? rates := JS.get data "carbonRate" in
  forEach (ProcessEnergy_callback data) elems (ProcessEnergy_init rates).

(** ** requests.ts: ProcessDates *)

(** Body of the [monthDays.forEach] callback: the pushed [ReportDay]. *)
Definition ProcessDates_day (yearMonth : string) (day : value) : result ReportDay.t :=
  let? text := JS.toString day in
  Ok {| ReportDay.date := yearMonth +:+ "-" +:+ Str.padStart2 text;
        ReportDay.day := JS.parseInt day |}.

(** [yearMonth.split("-")[i]], [undefined] when the piece is missing. *)
Definition split_at (s : string) (i : nat) : value :=
  default VUndefined (VStr <$> (Str.split "-" s !! i)).

(** Body of the [for ... in data] loop for one own key: the pushed
    [ReportMonth]. *)
Definition ProcessDates_month (entry : string * value) : result ReportMonth.t :=
  let '(yearMonth, monthDays) := entry in
  let month := JS.parseInt (split_at yearMonth 1) in
  let year := JS.parseInt (split_at yearMonth 0) in
  let? elems := JS.elements monthDays in
  let? days := mapM (ProcessDates_day yearMonth) elems in
  Ok {| ReportMonth.date := yearMonth;
        ReportMonth.days := days;
        ReportMonth.month := month;
        ReportMonth.name := MonthNames_at (JS.num_sub month (Int 1));
        ReportMonth.year := year |}.

Definition ProcessDates (data : value) : result ReportMonths :=
  mapM ProcessDates_month (JS.own_entries data).

(** ** index.ts: page state *)

Module DateType.
Inductive t := Day | Month.
End DateType.

Module SkeletonType.
Inductive t := Energy | Market | Dates.
End SkeletonType.

Module SkeletonState.
Inductive t := Hidden | Visible | Error.
End SkeletonState.

(** What the page does to the outside: console lines, network requests, and
    calls to the chart, card and table renderers (black boxes that do not
    throw).  Objects passed to [console] are left out. *)
Inductive Effect :=
  | ConsoleError (msg : string)
  | ConsoleInfo (msg : string)
  | ConsoleLog (msg : string)
  | ConsoleWarn (msg : string)
  | Fetch (url : string)
  | DisplayChart (chart : string)
  | UpdateCarbonCard (data : option EnergyData.t)
  | UpdateProfitCard (data : option BidData.t)
  | UpdateBidTable (data : BidData.t)
  | SetHeader (text : string)
  | ReplaceQuery (query : string)
  | SetTitle (text : string)
  | LinkClick (href : string).

(** The classes [skeletons] toggles for one section: [hidden] on the
    section's content, and [hidden], [error] and the [effect] attribute on
    its placeholders. *)
Record SectionDom := {
  content_hidden : bool;
  skeleton_hidden : bool;
  skeleton_error : bool;
  skeleton_effect : option string;
}.

(** The module-level variables of [index.ts], the DOM state they drive and
    the trace of effects so far.  [HasBidData] and [HasEnergyData] are only
    ever read as conditions, so their initial [undefined] is [false];
    [Energy] and [Bids] are [None] until first assigned. *)
Record Page := {
  PageDate : string;
  PageType : DateType.t;
  HasBidData : bool;
  HasEnergyData : bool;
  flagLoading : value;
  Energy : option EnergyData.t;
  Bids : option BidData.t;
  dom_energy : SectionDom;
  dom_market : SectionDom;
  dom_dates : SectionDom;
  button_loading : bool;
  overlay : bool;
  trace : list Effect;
}.

Definition emit (e : Effect) (p : Page) : Page :=
  {| PageDate := PageDate p; PageType := PageType p; HasBidData := HasBidData p;
     HasEnergyData := HasEnergyData p; flagLoading := flagLoading p;
     Energy := Energy p; Bids := Bids p; dom_energy := dom_energy p;
     dom_market := dom_market p; dom_dates := dom_dates p;
     button_loading := button_loading p; overlay := overlay p;
     trace := trace p ++ [e] |}.

Definition emits (es : list Effect) (p : Page) : Page := foldl (fun q e => emit e q) p es.

Definition set_PageDate (d : string) (p : Page) : Page :=
  {| PageDate := d; PageType := PageType p; HasBidData := HasBidData p;
     HasEnergyData := HasEnergyData p; flagLoading := flagLoading p;
     Energy := Energy p; Bids := Bids p; dom_energy := dom_energy p;
     dom_market := dom_market p; dom_dates := dom_dates p;
     button_loading := button_loading p; overlay := overlay p;
     trace := trace p |}.

Definition set_PageType (t : DateType.t) (p : Page) : Page :=
  {| PageDate := PageDate p; PageType := t; HasBidData := HasBidData p;
     HasEnergyData := HasEnergyData p; flagLoading := flagLoading p;
     Energy := Energy p; Bids := Bids p; dom_energy := dom_energy p;
     dom_market := dom_market p; dom_dates := dom_dates p;
     button_loading := button_loading p; overlay := overlay p;
     trace := trace p |}.

Definition set_HasBidData (b : bool) (p : Page) : Page :=
  {| PageDate := PageDate p; PageType := PageType p; HasBidData := b;
     HasEnergyData := HasEnergyData p; flagLoading := flagLoading p;
     Energy := Energy p; Bids := Bids p; dom_energy := dom_energy p;
     dom_market := dom_market p; dom_dates := dom_dates p;
     button_loading := button_loading p; overlay := overlay p;
     trace := trace p |}.

Definition set_HasEnergyData (b : bool) (p : Page) : Page :=
  {| PageDate := PageDate p; PageType := PageType p; HasBidData := HasBidData p;
     HasEnergyData := b; flagLoading := flagLoading p;
     Energy := Energy p; Bids := Bids p; dom_energy := dom_energy p;
     dom_market := dom_market p; dom_dates := dom_dates p;
     button_loading := button_loading p; overlay := overlay p;
     trace := trace p |}.

Definition set_flagLoading (v : value) (p : Page) : Page :=
  {| PageDate := PageDate p; PageType := PageType p; HasBidData := HasBidData p;
     HasEnergyData := HasEnergyData p; flagLoading := v;
     Energy := Energy p; Bids := Bids p; dom_energy := dom_energy p;
     dom_market := dom_market p; dom_dates := dom_dates p;
     button_loading := button_loading p; overlay := overlay p;
     trace := trace p |}.

Definition set_Energy (e : EnergyData.t) (p : Page) : Page :=
  {| PageDate := PageDate p; PageType := PageType p; HasBidData := HasBidData p;
     HasEnergyData := HasEnergyData p; flagLoading := flagLoading p;
     Energy := Some e; Bids := Bids p; dom_energy := dom_energy p;
     dom_market := dom_market p; dom_dates := dom_dates p;
     button_loading := button_loading p; overlay := overlay p;
     trace := trace p |}.

Definition set_Bids (b : BidData.t) (p : Page) : Page :=
  {| PageDate := PageDate p; PageType := PageType p; HasBidData := HasBidData p;
     HasEnergyData := HasEnergyData p; flagLoading := flagLoading p;
     Energy := Energy p; Bids := Some b; dom_energy := dom_energy p;
     dom_market := dom_market p; dom_dates := dom_dates p;
     button_loading := button_loading p; overlay := overlay p;
     trace := trace p |}.

Definition set_loading (b : bool) (p : Page) : Page :=
  {| PageDate := PageDate p; PageType := PageType p; HasBidData := HasBidData p;
     HasEnergyData := HasEnergyData p; flagLoading := flagLoading p;
     Energy := Energy p; Bids := Bids p; dom_energy := dom_energy p;
     dom_market := dom_market p; dom_dates := dom_dates p;
     button_loading := b; overlay := b;
     trace := trace p |}.

Definition section (type : SkeletonType.t) (p : Page) : SectionDom :=
  match type with
  | SkeletonType.Energy => dom_energy p
  | SkeletonType.Market => dom_market p
  | SkeletonType.Dates => dom_dates p
  end.

Definition set_section (type : SkeletonType.t) (s : SectionDom) (p : Page) : Page :=
  {| PageDate := PageDate p; PageType := PageType p; HasBidData := HasBidData p;
     HasEnergyData := HasEnergyData p; flagLoading := flagLoading p;
     Energy := Energy p; Bids := Bids p;
     dom_energy := match type with SkeletonType.Energy => s | _ => dom_energy p end;
     dom_market := match type with SkeletonType.Market => s | _ => dom_market p end;
     dom_dates := match type with SkeletonType.Dates => s | _ => dom_dates p end;
     button_loading := button_loading p; overlay := overlay p;
     trace := trace p |}.

(** [skeletons(show, type)] *)
Definition skeletons (show : SkeletonState.t) (type : SkeletonType.t) (p : Page) : Page :=
  let s := section type p in
  match show with
  | SkeletonState.Visible =>
      set_section type
        {| content_hidden := true; skeleton_effect := Some "pulse";
           skeleton_hidden := false; skeleton_error := false |} p
  | SkeletonState.Error =>
      set_section type
        {| content_hidden := true; skeleton_effect := Some "sheen";
           skeleton_hidden := false; skeleton_error := true |} p
  | SkeletonState.Hidden =>
      set_section type
        {| content_hidden := false; skeleton_effect := skeleton_effect s;
           skeleton_hidden := true; skeleton_error := skeleton_error s |} p
  end.

(** The skeleton state a section displays, read back from its classes. *)
Definition displayed (s : SectionDom) : SkeletonState.t :=
  if skeleton_hidden s then SkeletonState.Hidden
  else if skeleton_error s then SkeletonState.Error
  else SkeletonState.Visible.

Notation "p |> f" := (f p) (at level 68, left associativity, only parsing).

(** ** index.ts: date syntax and page header *)

(** [ValidateDate(date)] *)
Definition ValidateDate (date : string) : bool :=
  if (String.length date <? 6)%nat then false
  else if (10 <? String.length date)%nat then false
  else
    let split := Str.split "-" date in
    let split0 := nth 0 split "" in
    let split1 := nth 1 split "" in
    let split2 := nth 2 split "" in
    if negb ((length split =? 2)%nat || (length split =? 3)%nat) then false
    else if negb (String.length split0 =? 4)%nat then false
    else if (2 <? String.length split1)%nat || (String.length split1 =? 0)%nat then false
    else if (length split =? 3)%nat
            && ((2 <? String.length split2)%nat || (String.length split2 =? 0)%nat)
    then false
    else if JS.num_gt (JS.StringToNumber split1) (Int 12) then false
    else if (length split =? 3)%nat && JS.num_gt (JS.StringToNumber split2) (Int 31)
    then false
    else true.

(** String concatenation with a table entry or array element that may be
    [undefined]. *)
Definition text_of (o : option string) : string :=
  match o with
  | Some s => s
  | None => "undefined"
  end.

(** The header text [UpdatePage] computes from the page date and type. *)
Definition header_text (PageDate : string) (PageType : DateType.t) : string :=
  let dateSplit := Str.split "-" PageDate in
  let monthText :=
    MonthNames_at (JS.num_sub (JS.ToNumber (split_at PageDate 1)) (Int 1)) in
  match PageType with
  | DateType.Day =>
      text_of (dateSplit !! 0%nat) +:+ "-" +:+ text_of monthText +:+ "-"
      +:+ text_of (dateSplit !! 2%nat)
  | DateType.Month => text_of monthText +:+ " Overview"
  end.

(** [UpdatePage()] *)
Definition UpdatePage (p : Page) : Page :=
  p |> emit (SetHeader (header_text (PageDate p) (PageType p)))
    |> emit (ReplaceQuery ("?date=" +:+ PageDate p))
    |> emit (SetTitle ("Report | " +:+ PageDate p)).

(** ** index.ts: the loading counter *)

(** [markLoading()] *)
Definition markLoading (p : Page) : Page :=
  let n := JS.add (flagLoading p) (VNum (Int 1)) in
  p |> set_flagLoading n
    |> set_loading true
    |> emit (ConsoleLog ("markLoading(): " +:+ JS.ToString n)).

(** [markLoaded()] *)
Definition markLoaded (p : Page) : Page :=
  let n := JS.sub (flagLoading p) (VNum (Int 1)) in
  let p1 := p |> set_flagLoading (VNum n)
              |> emit (ConsoleLog ("markLoaded(): " +:+ JS.ToString (VNum n))) in
  match n with
  | Int 0 => set_loading false p1
  | _ => p1
  end.

(** [download()] *)
Definition download (p : Page) : Page :=
  if negb (JS.strict_eq_int (flagLoading p) 0) then
    emit (ConsoleError "Data has no yet loaded, cancelling download.") p
  else
    let p1 := if HasEnergyData p
              then emit (LinkClick ("api/downloads/energy/" +:+ PageDate p)) p else p in
    if HasBidData p1
    then emit (LinkClick ("api/downloads/bids/" +:+ PageDate p1)) p1 else p1.

(** ** index.ts: the two fetch pipelines of ChangeDate *)

(** How a request ends: [fetch] rejects, [response.json()] rejects, or a
    body is decoded. *)
Inductive Outcome :=
  | FetchRejected
  | JsonRejected (status : Z)
  | Json (status : Z) (body : value).

(** [time.slice(a, b)]: strings and arrays have [slice]; calling it on
    anything else throws. *)
Definition slice_method (a b : nat) (time : value) : result value :=
  match time with
  | VStr s => Ok (VStr (Str.slice a b s))
  | VArr elems => Ok (VArr (take (b - a) (drop a elems)))
  | _ => Throw
  end.

Definition with_times (newTimes : list value) (e : EnergyData.t) : EnergyData.t :=
  {| EnergyData.times := newTimes;
     EnergyData.predictedBuildingDemand := EnergyData.predictedBuildingDemand e;
     EnergyData.predictedSolarGeneration := EnergyData.predictedSolarGeneration e;
     EnergyData.predictedWindGeneration := EnergyData.predictedWindGeneration e;
     EnergyData.realBuildingDemand := EnergyData.realBuildingDemand e;
     EnergyData.realSolarGeneration := EnergyData.realSolarGeneration e;
     EnergyData.realWindGeneration := EnergyData.realWindGeneration e;
     EnergyData.predictedTotalGeneration := EnergyData.predictedTotalGeneration e;
     EnergyData.realTotalGeneration := EnergyData.realTotalGeneration e;
     EnergyData.predictedNetGeneration := EnergyData.predictedNetGeneration e;
     EnergyData.realNetGeneration := EnergyData.realNetGeneration e;
     EnergyData.carbonRate := EnergyData.carbonRate e;
     EnergyData.predictedCarbonSaved := EnergyData.predictedCarbonSaved e;
     EnergyData.realCarbonSaved := EnergyData.realCarbonSaved e |}.

(** The callback of [result.then] in the energy pipeline.  The page keeps
    what was written before a throw. *)
Definition energy_then (body : value) (p : Page) : result unit * Page :=
  let '(lines, valid) := ValidateResponse body energy in
  let p0 := emits (map ConsoleError lines) p in
  if negb valid then
    (Ok tt, emit (ConsoleError "Invalid api response from energy endpoint") p0)
  else
    match ProcessEnergy body with
    | Throw => (Throw, p0)
    | Ok e =>
        let p1 := p0 |> set_Energy e |> set_HasEnergyData true in
        let bounds := match PageType p1 with
                      | DateType.Day => (11, 16)
                      | DateType.Month => (0, 16)
                      end%nat in
        match mapM (slice_method bounds.1 bounds.2) (EnergyData.times e) with
        | Throw => (Throw, p1)
        | Ok newTimes =>
            let e' := with_times newTimes e in
            (Ok tt,
             p1 |> set_Energy e'
                |> emit (DisplayChart "windPower")
                |> emit (DisplayChart "solarPower")
                |> emit (DisplayChart "overviewPower")
                |> emit (DisplayChart "netPower")
                |> emit (UpdateCarbonCard (Some e'))
                |> skeletons SkeletonState.Hidden SkeletonType.Energy)
        end
    end.

(** The [.catch] that follows it. *)
Definition energy_catch (p : Page) : Page :=
  p |> emit (ConsoleError "Error parsing energy data")
    |> set_HasEnergyData false
    |> emit (UpdateCarbonCard None)
    |> skeletons SkeletonState.Error SkeletonType.Energy.

(** Everything the energy pipeline does once its request has ended. *)
Definition energy_settle (o : Outcome) (p : Page) : Page :=
  match o with
  | FetchRejected =>
      p |> emit (ConsoleError "Error requesting energy data")
        |> set_HasEnergyData false
        |> emit (UpdateCarbonCard None)
        |> skeletons SkeletonState.Error SkeletonType.Energy
        |> markLoaded
  | JsonRejected status =>
      p |> emit (ConsoleLog ("Energy Response Status:" +:+ Str.of_Z status))
        |> energy_catch
        |> markLoaded
  | Json status body =>
      match energy_then body
              (emit (ConsoleLog ("Energy Response Status:" +:+ Str.of_Z status)) p) with
      | (Ok _, p1) => markLoaded p1
      | (Throw, p1) => markLoaded (energy_catch p1)
      end
  end.

(** The callback of [result.then] in the bids pipeline. *)
Definition bids_then (body : value) (p : Page) : result unit * Page :=
  let '(lines, valid) := ValidateResponse body bids in
  let p0 := emits (map ConsoleError lines) p in
  if negb valid then
    (Ok tt, emit (ConsoleError "Invalid api response from bids endpoint") p0)
  else
    match ProcessBids body with
    | Throw => (Throw, p0)
    | Ok b =>
        (Ok tt,
         p0 |> set_Bids b
            |> set_HasBidData true
            |> emit (DisplayChart "overviewMarket")
            |> emit (UpdateProfitCard (Some b))
            |> emit (UpdateBidTable b)
            |> skeletons SkeletonState.Hidden SkeletonType.Market)
    end.

Definition bids_catch (p : Page) : Page :=
  p |> emit (ConsoleError "Error parsing bids")
    |> set_HasBidData false
    |> emit (UpdateProfitCard None)
    |> skeletons SkeletonState.Error SkeletonType.Market.

Definition bids_settle (o : Outcome) (p : Page) : Page :=
  match o with
  | FetchRejected =>
      p |> emit (ConsoleError "Error requesting bids")
        |> set_HasBidData false
        |> emit (UpdateProfitCard None)
        |> skeletons SkeletonState.Error SkeletonType.Market
        |> markLoaded
  | JsonRejected status =>
      p |> emit (ConsoleLog ("Bid Response Status:" +:+ Str.of_Z status))
        |> bids_catch
        |> markLoaded
  | Json status body =>
      match bids_then body
              (emit (ConsoleLog ("Bid Response Status:" +:+ Str.of_Z status)) p) with
      | (Ok _, p1) => markLoaded p1
      | (Throw, p1) => markLoaded (bids_catch p1)
      end
  end.

(** ** index.ts: ChangeDate and the requests in flight *)

Inductive Request :=
  | RequestEnergy (date : string)
  | RequestBids (date : string).

(** The page together with the requests whose promises are still pending,
    oldest first. *)
Record World := {
  page : Page;
  inflight : list Request;
}.

(** [ChangeDate(date)] up to the point where both requests are pending. *)
Definition ChangeDate (date : string) (w : World) : World :=
  if negb (ValidateDate date) then
    {| page := emit (ConsoleError ("Invalid Date from JavaScript: " +:+ date)) (page w);
       inflight := inflight w |}
  else
    {| page :=
         page w
           |> emit (ConsoleInfo ("Changing date to " +:+ date))
           |> set_PageType (if (String.length date =? 7)%nat
                            then DateType.Month else DateType.Day)
           |> set_PageDate date
           |> UpdatePage
           |> set_flagLoading (VNum (Int 1))
           |> markLoading
           |> emit (Fetch ("api/report/" +:+ date))
           |> emit (Fetch ("api/bids/" +:+ date));
       inflight := inflight w ++ [RequestEnergy date; RequestBids date] |}.

(** The pending request at position [i] ends with outcome [o]; [None] when
    there is no such request. *)
Definition settle (i : nat) (o : Outcome) (w : World) : option World :=
  match inflight w !! i with
  | Some (RequestEnergy _) =>
      Some {| page := energy_settle o (page w); inflight := delete i (inflight w) |}
  | Some (RequestBids _) =>
      Some {| page := bids_settle o (page w); inflight := delete i (inflight w) |}
  | None => None
  end.

(** A run of settlements, in the given order. *)
Fixpoint settles (events : list (nat * Outcome)) (w : World) : option World :=
  match events with
  | [] => Some w
  | (i, o) :: rest =>
      match settle i o w with
      | Some w' => settles rest w'
      | None => None
      end
  end.

(** ** index.ts: picking the start date in pageLoad *)

Inductive Latest :=
  | LatestNull
  | LatestDay (day : ReportDay.t)
  | LatestMonth (month : ReportMonth.t).

(** The inner [for] loop over [month.days], from the current [latest]:
    the final [latest] and [foundExact]. *)
Fixpoint days_loop (PageDate : string) (days : list ReportDay.t)
    (latest : option ReportDay.t) : option ReportDay.t * bool :=
  match days with
  | [] => (latest, false)
  | day :: rest =>
      let latest0 := default day latest in
      if String.eqb (ReportDay.date day) PageDate then (Some day, true)
      else if JS.num_gt (ReportDay.day day) (ReportDay.day latest0)
      then days_loop PageDate rest (Some day)
      else days_loop PageDate rest (Some latest0)
  end.

(** [PageDate.split("-")[0] + "-" + PageDate.split("-")[1]] *)
Definition year_month (PageDate : string) : string :=
  text_of (Str.split "-" PageDate !! 0%nat) +:+ "-"
  +:+ text_of (Str.split "-" PageDate !! 1%nat).

(** The outer [for] loop over [Dates]: the final [latest] and [foundExact]. *)
Fixpoint months_loop (PageDate : string) (PageType : DateType.t) (Dates : ReportMonths)
  : Latest * bool :=
  match Dates with
  | [] => (LatestNull, false)
  | month :: rest =>
      if String.eqb (ReportMonth.date month) (year_month PageDate) then
        match PageType with
        | DateType.Month => (LatestMonth month, true)
        | DateType.Day =>
            match days_loop PageDate (ReportMonth.days month) None with
            | (Some day, found) => (LatestDay day, found)
            | (None, found) => (LatestNull, found)
            end
        end
      else months_loop PageDate PageType rest
  end.

Definition Latest_date (l : Latest) : option string :=
  match l with
  | LatestNull => None
  | LatestDay day => Some (ReportDay.date day)
  | LatestMonth month => Some (ReportMonth.date month)
  end.

(** What [pageLoad] does with the processed [Dates] once they are shown:
    the search, the silent fallback when no [date=] parameter was given, and
    the call of [ChangeDate].  The [console.log] lines of the search itself
    are left out. *)
Definition pageLoad_resolve (urlDate : option string) (Dates : ReportMonths) (w : World)
  : World :=
  let '(latest, foundExact) :=
    months_loop (PageDate (page w)) (PageType (page w)) Dates in
  let p0 := page w in
  let '(p1, foundExact1) :=
    match urlDate, foundExact with
    | None, false =>
        match Latest_date latest with
        | Some d =>
            (p0 |> set_PageDate d
                |> emit (ConsoleLog "No reports for today, so we picked the closest date"),
             true)
        | None =>
            (emit (ConsoleError "Unable to find any records for this month.") p0, false)
        end
    | _, _ => (p0, foundExact)
    end in
  match foundExact1, Latest_date latest with
  | true, Some d => ChangeDate d {| page := p1; inflight := inflight w |}
  | _, _ =>
      {| page := emit (ConsoleError ("Unable to find given provided date. '"
                                     +:+ PageDate p1 +:+ "'")) p1;
         inflight := inflight w |}
  end.

(** ** Frames of a pipeline's completion *)

(** The part of the page a pipeline may write besides its own flag,
    cache and section. *)
Definition shared_frame (p p' : Page) : Prop :=
  PageDate p' = PageDate p /\ PageType p' = PageType p
  /\ dom_dates p' = dom_dates p
  /\ flagLoading p' = VNum (JS.sub (flagLoading p) (VNum (Int 1))).

Definition energy_frame (p p' : Page) : Prop :=
  HasEnergyData p' = HasEnergyData p /\ Energy p' = Energy p
  /\ dom_energy p' = dom_energy p.

Definition bids_frame (p p' : Page) : Prop :=
  HasBidData p' = HasBidData p /\ Bids p' = Bids p
  /\ dom_market p' = dom_market p.


(** ** index.ts: the synchronous part of pageLoad *)

(** The page before [pageLoad] has run: variables unassigned, nothing
    traced.  The section classes are those of the served document and are
    all overwritten by [pageLoad]. *)
Definition blank_page : Page :=
  let dom := {| content_hidden := false; skeleton_hidden := false;
                skeleton_error := false; skeleton_effect := None |} in
  {| PageDate := ""; PageType := DateType.Day; HasBidData := false;
     HasEnergyData := false; flagLoading := VUndefined; Energy := None; Bids := None;
     dom_energy := dom; dom_market := dom; dom_dates := dom;
     button_loading := false; overlay := false; trace := [] |}.

(** [pageLoad()] up to the point where the dates request is pending, given
    what the URL parsing at its start produced: the [date=] parameter, if
    any, with the page type its length selects. *)
Definition pageLoad_start (urlDate : option string) (urlType : DateType.t) (Today : string)
  : Page :=
  let p := blank_page
             |> set_PageType urlType
             |> skeletons SkeletonState.Visible SkeletonType.Energy
             |> skeletons SkeletonState.Visible SkeletonType.Market
             |> skeletons SkeletonState.Visible SkeletonType.Dates in
  let p1 :=
    match urlDate with
    | Some d =>
        if ValidateDate d then set_PageDate d p
        else p |> set_PageDate Today
               |> emit (ConsoleError ("Invalid date: '" +:+ d
                                      +:+ "' Using today's date instead."))
    | None =>
        p |> set_PageDate Today
          |> emit (ConsoleWarn ("No date given, using today's date '" +:+ Today +:+ "'"))
    end in
  p1 |> emit (Fetch "api/dates") |> UpdatePage.


(** ** The rows of the endpoints as the API documents them *)

(** Sum of a list of integers. *)
Definition Zsum (l : list Z) : Z := foldr Z.add 0 l.

(** One row of [GET bids/{date}], [[date, hour, type, volume, price]], whose
    hour, volume and price are integers. *)
Record BidRow := {
  row_date : string;
  row_hour : Z;
  row_type : string;
  row_volume : Z;
  row_price : Z;
}.

(** [volume * price * (+1 if Sell else -1)] *)
Definition signed_value (r : BidRow) : Z :=
  row_volume r * row_price r * (if String.eqb (row_type r) BidType_Sell then 1 else -1).

Definition sold_volume (r : BidRow) : Z :=
  if String.eqb (row_type r) BidType_Sell then row_volume r else 0.

Definition brought_volume (r : BidRow) : Z :=
  if String.eqb (row_type r) BidType_Buy then row_volume r else 0.


(** [row[i]] on a row that is not [null]. *)
Definition cell (row : value) (i : nat) : value :=
  match JS.index row i with
  | Ok v => v
  | Throw => VUndefined
  end.

(** The carbon rate of a row with time stamp [element0], for a rate table
    that is not [null]. *)
Definition rate_of (rates : value) (element0 : value) : value :=
  match element0 with
  | VStr s => prop rates (Str.slice 0 10 s)
  | _ => VNum (Int 0)
  end.

(** The specification's real total: null if either real solar or real wind
    is null, else their sum. *)
Definition spec_realTotal (solar wind : value) : value :=
  if JS.is_nullish solar || JS.is_nullish wind then VNull else JS.add solar wind.

(** The specification's real net: null if the real total is null; else null
    if real demand is null; otherwise total minus demand. *)
Definition spec_realNet (total demand : value) : value :=
  if JS.is_null total then VNull
  else if JS.is_null demand then VNull
  else VNum (JS.sub total demand).

(** Predicted net generation of a row. *)
Definition row_predictedNet (row : value) : num :=
  JS.sub (JS.add (cell row 2) (cell row 3)) (cell row 1).

(** What a row adds to the predicted carbon saved. *)
Definition row_predictedCO2 (rates row : value) : num :=
  JS.mul (VNum (row_predictedNet row)) (rate_of rates (cell row 0)).

(** What a row adds to the real carbon saved: nothing ([Int 0] is not added
    either) unless its real net is computed. *)
Definition row_realCO2 (rates row : value) (co2 : num) : num :=
  if JS.is_nullish (cell row 5) || JS.is_nullish (cell row 6) then co2
  else if JS.is_null (cell row 4) then co2
  else JS.num_add co2
         (JS.mul (VNum (JS.sub (JS.add (cell row 5) (cell row 6)) (cell row 4)))
                 (rate_of rates (cell row 0))).


(** One entry of [GET dates]: the key ["YYYY-MM"], given by its year and
    month digits, and the day numbers with a report. *)
Record DatesEntry := {
  entry_year : string;
  entry_month : string;
  entry_days : list Z;
}.

Definition DatesEntry_key (e : DatesEntry) : string :=
  entry_year e +:+ "-" +:+ entry_month e.

(** The entry as it arrives: an own property of the response object. *)
Definition DatesEntry_raw (e : DatesEntry) : string * value :=
  (DatesEntry_key e, VArr (map (fun d => VNum (Int d)) (entry_days e))).

(** A non-empty string of decimal digits, and the number it writes. *)
Definition is_number (s : string) : Prop :=
  s <> "" /\ forallb Str.is_digit (Str.to_list s) = true.

Definition number_of (s : string) : Z := Str.digits_value 0 (Str.to_list s).

(** The day the specification asks for: date ["YYYY-MM-DD"] with the day
    padded to two digits, and the day number. *)
Definition DatesEntry_day (e : DatesEntry) (d : Z) : ReportDay.t :=
  {| ReportDay.date := DatesEntry_key e +:+ "-" +:+ Str.padStart2 (Str.of_Z d);
     ReportDay.day := Int d |}.

(** The month the specification asks for. *)
Definition DatesEntry_month (e : DatesEntry) : ReportMonth.t :=
  {| ReportMonth.date := DatesEntry_key e;
     ReportMonth.days := map (DatesEntry_day e) (entry_days e);
     ReportMonth.month := Int (number_of (entry_month e));
     ReportMonth.year := Int (number_of (entry_year e));
     ReportMonth.name := MonthNames_at (Int (number_of (entry_month e) - 1)) |}.


(** ** The processing functions over a store *)

(** To speak of mutation, the three processing functions are given a second
    time as the statements of their bodies acting on a store: every array
    and variable the code declares is a cell, the response is a cell too,
    and [push] and assignment write cells.  Cells hold whole trees, so an
    element read from the response is a copy. *)

Abbreviation addr := nat.
Abbreviation store := (list value).

(** A computation on the store that may throw; the store keeps what was
    written before a throw. *)
Definition M (A : Type) : Type := store -> result A * store.

Definition ret {A} (a : A) : M A := fun s => (Ok a, s).

Definition bind {A B} (m : M A) (k : A -> M B) : M B :=
  fun s =>
    match m s with
    | (Ok a, s') => k a s'
    | (Throw, s') => (Throw, s')
    end.

Notation "x <~ m ;; k" := (bind m (fun x => k))
  (at level 100, m at next level, right associativity).
Notation "m ;;; k" := (bind m (fun _ => k))
  (at level 100, right associativity).

(** A pure step that may throw. *)
Definition lift {A} (r : result A) : M A := fun s => (r, s).

(** [const x = v] or [let x = v]: a new cell. *)
Definition alloc (v : value) : M addr := fun s => (Ok (length s), s ++ [v]).

Definition read (a : addr) : M value := fun s => (Ok (default VUndefined (s !! a)), s).

(** [x = v] *)
Definition write (a : addr) (v : value) : M unit := fun s => (Ok tt, <[a := v]> s).

(** [x.push(v)] *)
Definition push (a : addr) (v : value) : M unit :=
  fun s =>
    match s !! a with
    | Some (VArr elems) => (Ok tt, <[a := VArr (elems ++ [v])]> s)
    | _ => (Throw, s)
    end.

(** The iterations of [forEach] from index [k] on, [n] of them: each reads
    the array again and skips an index that is gone. *)
Fixpoint forEach_from (array : M (list value)) (cb : value -> M unit) (k n : nat) : M unit :=
  match n with
  | O => ret tt
  | S n' =>
      elems <~ array;;
      match elems !! k with
      | Some e => cb e
      | None => ret tt
      end;;;
      forEach_from array cb (S k) n'
  end.

(** [array.forEach(cb)]: the length is taken once, at the start. *)
Definition forEachS (array : M (list value)) (cb : value -> M unit) : M unit :=
  elems <~ array;;
  forEach_from array cb 0 (length elems).

(** [data.data] as the array [forEach] walks. *)
Definition data_rows (data : addr) : M (list value) :=
  d <~ read data;;
  rows <~ lift (JS.get d "data");;
  lift (JS.elements rows).

(** The objects the functions return, as trees. *)
Definition Bid_value (b : Bid.t) : value :=
  VObj [("date", Bid.date b); ("hour", Bid.hour b); ("type", Bid.type b);
        ("volume", Bid.volume b); ("price", Bid.price b)].

Definition BidData_value (d : BidData.t) : value :=
  VObj [("bids", VArr (map Bid_value (BidData.bids d)));
        ("profit", VNum (BidData.profit d));
        ("totalVolume", BidData.totalVolume d);
        ("volumeBrought", VNum (BidData.volumeBrought d));
        ("volumeSold", VNum (BidData.volumeSold d))].

Definition EnergyData_value (e : EnergyData.t) : value :=
  VObj [("times", VArr (EnergyData.times e));
        ("carbonRate", EnergyData.carbonRate e);
        ("predictedBuildingDemand", VArr (EnergyData.predictedBuildingDemand e));
        ("predictedSolarGeneration", VArr (EnergyData.predictedSolarGeneration e));
        ("predictedWindGeneration", VArr (EnergyData.predictedWindGeneration e));
        ("predictedTotalGeneration", VArr (EnergyData.predictedTotalGeneration e));
        ("predictedNetGeneration", VArr (EnergyData.predictedNetGeneration e));
        ("predictedCarbonSaved", VNum (EnergyData.predictedCarbonSaved e));
        ("realBuildingDemand", VArr (EnergyData.realBuildingDemand e));
        ("realSolarGeneration", VArr (EnergyData.realSolarGeneration e));
        ("realWindGeneration", VArr (EnergyData.realWindGeneration e));
        ("realTotalGeneration", VArr (EnergyData.realTotalGeneration e));
        ("realNetGeneration", VArr (EnergyData.realNetGeneration e));
        ("realCarbonSaved", VNum (EnergyData.realCarbonSaved e))].

Definition ReportDay_value (d : ReportDay.t) : value :=
  VObj [("date", VStr (ReportDay.date d)); ("day", VNum (ReportDay.day d))].

Definition name_value (name : option string) : value :=
  match name with
  | Some s => VStr s
  | None => VUndefined
  end.

Definition ReportMonth_value (m : ReportMonth.t) : value :=
  VObj [("date", VStr (ReportMonth.date m));
        ("days", VArr (map ReportDay_value (ReportMonth.days m)));
        ("month", VNum (ReportMonth.month m));
        ("name", name_value (ReportMonth.name m));
        ("year", VNum (ReportMonth.year m))].

Definition ReportMonths_value (ms : ReportMonths) : value :=
  VArr (map ReportMonth_value ms).

(** The callback of [ProcessBids]; its free variables are the addresses of
    the five locals. *)
Definition ProcessBidsS_callback (bids profit volumeSold volumeBrought totalVolume : addr)
    (element : value) : M unit :=
  date <~ lift (JS.index element 0);;
  hour <~ lift (JS.index element 1);;
  type <~ lift (JS.index element 2);;
  volume <~ lift (JS.index element 3);;
  price <~ lift (JS.index element 4);;
  push bids (VObj [("date", date); ("hour", hour); ("type", type);
                   ("volume", volume); ("price", price)]);;;
  p <~ read profit;;
  write profit
    (JS.add p (VNum (JS.num_mul (JS.mul volume price)
                       (if JS.loose_eq_str type BidType_Sell then Int 1 else Int (-1)))));;;
  t <~ read totalVolume;;
  write totalVolume (JS.add t volume);;;
  vs <~ read volumeSold;;
  write volumeSold
    (JS.add vs (VNum (JS.mul volume
                        (VNum (if JS.loose_eq_str type BidType_Sell
                               then Int 1 else Int 0)))));;;
  vb <~ read volumeBrought;;
  write volumeBrought
    (JS.add vb (VNum (JS.mul volume
                        (VNum (if JS.loose_eq_str type BidType_Buy
                               then Int 1 else Int 0))))).

(** [ProcessBids], statement by statement; the result is the address of the
    returned object. *)
Definition ProcessBidsS (data : addr) : M addr :=
  bids <~ alloc (VArr []);;
  profit <~ alloc (VNum (Int 0));;
  volumeSold <~ alloc (VNum (Int 0));;
  volumeBrought <~ alloc (VNum (Int 0));;
  totalVolume <~ alloc (VNum (Int 0));;
  forEachS (data_rows data)
    (ProcessBidsS_callback bids profit volumeSold volumeBrought totalVolume);;;
  b <~ read bids;;
  p <~ read profit;;
  t <~ read totalVolume;;
  vb <~ read volumeBrought;;
  vs <~ read volumeSold;;
  alloc (VObj [("bids", b); ("profit", p); ("totalVolume", t);
               ("volumeBrought", vb); ("volumeSold", vs)]).

(** The five locals of [ProcessBids] as cells, in declaration order. *)
Definition BidData_cells (acc : BidData.t) : list value :=
  [VArr (map Bid_value (BidData.bids acc)); VNum (BidData.profit acc);
   VNum (BidData.volumeSold acc); VNum (BidData.volumeBrought acc);
   BidData.totalVolume acc].

(** The callback of [ProcessEnergy]; its free variables are the address of
    the response and those of the thirteen locals. *)
Definition ProcessEnergyS_callback (data : addr)
    (dates predictedBuildingDemand predictedSolarGeneration predictedWindGeneration
    predictedTotalGeneration realBuildingDemand realSolarGeneration realWindGeneration
    realTotalGeneration predictedNetPower realNetPower predictedCO2 realCO2 : addr)
    (element : value) : M unit :=
  e0 <~ lift (JS.index element 0);;
  push dates e0;;;
  carbonRate <~ match e0 with
                | VStr s =>
                    d <~ read data;;
                    rates <~ lift (JS.get d "carbonRate");;
                    lift (JS.get rates (Str.slice 0 10 s))
                | _ => ret (VNum (Int 0))
                end;;
  e1 <~ lift (JS.index element 1);;
  push predictedBuildingDemand e1;;;
  e2 <~ lift (JS.index element 2);;
  push predictedSolarGeneration e2;;;
  e3 <~ lift (JS.index element 3);;
  push predictedWindGeneration e3;;;
  push predictedTotalGeneration (JS.add e2 e3);;;
  push predictedNetPower (VNum (JS.sub (JS.add e2 e3) e1));;;
  pc <~ read predictedCO2;;
  write predictedCO2
    (JS.add pc (VNum (JS.mul (VNum (JS.sub (JS.add e2 e3) e1)) carbonRate)));;;
  e4 <~ lift (JS.index element 4);;
  push realBuildingDemand e4;;;
  e5 <~ lift (JS.index element 5);;
  push realSolarGeneration e5;;;
  e6 <~ lift (JS.index element 6);;
  push realWindGeneration e6;;;
  if JS.is_nullish e5 || JS.is_nullish e6 then
    push realTotalGeneration VNull;;;
    push realNetPower VNull
  else
    push realTotalGeneration (JS.add e5 e6);;;
    if negb (JS.is_null e4) then
      push realNetPower (VNum (JS.sub (JS.add e5 e6) e4));;;
      rc <~ read realCO2;;
      write realCO2
        (JS.add rc (VNum (JS.mul (VNum (JS.sub (JS.add e5 e6) e4)) carbonRate)))
    else
      push realNetPower VNull.

(** [ProcessEnergy], statement by statement. *)
Definition ProcessEnergyS (data : addr) : M addr :=
  dates <~ alloc (VArr []);;
  predictedBuildingDemand <~ alloc (VArr []);;
  predictedSolarGeneration <~ alloc (VArr []);;
  predictedWindGeneration <~ alloc (VArr []);;
  predictedTotalGeneration <~ alloc (VArr []);;
  realBuildingDemand <~ alloc (VArr []);;
  realSolarGeneration <~ alloc (VArr []);;
  realWindGeneration <~ alloc (VArr []);;
  realTotalGeneration <~ alloc (VArr []);;
  predictedNetPower <~ alloc (VArr []);;
  realNetPower <~ alloc (VArr []);;
  predictedCO2 <~ alloc (VNum (Int 0));;
  realCO2 <~ alloc (VNum (Int 0));;
  forEachS (data_rows data)
    (ProcessEnergyS_callback data dates predictedBuildingDemand predictedSolarGeneration predictedWindGeneration
       predictedTotalGeneration realBuildingDemand realSolarGeneration realWindGeneration
       realTotalGeneration predictedNetPower realNetPower predictedCO2 realCO2);;;
  times <~ read dates;;
  d <~ read data;;
  rates <~ lift (JS.get d "carbonRate");;
  pbd <~ read predictedBuildingDemand;;
  psg <~ read predictedSolarGeneration;;
  pwg <~ read predictedWindGeneration;;
  ptg <~ read predictedTotalGeneration;;
  png <~ read predictedNetPower;;
  pcs <~ read predictedCO2;;
  rbd <~ read realBuildingDemand;;
  rsg <~ read realSolarGeneration;;
  rwg <~ read realWindGeneration;;
  rtg <~ read realTotalGeneration;;
  rng <~ read realNetPower;;
  rcs <~ read realCO2;;
  alloc (VObj [("times", times); ("carbonRate", rates);
               ("predictedBuildingDemand", pbd); ("predictedSolarGeneration", psg);
               ("predictedWindGeneration", pwg); ("predictedTotalGeneration", ptg);
               ("predictedNetGeneration", png); ("predictedCarbonSaved", pcs);
               ("realBuildingDemand", rbd); ("realSolarGeneration", rsg);
               ("realWindGeneration", rwg); ("realTotalGeneration", rtg);
               ("realNetGeneration", rng); ("realCarbonSaved", rcs)]).

(** The thirteen locals of [ProcessEnergy] as cells, in declaration order. *)
Definition EnergyData_cells (acc : EnergyData.t) : list value :=
  [VArr (EnergyData.times acc);
   VArr (EnergyData.predictedBuildingDemand acc);
   VArr (EnergyData.predictedSolarGeneration acc);
   VArr (EnergyData.predictedWindGeneration acc);
   VArr (EnergyData.predictedTotalGeneration acc);
   VArr (EnergyData.realBuildingDemand acc);
   VArr (EnergyData.realSolarGeneration acc);
   VArr (EnergyData.realWindGeneration acc);
   VArr (EnergyData.realTotalGeneration acc);
   VArr (EnergyData.predictedNetGeneration acc);
   VArr (EnergyData.realNetGeneration acc);
   VNum (EnergyData.predictedCarbonSaved acc);
   VNum (EnergyData.realCarbonSaved acc)].

(** The [for ... in] loop over the keys enumerated at its start; a key that
    is no longer an own property when its turn comes is skipped. *)
Fixpoint for_inS (object : M value) (keys : list string) (body : string -> value -> M unit)
  : M unit :=
  match keys with
  | [] => ret tt
  | key :: rest =>
      o <~ object;;
      (if existsb (String.eqb key) (map fst (JS.own_entries o))
       then body key (prop o key) else ret tt);;;
      for_inS object rest body
  end.

(** The callback of [monthDays.forEach] in [ProcessDates]. *)
Definition ProcessDatesS_day (days : addr) (yearMonth : string) (day : value) : M unit :=
  text <~ lift (JS.toString day);;
  push days (VObj [("date", VStr (yearMonth +:+ "-" +:+ Str.padStart2 text));
                   ("day", VNum (JS.parseInt day))]).

(** The body of the [for ... in] loop of [ProcessDates]. *)
Definition ProcessDatesS_body (months : addr) (yearMonth : string) (monthDays : value)
  : M unit :=
  days <~ alloc (VArr []);;
  forEachS (lift (JS.elements monthDays)) (ProcessDatesS_day days yearMonth);;;
  ds <~ read days;;
  push months
    (VObj [("date", VStr yearMonth);
           ("days", ds);
           ("month", VNum (JS.parseInt (split_at yearMonth 1)));
           ("name", name_value
                      (MonthNames_at (JS.num_sub (JS.parseInt (split_at yearMonth 1))
                                        (Int 1))));
           ("year", VNum (JS.parseInt (split_at yearMonth 0)))]).

(** [ProcessDates], statement by statement; the result is the address of
    the array [months]. *)
Definition ProcessDatesS (data : addr) : M addr :=
  months <~ alloc (VArr []);;
  d <~ read data;;
  for_inS (read data) (map fst (JS.own_entries d)) (ProcessDatesS_body months);;;
  ret months.

(** Running a store computation. *)
Definition run {A} (m : M A) (s : store) : result A * store := m s.

(** The store [s'] keeps every cell of [s] as it was. *)
Definition preserves (s s' : store) : Prop :=
  forall a : addr, (a < length s)%nat -> s' !! a = s !! a.


(** [m], run on the store [s0 ++ loc], leaves [s0] alone and ends as the
    pure result [r] says: normally with locals related to the new
    accumulator by [R], or with a throw. *)
Definition sim {Acc : Type} (R : Acc -> list value -> Prop) (s0 : store) (m : M unit)
    (loc : list value) (r : result Acc) : Prop :=
  exists res loc',
    run m (s0 ++ loc) = (res, s0 ++ loc')
    /\ match r with
       | Ok acc' => res = Ok tt /\ R acc' loc'
       | Throw => res = Throw
       end.


(** Reading an own key of [data] gives the value enumerated with it, as it
    does for every object whose keys are distinct. *)
Definition well_keyed (data : value) : Prop :=
  Forall (fun kv : string * value => prop data kv.1 = kv.2) (JS.own_entries data).

(** [mapM] as the loop that pushes each result. *)
Definition push_result {E A} (g : E -> result A) (acc : list A) (e : E)
  : result (list A) :=
  let? b := g e in Ok (acc ++ [b]).


Definition rmap {A B} (f : A -> B) (r : result A) : result B :=
  match r with
  | Ok a => Ok (f a)
  | Throw => Throw
  end.

(** What a caller gets from a run: the throw, or the tree found at the
    returned address. *)
Definition outcome (rs : result addr * store) : result (option value) :=
  rmap (fun ra : addr => rs.2 !! ra) rs.1.

(** ** JavaScript numbers as IEEE-754 doubles *)

(** The numbers of the program are binary64 floating-point values; they are
    taken here from the Standard Library's specification of IEEE-754
    arithmetic, with 53 bits of precision and rounding to nearest, ties to
    even. *)
Module Double.

Definition prec : Z := 53.
Definition emax : Z := 1024.

Definition t := spec_float.

(** [x + y], [x * y], [x / y] and [x == y] on numbers. *)
Definition add : t -> t -> t := SFadd prec emax.
Definition mul : t -> t -> t := SFmul prec emax.
Definition div : t -> t -> t := SFdiv prec emax.
Definition eqb : t -> t -> bool := SFeqb.

(** The double nearest to an integer: the number an integer literal or an
    integer of a JSON text denotes. *)
Definition of_Z (z : Z) : t := binary_normalize prec emax z 0 false.

(** The double nearest to the fraction [n/d]: the number a decimal such as
    [0.1] denotes in a JSON text ([n = 1], [d = 10]). *)
Definition decimal (n d : Z) : t := div (of_Z n) (of_Z d).

(** The integer of magnitude [p] and sign [s] ([true] is minus). *)
Definition signed (s : bool) (p : positive) : Z := cond_Zopp s (Zpos p).

(** The 53-bit form of the integer of magnitude [p < 2^53] and sign [s]:
    mantissa [p * 2^(53 - digits p)], exponent [digits p - 53]. *)
Definition canon (s : bool) (p : positive) : t :=
  S754_finite s (Z.to_pos (Zpos p * 2 ^ (53 - Zpos (digits2_pos p))))
             (Zpos (digits2_pos p) - 53).

(** [x] is the double of the integer [z]; a zero may carry either sign. *)
Definition is_int (x : t) (z : Z) : Prop :=
  x = of_Z z \/ (z = 0 /\ x = S754_zero true).

End Double.

(** ** requests.ts: ProcessBids on doubles *)

(** The sums of [ProcessBids] depend on how JavaScript numbers round, so
    the function is given a second time on the rows as the response type
    declares them, [[date, hour, type, volume, price]] with strings and
    numbers in their places, the numbers being IEEE-754 doubles. *)
Module Typed.

Record Row := {
  element0 : string;
  element1 : Double.t;
  element2 : string;
  element3 : Double.t;
  element4 : Double.t;
}.

Record Bid := {
  date : string;
  hour : Double.t;
  type : string;
  volume : Double.t;
  price : Double.t;
}.

Record BidData := {
  bids : list Bid;
  profit : Double.t;
  volumeSold : Double.t;
  volumeBrought : Double.t;
  totalVolume : Double.t;
}.

(** Body of the [data.data.forEach] callback. *)
Definition ProcessBids_callback (acc : BidData) (element : Row) : BidData :=
  let date := element0 element in
  let hour := element1 element in
  let type := element2 element in
  let volume := element3 element in
  let price := element4 element in
  let sell := String.eqb type BidType_Sell in
  let buy := String.eqb type BidType_Buy in
  {| bids := bids acc ++ [{| date := date; hour := hour; type := type;
                             volume := volume; price := price |}];
     profit :=
       Double.add (profit acc)
         (Double.mul (Double.mul volume price)
                     (if sell then Double.of_Z 1 else Double.of_Z (-1)));
     totalVolume := Double.add (totalVolume acc) volume;
     volumeSold :=
       Double.add (volumeSold acc)
         (Double.mul volume (if sell then Double.of_Z 1 else Double.of_Z 0));
     volumeBrought :=
       Double.add (volumeBrought acc)
         (Double.mul volume (if buy then Double.of_Z 1 else Double.of_Z 0)) |}.

Definition ProcessBids_init : BidData :=
  {| bids := []; profit := Double.of_Z 0; volumeSold := Double.of_Z 0;
     volumeBrought := Double.of_Z 0; totalVolume := Double.of_Z 0 |}.

Definition ProcessBids (data : list Row) : BidData :=
  foldl ProcessBids_callback ProcessBids_init data.

(** The bid pushed for a row. *)
Definition Bid_of_Row (element : Row) : Bid :=
  {| date := element0 element; hour := element1 element; type := element2 element;
     volume := element3 element; price := element4 element |}.

(** A row whose hour, volume and price are integers. *)
Definition Row_of (r : BidRow) : Row :=
  {| element0 := row_date r; element1 := Double.of_Z (row_hour r); element2 := row_type r;
     element3 := Double.of_Z (row_volume r); element4 := Double.of_Z (row_price r) |}.

End Typed.

(** The bid [ProcessBids] pushes for a row that is not [null]: its first
    five members by position, [undefined] where the row is shorter. *)
Definition Bid_of_row (row : value) : Bid.t :=
  {| Bid.date := cell row 0; Bid.hour := cell row 1; Bid.type := cell row 2;
     Bid.volume := cell row 3; Bid.price := cell row 4 |}.

(** The dates a catalog offers: the date of each month and of each of its
    days. *)
Definition catalog_date (Dates : ReportMonths) (d : string) : Prop :=
  exists month, month ∈ Dates
    /\ (d = ReportMonth.date month
        \/ exists day, day ∈ ReportMonth.days month /\ d = ReportDay.date day).

(** A catalog entry as the check of dates wants it: a year of four digits,
    a month of one or two digits up to 12, day numbers up to 31. *)
Definition well_formed_entry (e : DatesEntry) : Prop :=
  is_number (entry_year e) /\ String.length (entry_year e) = 4%nat
  /\ is_number (entry_month e) /\ (String.length (entry_month e) <= 2)%nat
  /\ number_of (entry_month e) <= 12
  /\ Forall (fun d => 0 <= d <= 31) (entry_days e).

(** ** charting.ts: tick labels *)

(** [tickDate]: the label of the tick, [getLabelForValue(index)], up to its
    first space. *)
Definition tickDate (label : string) : string :=
  nth 0 (Str.split " " label) "".

(** ** index.ts: the date parameter of the URL *)

(** Whether [l] starts with [sep]. *)
Fixpoint starts_with (sep l : list ascii) : bool :=
  match sep, l with
  | [], _ => true
  | _ :: _, [] => false
  | c :: sep', d :: l' => Ascii.eqb c d && starts_with sep' l'
  end.

(** [s.split(sep)] for a separator of one or more characters: [skip]
    characters of a separator just found are still to be passed over. *)
Fixpoint split_str_aux (sep : list ascii) (skip : nat) (cur l : list ascii) : list string :=
  match l with
  | [] => [Str.of_list (rev cur)]
  | c :: r =>
      match skip with
      | S k => split_str_aux sep k cur r
      | O =>
          if starts_with sep l
          then Str.of_list (rev cur) :: split_str_aux sep (length sep - 1) [] r
          else split_str_aux sep 0 (c :: cur) r
      end
  end.

Definition split_str (sep s : string) : list string :=
  split_str_aux (Str.to_list sep) 0 [] (Str.to_list s).

(** The start of [pageLoad]: [urlDate] and [PageType] as read from
    [window.location.href]. *)
Definition pageLoad_url (href : string) : option string * DateType.t :=
  match Str.split "?" href !! 1%nat with
  | None => (None, DateType.Day)
  | Some param =>
      let n := String.length param in
      if (13 <? n)%nat && (n <? 16)%nat then
        let dateParam := split_str "date=" param in
        if (length dateParam =? 2)%nat then (dateParam !! 1%nat, DateType.Day)
        else (None, DateType.Day)
      else if (10 <? n)%nat && (n <? 13)%nat then
        let dateParam := split_str "date=" param in
        if (length dateParam =? 2)%nat then (dateParam !! 1%nat, DateType.Month)
        else (None, DateType.Day)
      else (None, DateType.Day)
  end.

(** ** index.ts: the list of dates *)

(** The DOM nodes [CreateDates] builds: text, and elements with their
    attributes, children and, for a link, the date its [onclick] handler
    passes to [ChangeDate]. *)
Inductive Node :=
  | Text (s : string)
  | Element (tag : string) (attrs : list (string * string)) (onclick : option string)
            (children : list Node).

(** The children [el.textContent = s] leaves ([a.text = s] is the same
    assignment): none for the empty string and for [undefined], which the
    DOM reads as [null]. *)
Definition textContent (s : option string) : list Node :=
  match s with
  | None | Some "" => []
  | Some s => [Text s]
  end.

(** Body of the [month.days.forEach] callback: the list item of a day. *)
Definition CreateDates_day (month : ReportMonth.t) (day : ReportDay.t) : Node :=
  let link :=
    Element "a" [] (Some (ReportDay.date day))
      (textContent
         (Some (JS.ToString (VNum (ReportMonth.year month)) +:+ "-"
                +:+ text_of (ReportMonth.name month) +:+ "-"
                +:+ Str.padStart2 (JS.ToString (VNum (ReportDay.day day)))))) in
  Element "li" [] None [link].

(** Body of the [dates.forEach] callback: the [sl-details] element of a
    month. *)
Definition CreateDates_month (month : ReportMonth.t) : Node :=
  let monthDetailsSummaryTag :=
    Element "sl-tag" [("size", "small"); ("type", "info"); ("pill", "")] None
      (textContent (Some (Str.of_Z (Z.of_nat (length (ReportMonth.days month)))))) in
  let monthDetailsSummaryText :=
    Element "p" [] None
      (textContent (ReportMonth.name month) ++ [monthDetailsSummaryTag]) in
  let monthDetailsSummary :=
    Element "div" [("slot", "summary")] None [monthDetailsSummaryText] in
  let overviewLink :=
    Element "a" [] (Some (ReportMonth.date month))
      (textContent (Some (text_of (ReportMonth.name month) +:+ " Overview"))) in
  let overviewListItem := Element "li" [] None [overviewLink] in
  let linkList :=
    Element "ol" [] None
      (overviewListItem :: map (CreateDates_day month) (ReportMonth.days month)) in
  Element "sl-details" [] None [monthDetailsSummary; linkList].

(** [CreateDates(dates)]: the elements appended to the history list, in
    order. *)
Definition CreateDates (dates : ReportMonths) : list Node :=
  map CreateDates_month dates.

(** The dates the links of a tree pass to [ChangeDate], in document order. *)
Fixpoint link_targets (n : Node) : list string :=
  match n with
  | Text _ => []
  | Element _ _ onclick children =>
      match onclick with Some d => [d] | None => [] end
      ++ flat_map link_targets children
  end.

(** ** index.ts: the dates pipeline of pageLoad *)

(** The page with its pending requests, and the children of the history
    list. *)
Record Document := {
  world : World;
  HistoryDates : list Node;
}.

(** The callback of [result.then] in the dates pipeline.  The variable
    [Dates] it assigns is read nowhere else and is left out. *)
Definition dates_then (urlDate : option string) (body : value) (d : Document)
  : result unit * Document :=
  let w := world d in
  let '(lines, valid) := ValidateResponse body dates in
  let p0 := emits (map ConsoleError lines) (page w) in
  if negb valid then
    (Ok tt,
     {| world := {| page := emit (ConsoleError "Invalid api response from date endpoint") p0;
                    inflight := inflight w |};
        HistoryDates := HistoryDates d |})
  else
    match ProcessDates body with
    | Throw =>
        (Throw, {| world := {| page := p0; inflight := inflight w |};
                   HistoryDates := HistoryDates d |})
    | Ok Dates =>
        (Ok tt,
         {| world :=
              pageLoad_resolve urlDate Dates
                {| page := skeletons SkeletonState.Hidden SkeletonType.Dates p0;
                   inflight := inflight w |};
            HistoryDates := HistoryDates d ++ CreateDates Dates |})
    end.

(** The [.catch] that follows it. *)
Definition dates_catch (d : Document) : Document :=
  {| world :=
       {| page := page (world d)
                    |> emit (ConsoleError "Unable to parse report dates")
                    |> skeletons SkeletonState.Error SkeletonType.Dates;
          inflight := inflight (world d) |};
     HistoryDates := HistoryDates d |}.

(** Everything the dates pipeline does once its request has ended. *)
Definition dates_settle (urlDate : option string) (o : Outcome) (d : Document) : Document :=
  let log status :=
    {| world := {| page := emit (ConsoleLog ("Date Response Status:" +:+ Str.of_Z status))
                             (page (world d));
                   inflight := inflight (world d) |};
       HistoryDates := HistoryDates d |} in
  match o with
  | FetchRejected =>
      {| world :=
           {| page := page (world d)
                        |> emit (ConsoleError "Error requesting report dates")
                        |> skeletons SkeletonState.Error SkeletonType.Dates;
              inflight := inflight (world d) |};
         HistoryDates := HistoryDates d |}
  | JsonRejected status => dates_catch (log status)
  | Json status body =>
      match dates_then urlDate body (log status) with
      | (Ok _, d1) => d1
      | (Throw, d1) => dates_catch d1
      end
  end.

(** ** index.ts: the page as events reach it *)

(** One event of a session: the end of the dates request of [pageLoad], a
    click on a link of the history list, which calls [ChangeDate], the end
    of a pending energy or bids request, or a click on the download
    button. *)
Inductive step : World -> World -> Prop :=
  | step_dates (urlDate : option string) (o : Outcome) (w : World) (history : list Node) :
      step w (world (dates_settle urlDate o {| world := w; HistoryDates := history |}))
  | step_ChangeDate (date : string) (w : World) :
      step w (ChangeDate date w)
  | step_settle (i : nat) (o : Outcome) (w w' : World) :
      settle i o w = Some w' -> step w w'
  | step_download (w : World) :
      step w {| page := download (page w); inflight := inflight w |}.

(** Any number of events. *)
Inductive steps : World -> World -> Prop :=
  | steps_refl (w : World) : steps w w
  | steps_step (w w1 w2 : World) : steps w w1 -> step w1 w2 -> steps w w2.

(** The availability flag of a dataset is set exactly when the content of
    its section is shown. *)
Definition flags_match (p : Page) : Prop :=
  HasEnergyData p = negb (content_hidden (dom_energy p))
  /\ HasBidData p = negb (content_hidden (dom_market p)).

(** * Properties *)

(** ** Response validation *)

Section Validation.

(** The bids case accepts exactly the non-null objects whose [data] is an
    array: nothing the row callbacks find changes the result. *)
Lemma ValidateResponse_bids_result (obj : value) :
  (ValidateResponse obj bids).2
  = String.eqb (JS.typeof obj) "object" && negb (JS.is_nullish obj)
    && JS.isArray (prop obj "data").
Proof.
  unfold ValidateResponse.
  destruct (String.eqb (JS.typeof obj) "object"); simpl; [|done].
  destruct (JS.is_nullish obj); simpl; [done|].
  destruct (prop obj "data"); reflexivity.
Qed.

(** The energy case depends on [carbonRate] and on [data] being an array,
    never on what the rows hold. *)
Lemma ValidateResponse_energy_result (obj : value) :
  (ValidateResponse obj energy).2
  = String.eqb (JS.typeof obj) "object" && negb (JS.is_nullish obj)
    && String.eqb (JS.typeof (prop obj "carbonRate")) "object"
    && negb (JS.is_null (prop obj "carbonRate"))
    && negb (JS.is_undefined (prop obj "data"))
    && match carbonRate_loop (JS.own_entries (prop obj "carbonRate")) with
       | None => true
       | Some _ => false
       end
    && JS.isArray (prop obj "data").
Proof.
  unfold ValidateResponse.
  destruct (String.eqb (JS.typeof obj) "object"); simpl; [|done].
  destruct (JS.is_nullish obj); simpl; [done|].
  destruct (prop obj "carbonRate") eqn:Hc; simpl; try done.
  all: destruct (JS.is_undefined (prop obj "data")); simpl; try done.
  all: destruct (carbonRate_loop _); simpl; try done.
  all: by destruct (prop obj "data").
Qed.


End Validation.

(** C2. [ValidateResponse] is claimed to return [false] whenever a
    structural rule is violated.  It does not for the rules checked inside
    the [forEach] callbacks: a bids payload whose [data] holds a non-array
    ([{data:[5]}]), or a row with a member that is neither number nor string
    ([{data:[[null,true]]}]), and an energy payload whose row starts with a
    number and continues with a string, are all accepted, although the
    violated rule is logged. *)
Theorem ValidateResponse_accepts_malformed_rows :
  ValidateResponse (VObj [("data", VArr [VNum (Int 5)])]) bids
    = (["Bid data array does not contain arrays."], true)
  /\ ValidateResponse (VObj [("data", VArr [VArr [VNull; VBool true]])]) bids
    = (["Bid data is not numeric or strings.";
        "Bid data is not numeric or strings."], true)
  /\ ValidateResponse
       (VObj [("carbonRate", VObj []);
              ("data", VArr [VArr [VNum (Int 5); VStr "x"]; VNum (Int 7)])]) energy
    = (["First element in Energy data array is not a string.";
        "Energy data array does not contain arrays."], true).
Proof. repeat split; reflexivity. Qed.

(** The two payloads the specification lists as tests behave as listed. *)
Example ValidateResponse_spec_examples :
  (ValidateResponse (VObj [("data", VStr "not-an-array")]) bids).2 = false
  /\ (ValidateResponse
        (VObj [("carbonRate", VObj [("a", VNum (Int 1))]); ("data", VArr [])]) energy).2
     = true.
Proof. split; reflexivity. Qed.

(** ** The page record under its updates *)

Section PageUpdates.

Lemma emits_app (es es' : list Effect) (p : Page) :
  emits (es ++ es') p = emits es' (emits es p).
Proof. unfold emits. apply foldl_app. Qed.

Lemma trace_emits (es : list Effect) (p : Page) :
  trace (emits es p) = trace p ++ es.
Proof.
  revert p. induction es as [|e es IH]; intros p; simpl.
  - by rewrite app_nil_r.
  - change (trace (emits es (emit e p)) = trace p ++ e :: es).
    rewrite IH. simpl. by rewrite <- app_assoc.
Qed.

(** Writing to the console or to a renderer changes nothing but the trace. *)
Lemma emits_frame (es : list Effect) (p : Page) :
  PageDate (emits es p) = PageDate p
  /\ PageType (emits es p) = PageType p
  /\ HasBidData (emits es p) = HasBidData p
  /\ HasEnergyData (emits es p) = HasEnergyData p
  /\ flagLoading (emits es p) = flagLoading p
  /\ Energy (emits es p) = Energy p
  /\ Bids (emits es p) = Bids p
  /\ (forall type, section type (emits es p) = section type p)
  /\ button_loading (emits es p) = button_loading p
  /\ overlay (emits es p) = overlay p.
Proof.
  revert p. induction es as [|e es IH]; intros p.
  - repeat split.
  - change (emits (e :: es) p) with (emits es (emit e p)).
    destruct (IH (emit e p)) as (?&?&?&?&?&?&?&Hs&?&?).
    repeat split; try assumption.
Qed.

(** [markLoaded] touches the counter, the loading marks and the console. *)
Lemma markLoaded_frame (p : Page) :
  PageDate (markLoaded p) = PageDate p
  /\ PageType (markLoaded p) = PageType p
  /\ HasBidData (markLoaded p) = HasBidData p
  /\ HasEnergyData (markLoaded p) = HasEnergyData p
  /\ Energy (markLoaded p) = Energy p
  /\ Bids (markLoaded p) = Bids p
  /\ (forall type, section type (markLoaded p) = section type p)
  /\ trace (markLoaded p)
     = trace p ++ [ConsoleLog ("markLoaded(): "
                               +:+ JS.ToString (VNum (JS.sub (flagLoading p) (VNum (Int 1)))))].
Proof.
  unfold markLoaded. destruct (JS.sub _ _) as [|[| |]]; by repeat split.
Qed.

Lemma markLoaded_counter (p : Page) :
  flagLoading (markLoaded p) = VNum (JS.sub (flagLoading p) (VNum (Int 1))).
Proof. unfold markLoaded. by destruct (JS.sub _ _) as [|[| |]]. Qed.

End PageUpdates.

(** ** The fetch pipelines *)

Section Pipelines.

(** A body that fails validation ends the energy callback at its early
    [return]: the page is written to only through the console and
    [markLoaded]. *)
Lemma energy_settle_invalid (p : Page) (status : Z) (body : value) :
  (ValidateResponse body energy).2 = false ->
  energy_settle (Json status body) p
  = markLoaded
      (emits ([ConsoleLog ("Energy Response Status:" +:+ Str.of_Z status)]
              ++ map ConsoleError (ValidateResponse body energy).1
              ++ [ConsoleError "Invalid api response from energy endpoint"]) p).
Proof.
  intros Hv. unfold energy_settle, energy_then.
  destruct (ValidateResponse body energy) as [lines valid]. simpl in *. subst valid.
  simpl. by rewrite !emits_app.
Qed.

Lemma bids_settle_invalid (p : Page) (status : Z) (body : value) :
  (ValidateResponse body bids).2 = false ->
  bids_settle (Json status body) p
  = markLoaded
      (emits ([ConsoleLog ("Bid Response Status:" +:+ Str.of_Z status)]
              ++ map ConsoleError (ValidateResponse body bids).1
              ++ [ConsoleError "Invalid api response from bids endpoint"]) p).
Proof.
  intros Hv. unfold bids_settle, bids_then.
  destruct (ValidateResponse body bids) as [lines valid]. simpl in *. subst valid.
  simpl. by rewrite !emits_app.
Qed.

Lemma markLoaded_emits_frames (es : list Effect) (p : Page) :
  shared_frame p (markLoaded (emits es p))
  /\ energy_frame p (markLoaded (emits es p))
  /\ bids_frame p (markLoaded (emits es p))
  /\ trace (markLoaded (emits es p))
     = trace p ++ es
       ++ [ConsoleLog ("markLoaded(): "
                       +:+ JS.ToString (VNum (JS.sub (flagLoading p) (VNum (Int 1)))))].
Proof.
  destruct (markLoaded_frame (emits es p)) as (H1&H2&H3&H4&H5&H6&Hs&Ht).
  destruct (emits_frame es p) as (G1&G2&G3&G4&G5&G6&G7&Gs&_).
  pose proof (markLoaded_counter (emits es p)) as Hc.
  unfold shared_frame, energy_frame, bids_frame.
  rewrite H1, H2, H3, H4, H5, H6, Ht, Hc, G1, G2, G3, G4, G5, G6, G7, trace_emits.
  rewrite <- app_assoc.
  repeat split.
  - etrans; [apply (Hs SkeletonType.Dates) | apply (Gs SkeletonType.Dates)].
  - etrans; [apply (Hs SkeletonType.Energy) | apply (Gs SkeletonType.Energy)].
  - etrans; [apply (Hs SkeletonType.Market) | apply (Gs SkeletonType.Market)].
Qed.

(** What an invalid energy body leaves behind: the availability flag, the
    cached aggregate and the section are as before, and the trace grows by
    console lines only. *)
Lemma energy_settle_invalid_frame (p : Page) (status : Z) (body : value) :
  (ValidateResponse body energy).2 = false ->
  let p' := energy_settle (Json status body) p in
  shared_frame p p' /\ energy_frame p p' /\ bids_frame p p'
  /\ trace p'
     = trace p
       ++ ([ConsoleLog ("Energy Response Status:" +:+ Str.of_Z status)]
           ++ map ConsoleError (ValidateResponse body energy).1
           ++ [ConsoleError "Invalid api response from energy endpoint"])
       ++ [ConsoleLog ("markLoaded(): "
                       +:+ JS.ToString (VNum (JS.sub (flagLoading p) (VNum (Int 1)))))].
Proof.
  intros Hv p'. subst p'. rewrite energy_settle_invalid by done.
  apply markLoaded_emits_frames.
Qed.

Lemma bids_settle_invalid_frame (p : Page) (status : Z) (body : value) :
  (ValidateResponse body bids).2 = false ->
  let p' := bids_settle (Json status body) p in
  shared_frame p p' /\ energy_frame p p' /\ bids_frame p p'
  /\ trace p'
     = trace p
       ++ ([ConsoleLog ("Bid Response Status:" +:+ Str.of_Z status)]
           ++ map ConsoleError (ValidateResponse body bids).1
           ++ [ConsoleError "Invalid api response from bids endpoint"])
       ++ [ConsoleLog ("markLoaded(): "
                       +:+ JS.ToString (VNum (JS.sub (flagLoading p) (VNum (Int 1)))))].
Proof.
  intros Hv p'. subst p'. rewrite bids_settle_invalid by done.
  apply markLoaded_emits_frames.
Qed.

End Pipelines.

(** ** ChangeDate *)

Section Navigation.

Lemma ChangeDate_rejected (date : string) (w : World) :
  ValidateDate date = false ->
  ChangeDate date w
  = {| page := emit (ConsoleError ("Invalid Date from JavaScript: " +:+ date)) (page w);
       inflight := inflight w |}.
Proof. intros H. unfold ChangeDate. by rewrite H. Qed.

(** A rejected date changes neither the page date, nor its granularity,
    nor the counter, and starts no request. *)
Lemma ChangeDate_rejected_frame (date : string) (w : World) :
  ValidateDate date = false ->
  PageDate (page (ChangeDate date w)) = PageDate (page w)
  /\ PageType (page (ChangeDate date w)) = PageType (page w)
  /\ flagLoading (page (ChangeDate date w)) = flagLoading (page w)
  /\ inflight (ChangeDate date w) = inflight w
  /\ trace (page (ChangeDate date w))
     = trace (page w) ++ [ConsoleError ("Invalid Date from JavaScript: " +:+ date)].
Proof. intros H. rewrite ChangeDate_rejected by done. by repeat split. Qed.

Lemma ChangeDate_accepted_inflight (date : string) (w : World) :
  ValidateDate date = true ->
  inflight (ChangeDate date w) = inflight w ++ [RequestEnergy date; RequestBids date].
Proof. intros H. unfold ChangeDate. by rewrite H. Qed.

(** An accepted date sets the page date and granularity and the counter to
    [2], whatever the counter was; flags, caches and sections stay. *)
Lemma ChangeDate_accepted_frame (date : string) (w : World) :
  ValidateDate date = true ->
  let p' := page (ChangeDate date w) in
  PageDate p' = date
  /\ PageType p' = (if (String.length date =? 7)%nat then DateType.Month else DateType.Day)
  /\ flagLoading p' = VNum (Int 2)
  /\ button_loading p' = true /\ overlay p' = true
  /\ HasEnergyData p' = HasEnergyData (page w)
  /\ HasBidData p' = HasBidData (page w)
  /\ Energy p' = Energy (page w) /\ Bids p' = Bids (page w)
  /\ (forall type, section type p' = section type (page w))
  /\ trace p'
     = trace (page w)
       ++ [ConsoleInfo ("Changing date to " +:+ date);
           SetHeader (header_text date
                        (if (String.length date =? 7)%nat
                         then DateType.Month else DateType.Day));
           ReplaceQuery ("?date=" +:+ date);
           SetTitle ("Report | " +:+ date);
           ConsoleLog "markLoading(): 2";
           Fetch ("api/report/" +:+ date); Fetch ("api/bids/" +:+ date)].
Proof.
  intros H. unfold ChangeDate. rewrite H. simpl.
  repeat split. by rewrite <- !app_assoc.
Qed.

Lemma settle_energy_at (pre post : list Request) (date : string) (o : Outcome) (p : Page) :
  settle (length pre) o {| page := p; inflight := pre ++ RequestEnergy date :: post |}
  = Some {| page := energy_settle o p; inflight := pre ++ post |}.
Proof.
  unfold settle. simpl. rewrite list_lookup_middle by done.
  do 2 f_equal. induction pre; simpl; [done | by f_equal].
Qed.

Lemma settle_bids_at (pre post : list Request) (date : string) (o : Outcome) (p : Page) :
  settle (length pre) o {| page := p; inflight := pre ++ RequestBids date :: post |}
  = Some {| page := bids_settle o p; inflight := pre ++ post |}.
Proof.
  unfold settle. simpl. rewrite list_lookup_middle by done.
  do 2 f_equal. induction pre; simpl; [done | by f_equal].
Qed.

End Navigation.

(** C1. After [ChangeDate], a body that fails [ValidateResponse] is claimed
    to mark the dataset unavailable, to update the summary card with a null
    aggregate and to put the section in the error state.  The code returns
    early instead: with both endpoints answering [{}] to
    [ChangeDate("2021-07-22")], the availability flags, the cached
    aggregates and both sections are exactly as they were before the call,
    and the trace holds no card update, only console lines. *)
Theorem ChangeDate_invalid_body_leaves_section (w : World) (status : Z) :
  exists w2 w3,
    settle (length (inflight w)) (Json status (VObj [])) (ChangeDate "2021-07-22" w)
      = Some w2
    /\ settle (length (inflight w)) (Json status (VObj [])) w2 = Some w3
    /\ inflight w3 = inflight w
    /\ HasEnergyData (page w3) = HasEnergyData (page w)
    /\ HasBidData (page w3) = HasBidData (page w)
    /\ Energy (page w3) = Energy (page w)
    /\ Bids (page w3) = Bids (page w)
    /\ displayed (dom_energy (page w3)) = displayed (dom_energy (page w))
    /\ displayed (dom_market (page w3)) = displayed (dom_market (page w))
    /\ trace (page w3)
       = trace (page w)
         ++ [ConsoleInfo "Changing date to 2021-07-22";
             SetHeader "2021-July-22";
             ReplaceQuery "?date=2021-07-22";
             SetTitle "Report | 2021-07-22";
             ConsoleLog "markLoading(): 2";
             Fetch "api/report/2021-07-22";
             Fetch "api/bids/2021-07-22";
             ConsoleLog ("Energy Response Status:" +:+ Str.of_Z status);
             ConsoleError "Energy carbonRate field is missing.";
             ConsoleError "Invalid api response from energy endpoint";
             ConsoleLog "markLoaded(): 1";
             ConsoleLog ("Bid Response Status:" +:+ Str.of_Z status);
             ConsoleError "Bid data field is missing.";
             ConsoleError "Invalid api response from bids endpoint";
             ConsoleLog "markLoaded(): 0"].
Proof.
  assert (Hd : ValidateDate "2021-07-22" = true) by reflexivity.
  destruct (ChangeDate_accepted_frame "2021-07-22" w Hd)
    as (_&_&Hf&_&_&HE&HB&HEc&HBc&Hs&Ht).
  pose proof (ChangeDate_accepted_inflight "2021-07-22" w Hd) as Hi.
  destruct (ChangeDate "2021-07-22" w) as [p1 fl1]. simpl in *. subst fl1.
  assert (Hve : (ValidateResponse (VObj []) energy).2 = false) by reflexivity.
  assert (Hvb : (ValidateResponse (VObj []) bids).2 = false) by reflexivity.
  rewrite settle_energy_at. eexists _, _. split; [reflexivity|].
  rewrite settle_bids_at. split; [reflexivity|]. cbn [page inflight].
  destruct (energy_settle_invalid_frame p1 status _ Hve)
    as ((_&_&_&Hf2)&(HE2&HEc2&Hs2)&(HB2&HBc2&Hm2)&Ht2).
  destruct (bids_settle_invalid_frame (energy_settle (Json status (VObj [])) p1)
              status _ Hvb) as (_&(HE3&HEc3&Hs3)&(HB3&HBc3&Hm3)&Ht3).
  rewrite HE3, HE2, HE, HB3, HB2, HB, HEc3, HEc2, HEc, HBc3, HBc2, HBc.
  rewrite Hs3, Hs2, (Hs SkeletonType.Energy : dom_energy p1 = _).
  rewrite Hm3, Hm2, (Hs SkeletonType.Market : dom_market p1 = _).
  rewrite Ht3, Ht2, Ht, Hf2, Hf, app_nil_r.
  repeat split. rewrite <- !app_assoc. reflexivity.
Qed.

(** C3. The date check is claimed to accept exactly the strings of shape
    [YYYY-MM] or [YYYY-MM-DD] with month 1-12 and day 1-31, and [ChangeDate]
    to reject every other string without touching the page.  The check only
    compares lengths and tests [> 12] and [> 31], which are false for [0]
    and for [NaN]: month [00] and the non-numeric ["abcd-ef"] are accepted,
    and [ChangeDate] then sets the page date and starts both requests. *)
Theorem ValidateDate_accepts_other_shapes :
  ValidateDate "2021-00" = true
  /\ ValidateDate "abcd-ef" = true
  /\ ValidateDate "2021-07-00" = true
  /\ forall w : World,
       PageDate (page (ChangeDate "abcd-ef" w)) = "abcd-ef"
       /\ PageType (page (ChangeDate "abcd-ef" w)) = DateType.Month
       /\ inflight (ChangeDate "abcd-ef" w)
          = inflight w ++ [RequestEnergy "abcd-ef"; RequestBids "abcd-ef"]
       /\ PageDate (page (ChangeDate "2021-00" w)) = "2021-00"
       /\ inflight (ChangeDate "2021-00" w)
          = inflight w ++ [RequestEnergy "2021-00"; RequestBids "2021-00"].
Proof.
  repeat split; reflexivity.
Qed.

(** The rejection the specification lists as a test: [changeDate("2021-13")]
    logs and changes nothing else. *)
Example ChangeDate_2021_13 (w : World) :
  ChangeDate "2021-13" w
  = {| page := emit (ConsoleError "Invalid Date from JavaScript: 2021-13") (page w);
       inflight := inflight w |}.
Proof. by rewrite ChangeDate_rejected. Qed.

(** ** The loading counter *)

Section Counter.

Lemma energy_then_flag (body : value) (p : Page) :
  flagLoading (energy_then body p).2 = flagLoading p.
Proof.
  unfold energy_then.
  destruct (ValidateResponse body energy) as [lines valid].
  pose proof (emits_frame (map ConsoleError lines) p) as (_&_&_&_&Hf&_).
  destruct valid; simpl; [|exact Hf].
  destruct (ProcessEnergy body) as [e|]; simpl; [|exact Hf].
  destruct (mapM _ _); simpl; exact Hf.
Qed.

Lemma bids_then_flag (body : value) (p : Page) :
  flagLoading (bids_then body p).2 = flagLoading p.
Proof.
  unfold bids_then.
  destruct (ValidateResponse body bids) as [lines valid].
  pose proof (emits_frame (map ConsoleError lines) p) as (_&_&_&_&Hf&_).
  destruct valid; simpl; [|exact Hf].
  destruct (ProcessBids body) as [b|]; simpl; exact Hf.
Qed.

(** Every way a pipeline can end decrements the counter exactly once. *)
Lemma energy_settle_counter (o : Outcome) (p : Page) :
  flagLoading (energy_settle o p) = VNum (JS.sub (flagLoading p) (VNum (Int 1))).
Proof.
  destruct o as [|status|status body]; simpl; rewrite ?markLoaded_counter; try done.
  pose proof (energy_then_flag body
    (emit (ConsoleLog ("Energy Response Status:" +:+ Str.of_Z status)) p)) as H.
  destruct (energy_then _ _) as [[[]|] p1]; rewrite markLoaded_counter;
    simpl in *; by rewrite H.
Qed.

Lemma bids_settle_counter (o : Outcome) (p : Page) :
  flagLoading (bids_settle o p) = VNum (JS.sub (flagLoading p) (VNum (Int 1))).
Proof.
  destruct o as [|status|status body]; simpl; rewrite ?markLoaded_counter; try done.
  pose proof (bids_then_flag body
    (emit (ConsoleLog ("Bid Response Status:" +:+ Str.of_Z status)) p)) as H.
  destruct (bids_then _ _) as [[[]|] p1]; rewrite markLoaded_counter;
    simpl in *; by rewrite H.
Qed.

(** When the decrement reaches zero the loading marks are cleared. *)
Lemma markLoaded_zero (p : Page) :
  flagLoading p = VNum (Int 1) ->
  button_loading (markLoaded p) = false /\ overlay (markLoaded p) = false.
Proof. intros H. unfold markLoaded. rewrite H. by split. Qed.

Lemma energy_settle_zero (o : Outcome) (p : Page) :
  flagLoading p = VNum (Int 1) ->
  button_loading (energy_settle o p) = false /\ overlay (energy_settle o p) = false.
Proof.
  intros Hp.
  destruct o as [|status|status body]; simpl; try by apply markLoaded_zero.
  pose proof (energy_then_flag body
    (emit (ConsoleLog ("Energy Response Status:" +:+ Str.of_Z status)) p)) as H.
  destruct (energy_then _ _) as [[[]|] p1]; apply markLoaded_zero;
    simpl in *; by rewrite H.
Qed.

Lemma bids_settle_zero (o : Outcome) (p : Page) :
  flagLoading p = VNum (Int 1) ->
  button_loading (bids_settle o p) = false /\ overlay (bids_settle o p) = false.
Proof.
  intros Hp.
  destruct o as [|status|status body]; simpl; try by apply markLoaded_zero.
  pose proof (bids_then_flag body
    (emit (ConsoleLog ("Bid Response Status:" +:+ Str.of_Z status)) p)) as H.
  destruct (bids_then _ _) as [[[]|] p1]; apply markLoaded_zero;
    simpl in *; by rewrite H.
Qed.

(** One settlement: the counter drops by one and one request leaves the
    pending list. *)
Lemma settle_counter (i : nat) (o : Outcome) (w w' : World) (n : Z) :
  settle i o w = Some w' ->
  flagLoading (page w) = VNum (Int n) ->
  flagLoading (page w') = VNum (Int (n - 1))
  /\ S (length (inflight w')) = length (inflight w)
  /\ (n = 1 -> button_loading (page w') = false /\ overlay (page w') = false).
Proof.
  unfold settle. intros Hs Hn.
  destruct (inflight w !! i) as [[d|d]|] eqn:Hi; [| |done].
  all: injection Hs as <-; cbn [page inflight].
  all: apply lookup_lt_Some in Hi.
  all: assert (length (delete i (inflight w)) = (length (inflight w) - 1)%nat) as ->
         by (apply length_delete; by apply lookup_lt_is_Some_2).
  - rewrite energy_settle_counter, Hn.
    split; [done|]. split; [lia|]. intros ->. by apply energy_settle_zero.
  - rewrite bids_settle_counter, Hn.
    split; [done|]. split; [lia|]. intros ->. by apply bids_settle_zero.
Qed.

Lemma settle_is_Some (i : nat) (o : Outcome) (w : World) :
  (i < length (inflight w))%nat -> is_Some (settle i o w).
Proof.
  intros [r Hr]%lookup_lt_is_Some_2. unfold settle. rewrite Hr. destruct r; eauto.
Qed.

(** A run of settlements: the counter drops by the length of the run. *)
Lemma settles_counter (events : list (nat * Outcome)) (w w' : World) (n : Z) :
  settles events w = Some w' ->
  flagLoading (page w) = VNum (Int n) ->
  flagLoading (page w') = VNum (Int (n - Z.of_nat (length events)))
  /\ (length (inflight w') + length events)%nat = length (inflight w).
Proof.
  revert w n. induction events as [|[i o] rest IH]; intros w n Hs Hn; simpl in *.
  - injection Hs as <-. rewrite Hn. split; [do 2 f_equal; lia | lia].
  - destruct (settle i o w) as [w1|] eqn:H1; [|done].
    destruct (settle_counter _ _ _ _ _ H1 Hn) as (Hn1&Hl1&_).
    destruct (IH _ _ Hs Hn1) as (Hn'&Hl').
    rewrite Hn'. split; [do 2 f_equal; lia | lia].
Qed.

End Counter.

(** C10. [ChangeDate] writes [1] to the counter and then increments it, so
    an accepted call leaves the counter at [2] whatever it was and however
    many requests are pending.  From there every settlement takes one off:
    after any two settlements the counter is [0], the download guard passes
    and the loading marks are cleared, while the pending list is as long as
    it was before the call; after more settlements the counter is negative. *)
Theorem flagLoading_reset_by_ChangeDate
    (w w' : World) (date : string) (events : list (nat * Outcome)) :
  ValidateDate date = true ->
  settles events (ChangeDate date w) = Some w' ->
  flagLoading (page (ChangeDate date w)) = VNum (Int 2)
  /\ length (inflight (ChangeDate date w)) = (length (inflight w) + 2)%nat
  /\ flagLoading (page w') = VNum (Int (2 - Z.of_nat (length events)))
  /\ (length (inflight w') + length events)%nat = (length (inflight w) + 2)%nat
  /\ (length events = 2%nat ->
      JS.strict_eq_int (flagLoading (page w')) 0 = true
      /\ button_loading (page w') = false /\ overlay (page w') = false
      /\ length (inflight w') = length (inflight w))
  /\ ((2 < length events)%nat ->
      exists z, flagLoading (page w') = VNum (Int z) /\ z < 0).
Proof.
  intros Hd Hs.
  destruct (ChangeDate_accepted_frame date w Hd) as (_&_&Hf&_).
  pose proof (ChangeDate_accepted_inflight date w Hd) as Hi.
  destruct (settles_counter _ _ _ _ Hs Hf) as (Hn&Hl).
  rewrite Hi, length_app in *. simpl in Hl |- *.
  split; [done|]. split; [done|]. split; [done|]. split; [lia|]. split.
  - intros H2. rewrite Hn, H2. split; [done|].
    destruct events as [|[i1 o1] [|[i2 o2] [|]]]; try done. simpl in Hs.
    destruct (settle i1 o1 _) as [w1|] eqn:H1; [|done].
    destruct (settle_counter _ _ _ _ _ H1 Hf) as (Hf1&_&_).
    destruct (settle i2 o2 w1) as [w2|] eqn:H2'; [|done].
    injection Hs as ->.
    destruct (settle_counter _ _ _ _ _ H2' Hf1) as (_&_&Hz).
    destruct (Hz eq_refl) as [-> ->]. split; [done|]. split; [done|]. simpl in *. lia.
  - intros Hlt. eexists. split; [exact Hn|]. lia.
Qed.

(** The situation of the claim: a first [ChangeDate] has two requests
    pending when a second one is made; the two stale requests fail, and the
    counter is [0] with both new requests still in flight. *)
Lemma flagLoading_reset_by_ChangeDate_witness :
  let w := ChangeDate "2021-07"
             {| page := pageLoad_start None DateType.Day "2021-07-22"; inflight := [] |} in
  let events := [(0%nat, FetchRejected); (0%nat, FetchRejected)] in
  exists w',
    settles events (ChangeDate "2021-07-21" w) = Some w'
    /\ flagLoading (page w') = VNum (Int 0)
    /\ button_loading (page w') = false
    /\ inflight w' = [RequestEnergy "2021-07-21"; RequestBids "2021-07-21"].
Proof.
  intros w events.
  destruct (settles events (ChangeDate "2021-07-21" w)) as [w'|] eqn:Hs;
    [|by vm_compute in Hs].
  exists w'. split; [done|].
  destruct (flagLoading_reset_by_ChangeDate w w' "2021-07-21" events eq_refl Hs)
    as (_&_&Hn&_&H2&_).
  split; [exact Hn|]. split; [apply (H2 eq_refl)|].
  vm_compute in Hs. by injection Hs as <-.
Defined.

(** ** Picking the start date *)

Section Resolution.

Variable target : string.

(** An exact match ends the scan of the days, wherever it stands and
    whatever [latest] was. *)
Lemma days_loop_exact (days : list ReportDay.t) (latest : option ReportDay.t) :
  (exists d, d ∈ days /\ ReportDay.date d = target) ->
  exists d, days_loop target days latest = (Some d, true)
            /\ d ∈ days /\ ReportDay.date d = target.
Proof.
  revert latest. induction days as [|day rest IH]; intros latest [d [Hin Hd]].
  - by apply elem_of_nil in Hin.
  - simpl. destruct (String.eqb (ReportDay.date day) target) eqn:E.
    + apply String.eqb_eq in E. exists day. split; [done|]. split; [left|done].
    + assert (Hex : exists d, d ∈ rest /\ ReportDay.date d = target).
      { apply elem_of_cons in Hin as [->|Hin]; [|by eauto].
        apply String.eqb_neq in E. congruence. }
      destruct (JS.num_gt _ _);
        [destruct (IH (Some day) Hex) as (d'&->&Hin'&Hd')
        |destruct (IH (Some (default day latest)) Hex) as (d'&->&Hin'&Hd')];
        exists d'; (split; [done|]); (split; [by right | done]).
Qed.

(** Without an exact match the scan ends with a day at least as high as
    [latest] and as every day scanned. *)
Lemma days_loop_highest (days : list ReportDay.t) (l : ReportDay.t) (zl : Z) :
  (forall d, d ∈ days -> ReportDay.date d <> target) ->
  Forall (fun d => exists z, ReportDay.day d = Int z) days ->
  ReportDay.day l = Int zl ->
  exists d z, days_loop target days (Some l) = (Some d, false)
              /\ (d = l \/ d ∈ days)
              /\ ReportDay.day d = Int z /\ zl <= z
              /\ forall d', d' ∈ days -> exists z', ReportDay.day d' = Int z' /\ z' <= z.
Proof.
  revert l zl. induction days as [|day rest IH]; intros l zl Hne Hnum Hl.
  - exists l, zl. simpl. repeat split; [by left | done | lia |].
    intros d' Hd'. by apply elem_of_nil in Hd'.
  - apply Forall_cons in Hnum as [[zd Hzd] Hnum]. simpl.
    assert (E : String.eqb (ReportDay.date day) target = false).
    { apply String.eqb_neq, Hne. left. }
    rewrite E, Hzd, Hl. simpl.
    assert (Hne' : forall d, d ∈ rest -> ReportDay.date d <> target).
    { intros d Hd. apply Hne. by right. }
    destruct (zl <? zd) eqn:Hlt.
    + apply Z.ltb_lt in Hlt.
      destruct (IH day zd Hne' Hnum Hzd) as (d&z&->&Hin&Hz&Hle&Hall).
      exists d, z. repeat split; [|done|lia|].
      * right. destruct Hin as [->|Hin]; [left | by right].
      * intros d' [->|Hd']%elem_of_cons; [exists zd; split; [done|lia] | by apply Hall].
    + apply Z.ltb_ge in Hlt.
      destruct (IH l zl Hne' Hnum Hl) as (d&z&->&Hin&Hz&Hle&Hall).
      exists d, z. repeat split; [|done|done|].
      * destruct Hin as [->|Hin]; [by left | right; by right].
      * intros d' [->|Hd']%elem_of_cons; [exists zd; split; [done|lia] | by apply Hall].
Qed.

(** Months before the first one that carries the target's prefix are
    skipped. *)
Lemma months_loop_skip (type : DateType.t) (pre rest : ReportMonths) :
  Forall (fun m => ReportMonth.date m <> year_month target) pre ->
  months_loop target type (pre ++ rest) = months_loop target type rest.
Proof.
  induction 1 as [|m pre Hm _ IH]; [done|]. simpl.
  apply String.eqb_neq in Hm. by rewrite Hm.
Qed.

End Resolution.

(** C4. For a day-granularity target whose year-month prefix is carried by
    a month of the catalog (the first such month, [month] below): if a day of
    that month has the target as its date, the search returns such a day as
    an exact match; otherwise, when the month has days, it returns a day of
    the month whose day number is the highest of the month.  Day numbers are
    numbers, as a catalog of day numbers gives. *)
Theorem resolve_exact_or_highest_day
    (pre post : ReportMonths) (month : ReportMonth.t) (target : string) :
  Forall (fun m => ReportMonth.date m <> year_month target) pre ->
  ReportMonth.date month = year_month target ->
  Forall (fun d => exists z, ReportDay.day d = Int z) (ReportMonth.days month) ->
  let r := months_loop target DateType.Day (pre ++ month :: post) in
  ((exists d, d ∈ ReportMonth.days month /\ ReportDay.date d = target) ->
   exists d, r = (LatestDay d, true)
             /\ d ∈ ReportMonth.days month /\ ReportDay.date d = target)
  /\ ((forall d, d ∈ ReportMonth.days month -> ReportDay.date d <> target) ->
      ReportMonth.days month <> [] ->
      exists d z, r = (LatestDay d, false)
                  /\ d ∈ ReportMonth.days month
                  /\ ReportDay.day d = Int z
                  /\ forall d', d' ∈ ReportMonth.days month ->
                                exists z', ReportDay.day d' = Int z' /\ z' <= z).
Proof.
  intros Hpre Hm Hnum r. subst r. rewrite months_loop_skip by done. simpl.
  apply String.eqb_eq in Hm. rewrite Hm. split.
  - intros Hex. destruct (days_loop_exact target _ None Hex) as (d&->&Hin&Hd).
    by exists d.
  - intros Hne Hdays. destruct (ReportMonth.days month) as [|day rest] eqn:E; [done|].
    apply Forall_cons in Hnum as [[zd Hzd] Hnum]. simpl.
    assert (E' : String.eqb (ReportDay.date day) target = false).
    { apply String.eqb_neq, Hne. left. }
    rewrite E', Hzd. simpl. rewrite Z.ltb_irrefl.
    assert (Hne' : forall d, d ∈ rest -> ReportDay.date d <> target).
    { intros d Hd. apply Hne. by right. }
    destruct (days_loop_highest target rest day zd Hne' Hnum Hzd)
      as (d&z&->&Hin&Hz&Hle&Hall).
    exists d, z. repeat split; [|done|].
    + destruct Hin as [->|Hin]; [left | by right].
    + intros d' [->|Hd']%elem_of_cons; [exists zd; split; [done|lia] | by apply Hall].
Qed.

(** The catalog [{"2021-07": [5, 20]}] and the target ["2021-07-10"]: the
    search gives day 20, the highest, not day 5, the nearest. *)
Lemma resolve_exact_or_highest_day_witness :
  exists Dates d,
    ProcessDates (VObj [("2021-07", VArr [VNum (Int 5); VNum (Int 20)])]) = Ok Dates
    /\ months_loop "2021-07-10" DateType.Day Dates = (LatestDay d, false)
    /\ d = {| ReportDay.date := "2021-07-20"; ReportDay.day := Int 20 |}.
Proof.
  set (d5 := {| ReportDay.date := "2021-07-05"; ReportDay.day := Int 5 |}).
  set (d20 := {| ReportDay.date := "2021-07-20"; ReportDay.day := Int 20 |}).
  set (m := {| ReportMonth.days := [d5; d20]; ReportMonth.month := Int 7;
               ReportMonth.year := Int 2021; ReportMonth.date := "2021-07";
               ReportMonth.name := Some "July" |}).
  assert (Hnum : Forall (fun d => exists z, ReportDay.day d = Int z) (ReportMonth.days m)).
  { repeat constructor; eexists; reflexivity. }
  destruct (resolve_exact_or_highest_day [] [] m "2021-07-10"
              (Forall_nil_2 _) eq_refl Hnum) as [_ H].
  destruct H as (d&z&Hr&Hin&Hz&Hall).
  - intros d Hd. simpl in Hd.
    apply elem_of_cons in Hd as [->|Hd]; [done|].
    apply elem_of_cons in Hd as [->|Hd]; [done|]. by apply elem_of_nil in Hd.
  - done.
  - exists [m], d. split; [reflexivity|]. split; [exact Hr|].
    destruct (Hall d20) as (z'&Hz'&Hle); [right; left|].
    injection Hz' as <-.
    simpl in Hin. apply elem_of_cons in Hin as [->|Hin].
    + simpl in Hz. injection Hz as <-. lia.
    + apply elem_of_cons in Hin as [->|Hin]; [done|]. by apply elem_of_nil in Hin.
Defined.

(** ** Doubles: integers below 2^53 are computed with exactly *)

Section Rounding.

Lemma digits2_pos_size (p : positive) : digits2_pos p = Pos.size p.
Proof. induction p; simpl; by rewrite ?IHp. Qed.

(** A positive number of [d] binary digits lies in [2^(d-1), 2^d). *)
Lemma digits2_bounds (p : positive) :
  2 ^ (Zpos (digits2_pos p) - 1) <= Zpos p < 2 ^ Zpos (digits2_pos p).
Proof.
  rewrite digits2_pos_size. split.
  - pose proof (Pos.size_le p) as H.
    assert (H' : 2 ^ Zpos (Pos.size p) <= 2 * Zpos p).
    { change 2 with (Zpos 2) at 1. rewrite <- Pos2Z.inj_pow. lia. }
    replace (Zpos (Pos.size p)) with (Z.succ (Zpos (Pos.size p) - 1)) in H' by lia.
    rewrite Z.pow_succ_r in H' by lia. lia.
  - pose proof (Pos.size_gt p) as H.
    change 2 with (Zpos 2). rewrite <- Pos2Z.inj_pow. lia.
Qed.

Lemma digits2_unique (p : positive) (d : Z) :
  2 ^ (d - 1) <= Zpos p < 2 ^ d -> Zpos (digits2_pos p) = d.
Proof.
  intros [Hl Hu]. pose proof (digits2_bounds p) as [Hl' Hu'].
  assert (0 < d).
  { destruct (Z.lt_trichotomy d 0) as [?|[->|?]]; [|simpl in Hu; lia|done].
    rewrite Z.pow_neg_r in Hu by done. lia. }
  destruct (Z.lt_trichotomy (Zpos (digits2_pos p)) d) as [Hlt|[->|Hgt]]; [|done|].
  - assert (2 ^ Zpos (digits2_pos p) <= 2 ^ (d - 1)) by (apply Z.pow_le_mono_r; lia). lia.
  - assert (2 ^ d <= 2 ^ (Zpos (digits2_pos p) - 1)) by (apply Z.pow_le_mono_r; lia). lia.
Qed.

Lemma digits2_mul_pow2 (m p : positive) (j : Z) :
  0 <= j -> Zpos m = Zpos p * 2 ^ j ->
  Zpos (digits2_pos m) = Zpos (digits2_pos p) + j.
Proof.
  intros Hj Hm. apply digits2_unique. pose proof (digits2_bounds p) as [Hl Hu].
  rewrite Hm. replace (Zpos (digits2_pos p) + j - 1) with (Zpos (digits2_pos p) - 1 + j) by lia.
  rewrite !Z.pow_add_r by lia. assert (0 < 2 ^ j) by (apply Z.pow_pos_nonneg; lia).
  split; nia.
Qed.

Lemma iter_pos_nat {A} (f : A -> A) (n : positive) (x : A) :
  iter_pos f n x = Nat.iter (Pos.to_nat n) f x.
Proof.
  revert x. induction n as [n IH|n IH|]; intros x; cbn [iter_pos].
  - rewrite !IH, Pos2Nat.inj_xI.
    replace (S (2 * Pos.to_nat n)) with (Pos.to_nat n + S (Pos.to_nat n))%nat by lia.
    by rewrite Nat.iter_add, Nat.iter_succ_r.
  - rewrite !IH, Pos2Nat.inj_xO.
    replace (2 * Pos.to_nat n)%nat with (Pos.to_nat n + Pos.to_nat n)%nat by lia.
    by rewrite Nat.iter_add.
  - done.
Qed.

(** Shifting out [n] zero bits loses nothing. *)
Lemma iter_shr_1_exact (n : nat) (M : positive) :
  Nat.iter n shr_1 {| shr_m := Zpos M * 2 ^ Z.of_nat n; shr_r := false; shr_s := false |}
  = {| shr_m := Zpos M; shr_r := false; shr_s := false |}.
Proof.
  revert M. induction n as [|n IH]; intros M.
  - simpl. by rewrite Z.mul_1_r.
  - rewrite Nat.iter_succ.
    replace (Zpos M * 2 ^ Z.of_nat (S n)) with (Zpos (M~0) * 2 ^ Z.of_nat n).
    + by rewrite IH.
    + rewrite Nat2Z.inj_succ, Z.pow_succ_r by lia. lia.
Qed.


Lemma fexp_digits (d : Z) : 1 <= d -> fexp 53 1024 d = d - 53.
Proof. intros H. unfold fexp, emin. lia. Qed.

(** A mantissa and exponent that write the integer [p < 2^53], at an
    exponent not above the one of [p]'s own 53-bit form, round to that
    form: nothing is lost. *)
Lemma binary_round_aux_integer (s : bool) (m p : positive) (e : Z) :
  e <= Zpos (digits2_pos p) - 53 ->
  Zpos m = Zpos p * 2 ^ (- e) ->
  Zpos p < 2 ^ 53 ->
  exists mz,
    binary_round_aux 53 1024 s (Zpos m) e loc_Exact
    = S754_finite s mz (Zpos (digits2_pos p) - 53)
    /\ Zpos mz = Zpos p * 2 ^ (53 - Zpos (digits2_pos p)).
Proof.
  intros He Hm Hp. set (d := Zpos (digits2_pos p)) in *.
  assert (Hd : 1 <= d <= 53).
  { subst d. split; [lia|]. pose proof (digits2_bounds p) as [Hl _].
    destruct (Z.le_gt_cases (Zpos (digits2_pos p)) 53) as [|Hgt]; [done|].
    assert (2 ^ 53 <= 2 ^ (Zpos (digits2_pos p) - 1)) by (apply Z.pow_le_mono_r; lia).
    lia. }
  assert (He0 : e <= 0) by lia.
  assert (Hdm : Zpos (digits2_pos m) = d - e).
  { rewrite (digits2_mul_pow2 m p (- e)) by (done || lia). lia. }
  set (M := Z.to_pos (Zpos p * 2 ^ (53 - d))).
  assert (HM : Zpos M = Zpos p * 2 ^ (53 - d)).
  { subst M. rewrite Z2Pos.id; [done|].
    assert (0 < 2 ^ (53 - d)) by (apply Z.pow_pos_nonneg; lia). lia. }
  assert (HdM : Zpos (digits2_pos M) = 53).
  { rewrite (digits2_mul_pow2 M p (53 - d)) by (done || lia). lia. }
  exists M. split; [|done].
  unfold binary_round_aux, shr_fexp. cbn [Zdigits2 shr_record_of_loc].
  rewrite Hdm. replace (d - e + e) with d by lia. rewrite fexp_digits by lia.
  destruct (d - 53 - e) as [|q|q] eqn:Hq; [| |lia].
  - cbn [shr shr_m loc_of_shr_record round_nearest_even Zdigits2].
    rewrite Hdm. replace (d - e + e) with d by lia. rewrite fexp_digits by lia.
    rewrite Hq. cbn [shr shr_m].
    assert (e = d - 53) as -> by lia.
    assert (M = m) as <-.
    { apply Pos2Z.inj. rewrite HM, Hm. f_equal. f_equal. lia. }
    replace (d - 53 <=? 1024 - 53) with true; [done|].
    symmetry. apply Z.leb_le. lia.
  - cbn [shr]. rewrite iter_pos_nat.
    assert (Zpos m = Zpos M * 2 ^ Z.of_nat (Pos.to_nat q)) as ->.
    { rewrite positive_nat_Z, <- Hq, HM, Hm, <- Z.mul_assoc, <- Z.pow_add_r by lia.
      do 2 f_equal. lia. }
    rewrite iter_shr_1_exact.
    cbn [shr_m loc_of_shr_record round_nearest_even Zdigits2].
    rewrite HdM. replace (53 + (e + Zpos q)) with d by lia. rewrite fexp_digits by lia.
    replace (d - 53 - (e + Zpos q)) with 0 by lia. cbn [shr shr_m].
    replace (e + Zpos q) with (d - 53) by lia.
    replace (d - 53 <=? 1024 - 53) with true; [done|].
    symmetry. apply Z.leb_le. lia.
Qed.


Lemma binary_round_aux_canon (s : bool) (m p : positive) (e : Z) :
  e <= Zpos (digits2_pos p) - 53 ->
  Zpos m = Zpos p * 2 ^ (- e) ->
  Zpos p < 2 ^ 53 ->
  binary_round_aux 53 1024 s (Zpos m) e loc_Exact = Double.canon s p.
Proof.
  intros He Hm Hp.
  destruct (binary_round_aux_integer s m p e He Hm Hp) as (mz&->&Hmz).
  unfold Double.canon. by rewrite <- Hmz.
Qed.

Lemma shl_align_value (m : positive) (e e' : Z) :
  e' <= e ->
  Zpos (shl_align m e e').1 = Zpos m * 2 ^ (e - e')
  /\ (shl_align m e e').2 = e'.
Proof.
  intros He. unfold shl_align. destruct (e' - e) as [|q|q] eqn:Hq; [|lia|].
  - assert (e' = e) as -> by lia. simpl. rewrite Z.sub_diag. split; [lia | done].
  - simpl. split; [|done].
    change (Pos.iter xO m q) with (shift_pos q m).
    rewrite shift_pos_correct. change (Z.pow_pos 2 q) with (2 ^ Zpos q).
    replace (e - e') with (Zpos q) by lia. lia.
Qed.

Lemma shl_align_above (m : positive) (e e' : Z) :
  e <= e' -> shl_align m e e' = (m, e).
Proof. intros He. unfold shl_align. destruct (e' - e) eqn:Hq; [done|done|lia]. Qed.

(** [binary_round] of any way of writing the integer [p < 2^53] with a
    non-positive exponent is the 53-bit form of [p]. *)
Lemma binary_round_canon (s : bool) (m p : positive) (e : Z) :
  e <= 0 ->
  Zpos m = Zpos p * 2 ^ (- e) ->
  Zpos p < 2 ^ 53 ->
  binary_round 53 1024 s m e = Double.canon s p.
Proof.
  intros He Hm Hp. unfold binary_round.
  rewrite (digits2_mul_pow2 m p (- e)) by (done || lia).
  replace (Zpos (digits2_pos p) + - e + e) with (Zpos (digits2_pos p)) by lia.
  rewrite fexp_digits by lia.
  destruct (Z.le_gt_cases e (Zpos (digits2_pos p) - 53)) as [Hle|Hgt].
  - rewrite shl_align_above by done. by apply binary_round_aux_canon.
  - destruct (shl_align_value m e (Zpos (digits2_pos p) - 53)) as [Hv He']; [lia|].
    destruct (shl_align m e _) as [mz ez]. simpl in Hv, He'. subst ez.
    apply binary_round_aux_canon; [lia| |done].
    rewrite Hv, Hm, <- Z.mul_assoc, <- Z.pow_add_r by lia. do 2 f_equal. lia.
Qed.

Lemma of_Z_pos (p : positive) : Zpos p < 2 ^ 53 -> Double.of_Z (Zpos p) = Double.canon false p.
Proof.
  intros Hp. unfold Double.of_Z, binary_normalize.
  apply binary_round_canon; [done| |done]. simpl. lia.
Qed.

Lemma of_Z_neg (p : positive) : Zpos p < 2 ^ 53 -> Double.of_Z (Zneg p) = Double.canon true p.
Proof.
  intros Hp. unfold Double.of_Z, binary_normalize.
  apply binary_round_canon; [done| |done]. simpl. lia.
Qed.


Lemma canon_spec (s : bool) (p : positive) :
  Zpos p < 2 ^ 53 ->
  exists mz ez,
    Double.canon s p = S754_finite s mz ez
    /\ ez = Zpos (digits2_pos p) - 53 /\ ez <= 0
    /\ Zpos mz = Zpos p * 2 ^ (- ez).
Proof.
  intros Hp. eexists _, _. split; [reflexivity|]. split; [done|].
  pose proof (digits2_bounds p) as [Hl _].
  assert (Zpos (digits2_pos p) <= 53).
  { destruct (Z.le_gt_cases (Zpos (digits2_pos p)) 53) as [|Hgt]; [done|].
    assert (2 ^ 53 <= 2 ^ (Zpos (digits2_pos p) - 1)) by (apply Z.pow_le_mono_r; lia).
    lia. }
  split; [lia|]. rewrite Z2Pos.id.
  - do 2 f_equal. lia.
  - assert (0 < 2 ^ (53 - Zpos (digits2_pos p))) by (apply Z.pow_pos_nonneg; lia). lia.
Qed.

(** The double of [z], from any scaled way of writing it. *)
Lemma binary_normalize_scaled (z e : Z) :
  Z.abs z < 2 ^ 53 -> e <= 0 ->
  binary_normalize 53 1024 (z * 2 ^ (- e)) e false = Double.of_Z z.
Proof.
  intros Hz He. assert (Hpow : 0 < 2 ^ (- e)) by (apply Z.pow_pos_nonneg; lia).
  destruct z as [|p|p].
  - done.
  - rewrite of_Z_pos by lia.
    destruct (Zpos p * 2 ^ (- e)) as [|m|m] eqn:Hm; [lia| |lia].
    unfold binary_normalize. apply binary_round_canon; [done|done|lia].
  - rewrite of_Z_neg by lia.
    destruct (Zneg p * 2 ^ (- e)) as [|m|m] eqn:Hm; [lia|lia|].
    unfold binary_normalize. apply binary_round_canon; [done|lia|lia].
Qed.

Lemma of_Z_signed (s : bool) (p : positive) :
  Zpos p < 2 ^ 53 -> Double.of_Z (Double.signed s p) = Double.canon s p.
Proof. destruct s; simpl; [apply of_Z_neg | apply of_Z_pos]. Qed.

Lemma add_canon (sa sb : bool) (pa pb : positive) :
  Zpos pa < 2 ^ 53 -> Zpos pb < 2 ^ 53 ->
  Z.abs (Double.signed sa pa + Double.signed sb pb) < 2 ^ 53 ->
  Double.add (Double.canon sa pa) (Double.canon sb pb)
  = Double.of_Z (Double.signed sa pa + Double.signed sb pb).
Proof.
  intros Ha Hb Hab.
  destruct (canon_spec sa pa Ha) as (ma&ea&->&_&Hea&Hma).
  destruct (canon_spec sb pb Hb) as (mb&eb&->&_&Heb&Hmb).
  unfold Double.add, SFadd. cbv zeta.
  destruct (shl_align_value ma ea (Z.min ea eb)) as [Hva _]; [lia|].
  destruct (shl_align_value mb eb (Z.min ea eb)) as [Hvb _]; [lia|].
  change (fst ?x) with (x.1). rewrite Hva, Hvb, Hma, Hmb.
  rewrite <- (binary_normalize_scaled _ (Z.min ea eb)) by (done || lia).
  f_equal. rewrite <- !Z.mul_assoc, <- !Z.pow_add_r by lia.
  replace (- ea + (ea - Z.min ea eb)) with (- Z.min ea eb) by lia.
  replace (- eb + (eb - Z.min ea eb)) with (- Z.min ea eb) by lia.
  unfold Double.signed. destruct sa, sb; simpl; lia.
Qed.

Lemma Z_as_signed (z : Z) : z <> 0 -> exists s p, z = Double.signed s p /\ Zpos p = Z.abs z.
Proof.
  destruct z as [|p|p]; [done| |]; intros _.
  - by exists false, p.
  - by exists true, p.
Qed.

(** Adding the doubles of two integers is exact while the sum stays below
    [2^53]. *)
Lemma add_of_Z (a b : Z) :
  Z.abs a < 2 ^ 53 -> Z.abs b < 2 ^ 53 -> Z.abs (a + b) < 2 ^ 53 ->
  Double.add (Double.of_Z a) (Double.of_Z b) = Double.of_Z (a + b).
Proof.
  intros Ha Hb Hab.
  destruct (Z.eq_dec a 0) as [->|Hna].
  { rewrite Z.add_0_l.
    destruct b; [done| |]; [rewrite of_Z_pos by lia | rewrite of_Z_neg by lia];
      reflexivity. }
  destruct (Z.eq_dec b 0) as [->|Hnb].
  { rewrite Z.add_0_r.
    destruct a; [done| |]; [rewrite of_Z_pos by lia | rewrite of_Z_neg by lia];
      reflexivity. }
  destruct (Z_as_signed a Hna) as (sa&pa&->&Hpa).
  destruct (Z_as_signed b Hnb) as (sb&pb&->&Hpb).
  rewrite !of_Z_signed by lia. apply add_canon; lia.
Qed.

(** Distinct integers below [2^53] have distinct doubles. *)
Lemma of_Z_inj (a b : Z) :
  Z.abs a < 2 ^ 53 -> Z.abs b < 2 ^ 53 -> Double.of_Z a = Double.of_Z b -> a = b.
Proof.
  intros Ha Hb.
  destruct (Z.eq_dec a 0) as [->|Hna]; destruct (Z.eq_dec b 0) as [->|Hnb]; [done|..].
  - destruct (Z_as_signed b Hnb) as (sb&pb&->&Hpb). by rewrite of_Z_signed by lia.
  - destruct (Z_as_signed a Hna) as (sa&pa&->&Hpa). by rewrite of_Z_signed by lia.
  - destruct (Z_as_signed a Hna) as (sa&pa&->&Hpa).
    destruct (Z_as_signed b Hnb) as (sb&pb&->&Hpb).
    rewrite !of_Z_signed by lia. unfold Double.canon. intros [= -> Hm He].
    assert (Hd : Zpos (digits2_pos pa) = Zpos (digits2_pos pb)) by lia.
    rewrite Hd in Hm.
    pose proof (digits2_bounds pb) as [Hl _].
    assert (Zpos (digits2_pos pb) <= 53).
    { destruct (Z.le_gt_cases (Zpos (digits2_pos pb)) 53) as [|Hgt]; [done|].
      assert (2 ^ 53 <= 2 ^ (Zpos (digits2_pos pb) - 1)) by (apply Z.pow_le_mono_r; lia).
      lia. }
    assert (Hpow : 0 < 2 ^ (53 - Zpos (digits2_pos pb))) by (apply Z.pow_pos_nonneg; lia).
    apply Z2Pos.inj in Hm; [|lia..].
    f_equal. apply Pos2Z.inj. nia.
Qed.

Lemma add_is_int (a b : Z) (y : Double.t) :
  Double.is_int y b ->
  Z.abs a < 2 ^ 53 -> Z.abs b < 2 ^ 53 -> Z.abs (a + b) < 2 ^ 53 ->
  Double.add (Double.of_Z a) y = Double.of_Z (a + b).
Proof.
  intros [->|[-> ->]] Ha Hb Hab; [by apply add_of_Z|].
  rewrite Z.add_0_r.
  destruct a; [done| |]; [rewrite of_Z_pos by lia | rewrite of_Z_neg by lia];
    reflexivity.
Qed.


Lemma digits2_mul_lower (pa pb : positive) :
  Zpos (digits2_pos pa) + Zpos (digits2_pos pb) - 1 <= Zpos (digits2_pos (pa * pb)).
Proof.
  pose proof (digits2_bounds pa) as [Ha _]. pose proof (digits2_bounds pb) as [Hb _].
  pose proof (digits2_bounds (pa * pb)) as [_ Hab].
  set (da := Zpos (digits2_pos pa)) in *. set (db := Zpos (digits2_pos pb)) in *.
  set (d := Zpos (digits2_pos (pa * pb))) in *.
  assert (0 < da /\ 0 < db /\ 0 < d) as (?&?&?) by (subst da db d; lia).
  destruct (Z.le_gt_cases (da + db - 1) d) as [|Hgt]; [done|].
  assert (2 ^ d <= 2 ^ (da - 1 + (db - 1))) by (apply Z.pow_le_mono_r; lia).
  rewrite Z.pow_add_r in * by lia. rewrite Pos2Z.inj_mul in Hab. nia.
Qed.

Lemma mul_canon (sa sb : bool) (pa pb : positive) :
  Zpos pa < 2 ^ 53 -> Zpos pb < 2 ^ 53 -> Zpos (pa * pb) < 2 ^ 53 ->
  Double.mul (Double.canon sa pa) (Double.canon sb pb)
  = Double.canon (xorb sa sb) (pa * pb).
Proof.
  intros Ha Hb Hab.
  destruct (canon_spec sa pa Ha) as (ma&ea&->&Hda&Hea&Hma).
  destruct (canon_spec sb pb Hb) as (mb&eb&->&Hdb&Heb&Hmb).
  unfold Double.mul, SFmul.
  pose proof (digits2_mul_lower pa pb).
  apply binary_round_aux_canon; [lia| |done].
  rewrite !Pos2Z.inj_mul, Hma, Hmb.
  replace (- (ea + eb)) with (- ea + - eb) by lia. rewrite Z.pow_add_r by lia. lia.
Qed.

Lemma signed_mul (sa sb : bool) (pa pb : positive) :
  Double.signed sa pa * Double.signed sb pb = Double.signed (xorb sa sb) (pa * pb).
Proof. unfold Double.signed. destruct sa, sb; simpl; lia. Qed.

(** Multiplying the doubles of two integers is exact while the product
    stays below [2^53]; a zero factor gives a zero, of either sign. *)
Lemma mul_is_int (x y : Double.t) (a b : Z) :
  Double.is_int x a -> Double.is_int y b ->
  Z.abs a < 2 ^ 53 -> Z.abs b < 2 ^ 53 -> Z.abs (a * b) < 2 ^ 53 ->
  Double.is_int (Double.mul x y) (a * b).
Proof.
  intros Hx Hy Ha Hb Hab.
  assert (Hzero : forall s, Double.is_int (S754_zero s) 0).
  { intros [|]; [by right | by left]. }
  destruct (Z.eq_dec a 0) as [->|Hna].
  { assert (exists s, x = S754_zero s) as [s ->].
    { destruct Hx as [->|[_ ->]]; by eexists. }
    rewrite Z.mul_0_l.
    destruct (Z.eq_dec b 0) as [->|Hnb].
    - assert (exists s', y = S754_zero s') as [s' ->].
      { destruct Hy as [->|[_ ->]]; by eexists. }
      apply Hzero.
    - destruct Hy as [->|[? _]]; [|done].
      destruct (Z_as_signed b Hnb) as (sb&pb&->&Hpb).
      rewrite of_Z_signed by lia. apply Hzero. }
  destruct Hx as [->|[? _]]; [|done].
  destruct (Z_as_signed a Hna) as (sa&pa&->&Hpa).
  destruct (Z.eq_dec b 0) as [->|Hnb].
  { assert (exists s', y = S754_zero s') as [s' ->].
    { destruct Hy as [->|[_ ->]]; by eexists. }
    rewrite Z.mul_0_r, of_Z_signed by lia. apply Hzero. }
  destruct Hy as [->|[? _]]; [|done].
  destruct (Z_as_signed b Hnb) as (sb&pb&->&Hpb).
  left. rewrite signed_mul in *. rewrite !of_Z_signed, mul_canon; try done; try lia.
  all: unfold Double.signed in Hab; destruct (xorb sa sb); simpl in Hab; lia.
Qed.

End Rounding.

(** ** ProcessBids *)

Section Bids.

Lemma Zsum_cons (x : Z) (l : list Z) : Zsum (x :: l) = x + Zsum l.
Proof. reflexivity. Qed.

Lemma Zsum_abs_nonneg {A} (f : A -> Z) (l : list A) :
  0 <= Zsum (map (fun a => Z.abs (f a)) l).
Proof.
  induction l as [|a l IH]; [done|]. cbn [map]. rewrite Zsum_cons. lia.
Qed.

(** A bid of type Sell or Buy counts in exactly one of the two volumes. *)
Lemma sold_brought_volume (rows : list BidRow) :
  Forall (fun r => row_type r = BidType_Sell \/ row_type r = BidType_Buy) rows ->
  Zsum (map row_volume rows)
  = Zsum (map sold_volume rows) + Zsum (map brought_volume rows).
Proof.
  induction 1 as [|r rows Hr _ IH]; [done|]. simpl. rewrite IH.
  unfold sold_volume, brought_volume. destruct Hr as [-> | ->]; simpl; lia.
Qed.

Lemma is_int_of_Z (z : Z) : Double.is_int (Double.of_Z z) z.
Proof. by left. Qed.

(** One run of the callback on a row of integers, while the four sums stay
    below [2^53]: no operation rounds. *)
Lemma ProcessBids_callback_exact (acc : Typed.BidData) (r : BidRow) (P S B T : Z) :
  Typed.profit acc = Double.of_Z P ->
  Typed.volumeSold acc = Double.of_Z S ->
  Typed.volumeBrought acc = Double.of_Z B ->
  Typed.totalVolume acc = Double.of_Z T ->
  Z.abs (row_price r) < 2 ^ 53 ->
  Z.abs P + Z.abs (row_volume r * row_price r) < 2 ^ 53 ->
  Z.abs S + Z.abs (row_volume r) < 2 ^ 53 ->
  Z.abs B + Z.abs (row_volume r) < 2 ^ 53 ->
  Z.abs T + Z.abs (row_volume r) < 2 ^ 53 ->
  Typed.ProcessBids_callback acc (Typed.Row_of r)
  = {| Typed.bids := Typed.bids acc ++ [Typed.Bid_of_Row (Typed.Row_of r)];
       Typed.profit := Double.of_Z (P + signed_value r);
       Typed.volumeSold := Double.of_Z (S + sold_volume r);
       Typed.volumeBrought := Double.of_Z (B + brought_volume r);
       Typed.totalVolume := Double.of_Z (T + row_volume r) |}.
Proof.
  intros HP HS HB HT Hp HbP HbS HbB HbT.
  unfold Typed.ProcessBids_callback, Typed.Row_of.
  cbn [Typed.element0 Typed.element1 Typed.element2 Typed.element3 Typed.element4].
  rewrite HP, HS, HB, HT. unfold signed_value, sold_volume, brought_volume.
  set (v := row_volume r) in *. set (p := row_price r) in *.
  assert (Hv : Z.abs v < 2 ^ 53) by lia.
  assert (Hvp : Double.is_int (Double.mul (Double.of_Z v) (Double.of_Z p)) (v * p)).
  { apply mul_is_int; auto using is_int_of_Z. lia. }
  f_equal.
  - destruct (String.eqb (row_type r) BidType_Sell).
    + apply add_is_int; [|lia..].
      apply mul_is_int; auto using is_int_of_Z; lia.
    + apply add_is_int; [|lia..].
      apply mul_is_int; auto using is_int_of_Z; lia.
  - destruct (String.eqb (row_type r) BidType_Sell).
    + replace (S + v) with (S + v * 1) by lia.
      apply add_is_int; [|lia..]. apply mul_is_int; auto using is_int_of_Z; lia.
    + replace (S + 0) with (S + v * 0) by lia.
      apply add_is_int; [|lia..]. apply mul_is_int; auto using is_int_of_Z; lia.
  - destruct (String.eqb (row_type r) BidType_Buy).
    + replace (B + v) with (B + v * 1) by lia.
      apply add_is_int; [|lia..]. apply mul_is_int; auto using is_int_of_Z; lia.
    + replace (B + 0) with (B + v * 0) by lia.
      apply add_is_int; [|lia..]. apply mul_is_int; auto using is_int_of_Z; lia.
  - apply add_of_Z; lia.
Qed.


(** The whole loop, from any state of the four sums. *)
Lemma foldl_bids_exact (rows : list BidRow) (acc : Typed.BidData) (P S B T : Z) :
  Typed.profit acc = Double.of_Z P ->
  Typed.volumeSold acc = Double.of_Z S ->
  Typed.volumeBrought acc = Double.of_Z B ->
  Typed.totalVolume acc = Double.of_Z T ->
  Forall (fun r => Z.abs (row_price r) < 2 ^ 53) rows ->
  Z.abs P + Zsum (map (fun r => Z.abs (row_volume r * row_price r)) rows) < 2 ^ 53 ->
  Z.abs S + Zsum (map (fun r => Z.abs (row_volume r)) rows) < 2 ^ 53 ->
  Z.abs B + Zsum (map (fun r => Z.abs (row_volume r)) rows) < 2 ^ 53 ->
  Z.abs T + Zsum (map (fun r => Z.abs (row_volume r)) rows) < 2 ^ 53 ->
  foldl Typed.ProcessBids_callback acc (map Typed.Row_of rows)
  = {| Typed.bids := Typed.bids acc ++ map Typed.Bid_of_Row (map Typed.Row_of rows);
       Typed.profit := Double.of_Z (P + Zsum (map signed_value rows));
       Typed.volumeSold := Double.of_Z (S + Zsum (map sold_volume rows));
       Typed.volumeBrought := Double.of_Z (B + Zsum (map brought_volume rows));
       Typed.totalVolume := Double.of_Z (T + Zsum (map row_volume rows)) |}.
Proof.
  revert acc P S B T.
  induction rows as [|r rows IH]; intros acc P S B T HP HS HB HT Hp HbP HbS HbB HbT.
  - cbn [map foldl]. destruct acc. cbn in *. subst.
    by rewrite app_nil_r, !Z.add_0_r.
  - apply Forall_cons in Hp as [Hpr Hp]. cbn [map] in *. rewrite !Zsum_cons in *.
    pose proof (Zsum_abs_nonneg (fun r => row_volume r * row_price r) rows) as Hn1.
    pose proof (Zsum_abs_nonneg row_volume rows) as Hn2.
    cbn [foldl].
    rewrite (ProcessBids_callback_exact acc r P S B T) by (done || lia).
    assert (Hs1 : Z.abs (signed_value r) = Z.abs (row_volume r * row_price r)).
    { unfold signed_value. destruct (String.eqb _ _); lia. }
    assert (Hs2 : Z.abs (sold_volume r) <= Z.abs (row_volume r)).
    { unfold sold_volume. destruct (String.eqb _ _); lia. }
    assert (Hs3 : Z.abs (brought_volume r) <= Z.abs (row_volume r)).
    { unfold brought_volume. destruct (String.eqb _ _); lia. }
    rewrite (IH _ (P + signed_value r) (S + sold_volume r) (B + brought_volume r)
               (T + row_volume r)) by (done || cbn; lia).
    cbn [Typed.bids]. rewrite <- app_assoc, !Z.add_assoc. reflexivity.
Qed.

Lemma of_Z_eqb (z : Z) : Z.abs z < 2 ^ 53 -> Double.eqb (Double.of_Z z) (Double.of_Z z) = true.
Proof.
  intros Hz. destruct (Z.eq_dec z 0) as [->|Hn]; [done|].
  destruct (Z_as_signed z Hn) as (s&p&->&Hp). rewrite of_Z_signed by lia.
  unfold Double.canon, Double.eqb, SFeqb, SFcompare.
  rewrite Z.compare_refl, Pos.compare_cont_refl. by destruct s.
Qed.

End Bids.

(** C6. The claim is that for every bid set [totalVolume == volumeSold +
    volumeBrought] and [profit] is the sum of [volume * price * (+1 if Sell
    else -1)], with the bids in the order of the rows.  The four sums are
    accumulated in doubles, each addition rounding, so the identity does not
    hold for every bid set ([ProcessBids_volumes_differ]).  What holds: the
    bids are the rows in their order, for every bid set; and for rows whose
    volumes and prices are integers, with every price, the sum of the
    volumes' magnitudes and the sum of the products' magnitudes below
    [2^53], no operation rounds: [profit], [volumeSold], [volumeBrought]
    and [totalVolume] are the doubles of the exact sums, and when every bid
    is of type Sell or Buy, [totalVolume == volumeSold + volumeBrought]. *)
Theorem ProcessBids_sums :
  (forall data : list Typed.Row,
     Typed.bids (Typed.ProcessBids data) = map Typed.Bid_of_Row data)
  /\ (forall rows : list BidRow,
        Forall (fun r => Z.abs (row_price r) < 2 ^ 53) rows ->
        Zsum (map (fun r => Z.abs (row_volume r)) rows) < 2 ^ 53 ->
        Zsum (map (fun r => Z.abs (row_volume r * row_price r)) rows) < 2 ^ 53 ->
        let out := Typed.ProcessBids (map Typed.Row_of rows) in
        Typed.profit out = Double.of_Z (Zsum (map signed_value rows))
        /\ Typed.volumeSold out = Double.of_Z (Zsum (map sold_volume rows))
        /\ Typed.volumeBrought out = Double.of_Z (Zsum (map brought_volume rows))
        /\ Typed.totalVolume out = Double.of_Z (Zsum (map row_volume rows))
        /\ (Forall (fun r => row_type r = BidType_Sell \/ row_type r = BidType_Buy) rows ->
            Typed.totalVolume out
            = Double.add (Typed.volumeSold out) (Typed.volumeBrought out)
            /\ Double.eqb (Typed.totalVolume out)
                 (Double.add (Typed.volumeSold out) (Typed.volumeBrought out)) = true)).
Proof.
  split.
  - intros data. unfold Typed.ProcessBids.
    change (map Typed.Bid_of_Row data)
      with (Typed.bids Typed.ProcessBids_init ++ map Typed.Bid_of_Row data).
    generalize Typed.ProcessBids_init.
    induction data as [|element data IH]; intros acc; cbn [foldl map].
    + by rewrite app_nil_r.
    + rewrite IH. cbn [Typed.ProcessBids_callback Typed.bids].
      by rewrite <- app_assoc.
  - intros rows Hp Hv Hvp out. subst out. unfold Typed.ProcessBids.
    rewrite (foldl_bids_exact rows Typed.ProcessBids_init 0 0 0 0) by (done || cbn; lia).
    cbn [Typed.profit Typed.volumeSold Typed.volumeBrought Typed.totalVolume].
    rewrite !Z.add_0_l. repeat (split; [reflexivity|]). intros Ht.
    pose proof (sold_brought_volume rows Ht) as Hsum.
    assert (Hsv : forall rows', Z.abs (Zsum (map sold_volume rows'))
                                <= Zsum (map (fun r => Z.abs (row_volume r)) rows')).
    { induction rows' as [|r rows' IH]; [done|]. cbn [map]. rewrite !Zsum_cons.
      unfold sold_volume at 1. destruct (String.eqb _ _); lia. }
    assert (Hbv : forall rows', Z.abs (Zsum (map brought_volume rows'))
                                <= Zsum (map (fun r => Z.abs (row_volume r)) rows')).
    { induction rows' as [|r rows' IH]; [done|]. cbn [map]. rewrite !Zsum_cons.
      unfold brought_volume at 1. destruct (String.eqb _ _); lia. }
    assert (Htv : forall rows', Z.abs (Zsum (map row_volume rows'))
                                <= Zsum (map (fun r => Z.abs (row_volume r)) rows')).
    { induction rows' as [|r rows' IH]; [done|]. cbn [map]. rewrite !Zsum_cons. lia. }
    pose proof (Hsv rows). pose proof (Hbv rows). pose proof (Htv rows).
    rewrite add_of_Z by lia. rewrite <- Hsum. split; [done|].
    apply of_Z_eqb. lia.
Qed.

(** The rows [["2021-07-22",0,"SELL",10,50], ["2021-07-22",1,"BUY",5,40]]
    give profit 300, 10 sold, 5 brought, 15 in total. *)
Lemma ProcessBids_sums_witness :
  let out :=
    Typed.ProcessBids
      (map Typed.Row_of
         [ {| row_date := "2021-07-22"; row_hour := 0; row_type := "SELL";
              row_volume := 10; row_price := 50 |};
           {| row_date := "2021-07-22"; row_hour := 1; row_type := "BUY";
              row_volume := 5; row_price := 40 |} ]) in
  Typed.profit out = Double.of_Z 300
  /\ Typed.volumeSold out = Double.of_Z 10
  /\ Typed.volumeBrought out = Double.of_Z 5
  /\ Typed.totalVolume out = Double.of_Z 15
  /\ Double.eqb (Typed.totalVolume out)
       (Double.add (Typed.volumeSold out) (Typed.volumeBrought out)) = true.
Proof.
  intros out.
  destruct (proj2 ProcessBids_sums
              [ {| row_date := "2021-07-22"; row_hour := 0; row_type := "SELL";
                   row_volume := 10; row_price := 50 |};
                {| row_date := "2021-07-22"; row_hour := 1; row_type := "BUY";
                   row_volume := 5; row_price := 40 |} ])
    as (Hp&Hs&Hb&Ht&Hid).
  - apply Forall_cons. split; [reflexivity|].
    apply Forall_cons. split; [reflexivity | apply Forall_nil_2].
  - reflexivity.
  - reflexivity.
  - split; [exact Hp|]. split; [exact Hs|]. split; [exact Hb|]. split; [exact Ht|].
    apply Hid. apply Forall_cons. split; [by left|].
    apply Forall_cons. split; [by right | apply Forall_nil_2].
Defined.

(** Two bid sets on which [totalVolume == volumeSold + volumeBrought] is
    false.  Volumes 0.1 (Buy), 0.2 and 0.3 (Sell): the total is
    0.6000000000000001, sold plus brought is 0.6.  Volumes 1 (Sell), 2^53
    (Buy) and 1 (Sell): the total is 2^53, sold plus brought is 2^53 + 2. *)
Lemma ProcessBids_volumes_differ :
  let row (type : string) (volume : Double.t) :=
    {| Typed.element0 := "2021-07-22"; Typed.element1 := Double.of_Z 0;
       Typed.element2 := type; Typed.element3 := volume;
       Typed.element4 := Double.of_Z 50 |} in
  let out1 := Typed.ProcessBids [ row "BUY" (Double.decimal 1 10);
                                  row "SELL" (Double.decimal 2 10);
                                  row "SELL" (Double.decimal 3 10) ] in
  let out2 := Typed.ProcessBids [ row "SELL" (Double.of_Z 1);
                                  row "BUY" (Double.of_Z (2 ^ 53));
                                  row "SELL" (Double.of_Z 1) ] in
  Double.eqb (Typed.totalVolume out1)
    (Double.add (Typed.volumeSold out1) (Typed.volumeBrought out1)) = false
  /\ Double.eqb (Typed.totalVolume out2)
       (Double.add (Typed.volumeSold out2) (Typed.volumeBrought out2)) = false.
Proof. split; vm_compute; reflexivity. Qed.

(** ** ProcessEnergy *)

Section Energy.

Variables (data rates : value).
Hypothesis Hrates : JS.get data "carbonRate" = Ok rates.
Hypothesis Hrates_obj : JS.is_nullish rates = false.

Lemma index_cell (row : value) (i : nat) :
  JS.is_nullish row = false -> JS.index row i = Ok (cell row i).
Proof. unfold cell. by destruct row. Qed.

Lemma add_not_null (a b : value) : JS.is_null (JS.add a b) = false.
Proof. unfold JS.add. by destruct (JS.stringy a || JS.stringy b). Qed.

Lemma get_prop (v : value) (k : string) :
  JS.is_nullish v = false -> JS.get v k = Ok (prop v k).
Proof.
  unfold prop. destruct v; simpl; try done;
    destruct (String.eqb k "length"); try done; by destruct (JS.array_index k).
Qed.

Lemma row_carbonRate_rate_of (element0 : value) :
  row_carbonRate data element0 = Ok (rate_of rates element0).
Proof.
  unfold row_carbonRate, rate_of. destruct element0; try done.
  rewrite Hrates. simpl. by apply get_prop.
Qed.

(** One run of the callback on a row that is not [null]: one element is
    pushed on each sequence and the two sums grow by the row's share. *)
Lemma ProcessEnergy_callback_row (acc : EnergyData.t) (row : value) :
  JS.is_nullish row = false ->
  exists acc',
    ProcessEnergy_callback data acc row = Ok acc'
    /\ EnergyData.times acc' = EnergyData.times acc ++ [cell row 0]
    /\ EnergyData.predictedBuildingDemand acc'
       = EnergyData.predictedBuildingDemand acc ++ [cell row 1]
    /\ EnergyData.predictedSolarGeneration acc'
       = EnergyData.predictedSolarGeneration acc ++ [cell row 2]
    /\ EnergyData.predictedWindGeneration acc'
       = EnergyData.predictedWindGeneration acc ++ [cell row 3]
    /\ EnergyData.realBuildingDemand acc'
       = EnergyData.realBuildingDemand acc ++ [cell row 4]
    /\ EnergyData.realSolarGeneration acc'
       = EnergyData.realSolarGeneration acc ++ [cell row 5]
    /\ EnergyData.realWindGeneration acc'
       = EnergyData.realWindGeneration acc ++ [cell row 6]
    /\ EnergyData.predictedTotalGeneration acc'
       = EnergyData.predictedTotalGeneration acc ++ [JS.add (cell row 2) (cell row 3)]
    /\ EnergyData.predictedNetGeneration acc'
       = EnergyData.predictedNetGeneration acc ++ [VNum (row_predictedNet row)]
    /\ EnergyData.realTotalGeneration acc'
       = EnergyData.realTotalGeneration acc
         ++ [spec_realTotal (cell row 5) (cell row 6)]
    /\ EnergyData.realNetGeneration acc'
       = EnergyData.realNetGeneration acc
         ++ [spec_realNet (spec_realTotal (cell row 5) (cell row 6)) (cell row 4)]
    /\ EnergyData.carbonRate acc' = EnergyData.carbonRate acc
    /\ EnergyData.predictedCarbonSaved acc'
       = JS.num_add (EnergyData.predictedCarbonSaved acc) (row_predictedCO2 rates row)
    /\ EnergyData.realCarbonSaved acc'
       = row_realCO2 rates row (EnergyData.realCarbonSaved acc).
Proof.
  intros Hrow. unfold ProcessEnergy_callback.
  rewrite !index_cell by done. cbn [rbind].
  rewrite row_carbonRate_rate_of. cbn [rbind].
  unfold spec_realTotal, spec_realNet, row_realCO2, row_predictedCO2, row_predictedNet.
  destruct (JS.is_nullish (cell row 5) || JS.is_nullish (cell row 6)) eqn:E.
  - eexists. split; [reflexivity|]. simpl. repeat (split; [reflexivity|]); reflexivity.
  - destruct (JS.is_null (cell row 4)) eqn:E4; simpl.
    + eexists. split; [reflexivity|]. simpl.
      rewrite add_not_null.
      repeat (split; [reflexivity|]); reflexivity.
    + eexists. split; [reflexivity|]. simpl.
      rewrite add_not_null.
      repeat (split; [reflexivity|]); reflexivity.
Qed.

(** The whole loop, from any state of the sequences and sums. *)
Lemma forEach_energy (rows : list value) (acc : EnergyData.t) :
  Forall (fun row => JS.is_nullish row = false) rows ->
  exists out,
    forEach (ProcessEnergy_callback data) rows acc = Ok out
    /\ EnergyData.times out = EnergyData.times acc ++ map (fun row => cell row 0) rows
    /\ EnergyData.predictedBuildingDemand out
       = EnergyData.predictedBuildingDemand acc ++ map (fun row => cell row 1) rows
    /\ EnergyData.predictedSolarGeneration out
       = EnergyData.predictedSolarGeneration acc ++ map (fun row => cell row 2) rows
    /\ EnergyData.predictedWindGeneration out
       = EnergyData.predictedWindGeneration acc ++ map (fun row => cell row 3) rows
    /\ EnergyData.realBuildingDemand out
       = EnergyData.realBuildingDemand acc ++ map (fun row => cell row 4) rows
    /\ EnergyData.realSolarGeneration out
       = EnergyData.realSolarGeneration acc ++ map (fun row => cell row 5) rows
    /\ EnergyData.realWindGeneration out
       = EnergyData.realWindGeneration acc ++ map (fun row => cell row 6) rows
    /\ EnergyData.predictedTotalGeneration out
       = EnergyData.predictedTotalGeneration acc
         ++ map (fun row => JS.add (cell row 2) (cell row 3)) rows
    /\ EnergyData.predictedNetGeneration out
       = EnergyData.predictedNetGeneration acc
         ++ map (fun row => VNum (row_predictedNet row)) rows
    /\ EnergyData.realTotalGeneration out
       = EnergyData.realTotalGeneration acc
         ++ map (fun row => spec_realTotal (cell row 5) (cell row 6)) rows
    /\ EnergyData.realNetGeneration out
       = EnergyData.realNetGeneration acc
         ++ map (fun row => spec_realNet (spec_realTotal (cell row 5) (cell row 6))
                              (cell row 4)) rows
    /\ EnergyData.carbonRate out = EnergyData.carbonRate acc
    /\ EnergyData.predictedCarbonSaved out
       = foldl (fun co2 row => JS.num_add co2 (row_predictedCO2 rates row))
               (EnergyData.predictedCarbonSaved acc) rows
    /\ EnergyData.realCarbonSaved out
       = foldl (fun co2 row => row_realCO2 rates row co2)
               (EnergyData.realCarbonSaved acc) rows.
Proof.
  intros Hrows. revert acc. induction Hrows as [|row rows Hrow _ IH]; intros acc.
  - exists acc. simpl. rewrite !app_nil_r. by repeat split.
  - destruct (ProcessEnergy_callback_row acc row Hrow)
      as (acc1&H0&H1&H2&H3&H4&H5&H6&H7&H8&H9&H10&H11&H12&H13&H14).
    destruct (IH acc1) as (out&G0&G1&G2&G3&G4&G5&G6&G7&G8&G9&G10&G11&G12&G13&G14).
    exists out. cbn [forEach]. rewrite H0. cbn [rbind]. split; [exact G0|].
    rewrite G1, G2, G3, G4, G5, G6, G7, G8, G9, G10, G11, G12, G13, G14.
    rewrite H1, H2, H3, H4, H5, H6, H7, H8, H9, H10, H11, H12, H13, H14.
    cbn [map foldl]. rewrite <- !app_assoc. by repeat split.
Qed.

End Energy.

Section EnergyResults.

Variables (data rates : value) (rows : list value).
Hypothesis Hdata : JS.get data "data" = Ok (VArr rows).
Hypothesis Hrates : JS.get data "carbonRate" = Ok rates.
Hypothesis Hrates_obj : JS.is_nullish rates = false.
Hypothesis Hrows : Forall (fun row => JS.is_nullish row = false) rows.

(** [ProcessEnergy] on a payload whose rows are not [null]: it returns, and
    every sequence of the result is the row-wise image of the rows. *)
Lemma ProcessEnergy_map :
  exists out,
    ProcessEnergy data = Ok out
    /\ EnergyData.predictedSolarGeneration out = map (fun row => cell row 2) rows
    /\ EnergyData.predictedWindGeneration out = map (fun row => cell row 3) rows
    /\ EnergyData.predictedTotalGeneration out
       = map (fun row => JS.add (cell row 2) (cell row 3)) rows
    /\ EnergyData.predictedNetGeneration out
       = map (fun row => VNum (row_predictedNet row)) rows
    /\ EnergyData.realTotalGeneration out
       = map (fun row => spec_realTotal (cell row 5) (cell row 6)) rows
    /\ EnergyData.realNetGeneration out
       = map (fun row => spec_realNet (spec_realTotal (cell row 5) (cell row 6))
                           (cell row 4)) rows
    /\ EnergyData.predictedCarbonSaved out
       = foldl (fun co2 row => JS.num_add co2 (row_predictedCO2 rates row)) (Int 0) rows
    /\ EnergyData.realCarbonSaved out
       = foldl (fun co2 row => row_realCO2 rates row co2) (Int 0) rows.
Proof.
  unfold ProcessEnergy. rewrite Hdata, Hrates. cbn [rbind JS.elements].
  destruct (forEach_energy data rates Hrates Hrates_obj rows
              (ProcessEnergy_init rates) Hrows)
    as (out&G0&_&_&G2&G3&_&_&_&G7&G8&G9&G10&_&G12&G13).
  exists out. split; [exact G0|].
  rewrite G2, G3, G7, G8, G9, G10, G12, G13. by repeat split.
Qed.

End EnergyResults.

Lemma spec_realTotal_null (solar wind : value) :
  spec_realTotal solar wind = VNull
  <-> JS.is_nullish solar = true \/ JS.is_nullish wind = true.
Proof.
  unfold spec_realTotal. rewrite <- orb_true_iff.
  destruct (JS.is_nullish solar || JS.is_nullish wind); [done|].
  split; [|done]. unfold JS.add. by destruct (JS.stringy solar || JS.stringy wind).
Qed.

Lemma spec_realNet_null (total demand : value) :
  spec_realNet total demand = VNull <-> total = VNull \/ demand = VNull.
Proof.
  unfold spec_realNet.
  destruct total, demand; simpl; split; intros H;
    try done; try (by left); try (by right); by destruct H.
Qed.

(** C5. For every row [ProcessEnergy] processes: the predicted total is
    predicted solar plus predicted wind; the real total is null exactly when
    real solar or real wind is null, and their sum otherwise; the real net is
    null exactly when the real total or the real demand is null, and real
    total minus real demand otherwise. *)
Theorem ProcessEnergy_rows (data rates : value) (rows : list value) :
  JS.get data "data" = Ok (VArr rows) ->
  JS.get data "carbonRate" = Ok rates ->
  JS.is_nullish rates = false ->
  Forall (fun row => JS.is_nullish row = false) rows ->
  exists out,
    ProcessEnergy data = Ok out
    /\ forall (i : nat) (row : value),
         rows !! i = Some row ->
         let demand := cell row 4 in
         let solar := cell row 5 in
         let wind := cell row 6 in
         exists total net,
           EnergyData.predictedSolarGeneration out !! i = Some (cell row 2)
           /\ EnergyData.predictedWindGeneration out !! i = Some (cell row 3)
           /\ EnergyData.predictedTotalGeneration out !! i
              = Some (JS.add (cell row 2) (cell row 3))
           /\ EnergyData.predictedNetGeneration out !! i
              = Some (VNum (JS.sub (JS.add (cell row 2) (cell row 3)) (cell row 1)))
           /\ EnergyData.realTotalGeneration out !! i = Some total
           /\ EnergyData.realNetGeneration out !! i = Some net
           /\ (total = VNull <-> JS.is_nullish solar = true \/ JS.is_nullish wind = true)
           /\ (total <> VNull -> total = JS.add solar wind)
           /\ (net = VNull <-> total = VNull \/ demand = VNull)
           /\ (net <> VNull -> net = VNum (JS.sub total demand)).
Proof.
  intros Hdata Hrates Hobj Hrows.
  destruct (ProcessEnergy_map data rates rows Hdata Hrates Hobj Hrows)
    as (out&Ho&H2&H3&H7&H8&H9&H10&_).
  exists out. split; [exact Ho|]. intros i row Hi. simpl.
  exists (spec_realTotal (cell row 5) (cell row 6)),
         (spec_realNet (spec_realTotal (cell row 5) (cell row 6)) (cell row 4)).
  rewrite H2, H3, H7, H8, H9, H10, !list_lookup_fmap, Hi. simpl.
  repeat (split; [reflexivity|]).
  split; [apply spec_realTotal_null|].
  split. { unfold spec_realTotal. by destruct (_ || _). }
  split; [apply spec_realNet_null|].
  unfold spec_realNet.
  destruct (JS.is_null (spec_realTotal _ _)); [done|].
  by destruct (JS.is_null (cell row 4)).
Qed.

(** The row [["2021-07-22 00:00:00+00:00",100,40,60,null,35,55]]: predicted
    total 100, predicted net 0, real total 90, real net null. *)
Lemma ProcessEnergy_rows_witness :
  let row := VArr [VStr "2021-07-22 00:00:00+00:00"; VNum (Int 100); VNum (Int 40);
                   VNum (Int 60); VNull; VNum (Int 35); VNum (Int 55)] in
  let rates := VObj [("2021-07-22", VNum (Int 2))] in
  exists out,
    ProcessEnergy (VObj [("data", VArr [row]); ("carbonRate", rates)]) = Ok out
    /\ EnergyData.predictedTotalGeneration out !! 0%nat = Some (VNum (Int 100))
    /\ EnergyData.predictedNetGeneration out !! 0%nat = Some (VNum (Int 0))
    /\ EnergyData.realTotalGeneration out !! 0%nat = Some (VNum (Int 90))
    /\ EnergyData.realNetGeneration out !! 0%nat = Some VNull.
Proof.
  intros row rates.
  assert (Hrows : Forall (fun r => JS.is_nullish r = false) [row]).
  { apply Forall_cons. split; [reflexivity | apply Forall_nil_2]. }
  destruct (ProcessEnergy_rows (VObj [("data", VArr [row]); ("carbonRate", rates)])
              rates [row] eq_refl eq_refl eq_refl Hrows) as (out&Ho&H).
  exists out. split; [exact Ho|].
  destruct (H 0%nat row eq_refl) as (total&net&_&_&Ht&Hn&Hrt&Hrn&Hnull&Hsum&Hnet&_).
  split; [exact Ht|]. split; [exact Hn|].
  assert (Htot : total = VNum (Int 90)).
  { apply Hsum. intros Hc. apply Hnull in Hc. by destruct Hc. }
  assert (Hnetn : net = VNull). { apply Hnet. by right. }
  rewrite <- Htot, <- Hnetn. by split.
Defined.

(** ** The carbon rate of a row *)

Section CarbonRate.

Lemma lookup_absent (props : list (string * value)) (k : string) :
  k ∉ map fst props -> JS.lookup props k = VUndefined.
Proof.
  induction props as [|[k' v] props IH]; [done|]. simpl. intros Hk.
  apply not_elem_of_cons in Hk as [Hne Hk].
  destruct (String.eqb k' k) eqn:E; [|by apply IH].
  apply String.eqb_eq in E. congruence.
Qed.

Lemma num_add_NaN_r (a : num) : JS.num_add a NaN = NaN.
Proof. by destruct a. Qed.

Lemma mul_undefined (n : num) : JS.mul (VNum n) VUndefined = NaN.
Proof. by destruct n. Qed.

(** Once [NaN], the predicted sum stays [NaN]. *)
Lemma predicted_NaN_absorbs (rates : value) (rows : list value) :
  foldl (fun co2 row => JS.num_add co2 (row_predictedCO2 rates row)) NaN rows = NaN.
Proof. by induction rows. Qed.

Lemma real_NaN_absorbs (rates : value) (rows : list value) :
  foldl (fun co2 row => row_realCO2 rates row co2) NaN rows = NaN.
Proof.
  induction rows as [|row rows IH]; [done|]. simpl.
  replace (row_realCO2 rates row NaN) with NaN; [done|].
  unfold row_realCO2. destruct (_ || _); [done|]. by destruct (JS.is_null _).
Qed.

(** The default of [0] is what a row gets only when its time stamp is not a
    string. *)
Lemma row_carbonRate_default (data element0 : value) :
  (forall s, element0 <> VStr s) -> row_carbonRate data element0 = Ok (VNum (Int 0)).
Proof. intros H. destruct element0; try done. by destruct (H s). Qed.

End CarbonRate.

(** C9. A row whose time stamp is a string with a day key that the
    carbon-rate mapping does not have reads [undefined] as its rate, and the
    predicted carbon saved of the whole result is [NaN], whatever the row's
    predicted net; so is the real carbon saved when the row's real net is
    computed.  The default rate [0] applies only to a time stamp that is not
    a string.  A payload that passes [ValidateResponse] without a logged
    line gets there. *)
Theorem ProcessEnergy_missing_rate_NaN
    (data : value) (props : list (string * value)) (rows : list value)
    (i : nat) (row : value) (time : string) :
  JS.get data "data" = Ok (VArr rows) ->
  JS.get data "carbonRate" = Ok (VObj props) ->
  Forall (fun row => JS.is_nullish row = false) rows ->
  rows !! i = Some row ->
  cell row 0 = VStr time ->
  Str.slice 0 10 time ∉ map fst props ->
  (row_carbonRate data (cell row 0) = Ok VUndefined
   /\ forall element0, (forall s, element0 <> VStr s) ->
                       row_carbonRate data element0 = Ok (VNum (Int 0)))
  /\ (exists out,
        ProcessEnergy data = Ok out
        /\ EnergyData.predictedCarbonSaved out = NaN
        /\ (JS.is_nullish (cell row 5) = false ->
            JS.is_nullish (cell row 6) = false ->
            JS.is_null (cell row 4) = false ->
            EnergyData.realNetGeneration out !! i
            = Some (VNum (JS.sub (JS.add (cell row 5) (cell row 6)) (cell row 4)))
            /\ EnergyData.realCarbonSaved out = NaN))
  /\ (exists payload out,
        ValidateResponse payload energy = ([], true)
        /\ ProcessEnergy payload = Ok out
        /\ EnergyData.predictedCarbonSaved out = NaN
        /\ EnergyData.realCarbonSaved out = NaN).
Proof.
  intros Hdata Hrates Hrows Hi Htime Habsent.
  assert (Hrate : rate_of (VObj props) (cell row 0) = VUndefined).
  { rewrite Htime. simpl. by apply lookup_absent. }
  split; [|split].
  - split; [|apply row_carbonRate_default].
    by rewrite (row_carbonRate_rate_of data (VObj props) Hrates eq_refl), Hrate.
  - destruct (ProcessEnergy_map data (VObj props) rows Hdata Hrates eq_refl Hrows)
      as (out&Ho&_&_&_&_&_&Hnet&Hp&Hr).
    exists out. split; [exact Ho|].
    rewrite <- (take_drop_middle rows i row Hi) in Hp, Hr.
    rewrite foldl_app in Hp, Hr. cbn [foldl] in Hp, Hr. split.
    + assert (row_predictedCO2 (VObj props) row = NaN) as Hrow
        by (unfold row_predictedCO2; by rewrite Hrate, mul_undefined).
      rewrite Hp, Hrow, num_add_NaN_r. apply predicted_NaN_absorbs.
    + intros H5 H6 H4. split.
      * rewrite Hnet, list_lookup_fmap, Hi. simpl.
        unfold spec_realNet, spec_realTotal.
        rewrite H5, H6. cbn [orb]. by rewrite add_not_null, H4.
      * assert (forall co2, row_realCO2 (VObj props) row co2 = NaN) as Hrow
          by (intros co2; unfold row_realCO2;
              by rewrite H5, H6, H4, Hrate, mul_undefined, num_add_NaN_r).
        rewrite Hr, Hrow. apply real_NaN_absorbs.
  - exists (VObj [("carbonRate", VObj [("2021-07-22", VNum (Int 2))]);
                  ("data", VArr [VArr [VStr "2021-07-23 00:00:00+00:00";
                                       VNum (Int 100); VNum (Int 40); VNum (Int 70);
                                       VNum (Int 5); VNum (Int 35); VNum (Int 55)]])]).
    eexists. split; [reflexivity|]. split; [reflexivity|]. by split.
Qed.

(** A day of data stamped 2021-07-23 against rates for 2021-07-22 only. *)
Lemma ProcessEnergy_missing_rate_NaN_witness :
  let row := VArr [VStr "2021-07-23 00:00:00+00:00"; VNum (Int 100); VNum (Int 40);
                   VNum (Int 70); VNum (Int 5); VNum (Int 35); VNum (Int 55)] in
  let props := [("2021-07-22", VNum (Int 2))] in
  let payload := VObj [("carbonRate", VObj props); ("data", VArr [row])] in
  ValidateResponse payload energy = ([], true)
  /\ exists out,
       ProcessEnergy payload = Ok out
       /\ EnergyData.predictedNetGeneration out = [VNum (Int 10)]
       /\ EnergyData.predictedCarbonSaved out = NaN
       /\ EnergyData.realNetGeneration out !! 0%nat = Some (VNum (Int 85))
       /\ EnergyData.realCarbonSaved out = NaN.
Proof.
  intros row props payload. split; [reflexivity|].
  assert (Hrows : Forall (fun r => JS.is_nullish r = false) [row]).
  { apply Forall_cons. split; [reflexivity | apply Forall_nil_2]. }
  assert (Habsent : Str.slice 0 10 "2021-07-23 00:00:00+00:00" ∉ map fst props).
  { intros H. apply elem_of_cons in H as [H|H]; [done|]. by apply elem_of_nil in H. }
  destruct (ProcessEnergy_missing_rate_NaN payload props [row] 0 row
              "2021-07-23 00:00:00+00:00" eq_refl eq_refl Hrows eq_refl eq_refl Habsent)
    as (_&(out&Ho&Hp&Hr)&_).
  exists out. split; [exact Ho|].
  destruct (Hr eq_refl eq_refl eq_refl) as [Hnet Hreal].
  split; [|split; [exact Hp | split; [exact Hnet | exact Hreal]]].
  vm_compute in Ho. by injection Ho as <-.
Defined.

(** ** Printing and parsing integers *)

Section Decimal.

Abbreviation chars d := (Str.to_list (NilEmpty.string_of_uint d)).

Ltac eval_digits :=
  repeat match goal with
         | |- context [Str.digit_val ?c] =>
             let v := eval vm_compute in (Str.digit_val c) in
             change (Str.digit_val c) with v
         end.

Lemma digits_value_acc (d : Decimal.uint) (acc : positive) :
  Str.digits_value (Zpos acc) (chars d) = Zpos (Pos.of_uint_acc d acc).
Proof.
  revert acc. induction d; intros acc; simpl; [done|..]; eval_digits;
    match goal with
    | |- Str.digits_value ?z _ = _ =>
        match goal with
        | |- _ = Zpos (Pos.of_uint_acc _ ?a) => replace z with (Zpos a) by lia
        end
    end; apply IHd.
Qed.

Lemma digits_value_uint (d : Decimal.uint) :
  Str.digits_value 0 (chars d) = Z.of_N (Pos.of_uint d).
Proof.
  induction d; simpl; [done| |..]; [exact IHd|..]; eval_digits;
    match goal with
    | |- Str.digits_value ?z _ = Zpos (Pos.of_uint_acc _ ?a) =>
        change z with (Zpos a)
    end; apply digits_value_acc.
Qed.

Lemma chars_digits (d : Decimal.uint) : forallb Str.is_digit (chars d) = true.
Proof. induction d; simpl; done. Qed.

Lemma digit_prefix_all (l : list ascii) :
  forallb Str.is_digit l = true -> Str.digit_prefix l = l.
Proof.
  induction l as [|c l IH]; [done|]. simpl.
  intros [-> Hl]%andb_true_iff. by rewrite IH.
Qed.

Lemma is_digit_not_space (c : ascii) : Str.is_digit c = true -> Str.is_space c = false.
Proof.
  unfold Str.is_digit, Str.is_space.
  intros [H1 H2]%andb_true_iff. apply Nat.leb_le in H1, H2.
  destruct (_ <=? 13)%nat eqn:E1; [apply Nat.leb_le in E1; lia|].
  rewrite andb_false_r. simpl.
  destruct (_ =? 32)%nat eqn:E2; [apply Nat.eqb_eq in E2; lia|].
  destruct (_ =? 160)%nat eqn:E3; [apply Nat.eqb_eq in E3; lia|]. done.
Qed.

Lemma is_digit_not_char (c x : ascii) :
  Str.is_digit c = true -> Str.is_digit x = false -> Ascii.eqb c x = false.
Proof.
  intros Hc Hx. destruct (Ascii.eqb c x) eqn:E; [|done].
  apply Ascii.eqb_eq in E. congruence.
Qed.

Lemma to_list_of_list (l : list ascii) : Str.to_list (Str.of_list l) = l.
Proof. induction l; simpl; [done | by f_equal]. Qed.

(** [parseInt] of a non-empty run of decimal digits is its value. *)
Lemma parseInt_digits (l : list ascii) :
  l <> [] -> forallb Str.is_digit l = true ->
  JS.parseInt_string (Str.of_list l) = Int (Str.digits_value 0 l).
Proof.
  intros Hne Hd. unfold JS.parseInt_string, Str.trim_start.
  rewrite to_list_of_list. destruct l as [|c r]; [done|].
  simpl in Hd. apply andb_true_iff in Hd as [Hc Hr].
  simpl. rewrite (is_digit_not_space c Hc).
  rewrite !(is_digit_not_char c) by done.
  assert (Hp : Str.digit_prefix (c :: r) = c :: r).
  { apply digit_prefix_all. simpl. by rewrite Hc. }
  destruct r as [|x hs].
  - simpl. rewrite Hc. simpl. f_equal. lia.
  - simpl in Hr. apply andb_true_iff in Hr as [Hx Hhs].
    rewrite !(is_digit_not_char x) by done.
    rewrite andb_false_r, Hp. f_equal. lia.
Qed.

Lemma of_list_to_list (s : string) : Str.of_list (Str.to_list s) = s.
Proof. induction s; simpl; [done | by f_equal]. Qed.

(** The same run of digits behind a minus sign. *)
Lemma parseInt_minus_digits (l : list ascii) :
  l <> [] -> forallb Str.is_digit l = true ->
  JS.parseInt_string (String "-" (Str.of_list l)) = Int (- Str.digits_value 0 l).
Proof.
  intros Hne Hd. unfold JS.parseInt_string, Str.trim_start.
  simpl. rewrite to_list_of_list.
  destruct l as [|c r]; [done|].
  assert (Hp : Str.digit_prefix (c :: r) = c :: r) by by apply digit_prefix_all.
  simpl in Hd. apply andb_true_iff in Hd as [Hc Hr].
  destruct r as [|x hs].
  - simpl. rewrite Hc. simpl. f_equal; lia.
  - simpl in Hr. apply andb_true_iff in Hr as [Hx Hhs].
    rewrite !(is_digit_not_char x) by done.
    rewrite andb_false_r, Hp. f_equal; lia.
Qed.

Lemma chars_nonempty (p : positive) : chars (Pos.to_uint p) <> [].
Proof.
  pose proof (Unsigned.to_uint_nonnil p) as H. by destruct (Pos.to_uint p).
Qed.

(** Parsing what was printed gives the integer back. *)
Lemma parseInt_of_Z (z : Z) : JS.parseInt_string (Str.of_Z z) = Int z.
Proof.
  destruct z as [|p|p]; [done| |]; unfold Str.of_Z; simpl;
    rewrite <- (of_list_to_list (NilEmpty.string_of_uint (Pos.to_uint p))).
  - rewrite parseInt_digits by auto using chars_nonempty, chars_digits.
    by rewrite digits_value_uint, Unsigned.of_to.
  - rewrite parseInt_minus_digits by auto using chars_nonempty, chars_digits.
    by rewrite digits_value_uint, Unsigned.of_to.
Qed.

End Decimal.

(** ** ProcessDates *)

Section Dates.

Lemma append_assoc (a b c : string) : a +:+ (b +:+ c) = (a +:+ b) +:+ c.
Proof.
  induction a as [|x a IH]; [done|].
  change (String x (a +:+ (b +:+ c)) = String x ((a +:+ b) +:+ c)). by rewrite IH.
Qed.

Lemma to_list_append (a b : string) :
  Str.to_list (a +:+ b) = Str.to_list a ++ Str.to_list b.
Proof. induction a; simpl; [done | by f_equal]. Qed.

Lemma split_aux_none (sep : ascii) (cur l : list ascii) :
  Forall (fun c => Ascii.eqb c sep = false) l ->
  Str.split_aux sep cur l = [Str.of_list (rev cur ++ l)].
Proof.
  intros H. revert cur. induction H as [|c l Hc _ IH]; intros cur; simpl.
  - by rewrite app_nil_r.
  - rewrite Hc, IH. simpl. by rewrite <- app_assoc.
Qed.

Lemma split_aux_first (sep : ascii) (cur l rest : list ascii) :
  Forall (fun c => Ascii.eqb c sep = false) l ->
  Str.split_aux sep cur (l ++ sep :: rest)
  = Str.of_list (rev cur ++ l) :: Str.split_aux sep [] rest.
Proof.
  intros H. revert cur. induction H as [|c l Hc _ IH]; intros cur; simpl.
  - by rewrite Ascii.eqb_refl, app_nil_r.
  - rewrite Hc, IH. simpl. by rewrite <- app_assoc.
Qed.

Lemma digits_no_dash (s : string) :
  forallb Str.is_digit (Str.to_list s) = true ->
  Forall (fun c => Ascii.eqb c "-" = false) (Str.to_list s).
Proof.
  intros H. apply Forall_forall. intros c Hc.
  apply is_digit_not_char; [|done].
  rewrite forallb_forall in H. apply H. by apply list_elem_of_In.
Qed.

(** A key ["YYYY-MM"] splits into its year and its month. *)
Lemma split_key (e : DatesEntry) :
  is_number (entry_year e) -> is_number (entry_month e) ->
  Str.split "-" (DatesEntry_key e) = [entry_year e; entry_month e].
Proof.
  intros [_ Hy] [_ Hm]. unfold Str.split, DatesEntry_key.
  rewrite to_list_append. change (Str.to_list ("-" +:+ ?s)) with ("-"%char :: Str.to_list s).
  rewrite split_aux_first by by apply digits_no_dash.
  rewrite split_aux_none by by apply digits_no_dash.
  simpl. by rewrite !of_list_to_list.
Qed.

Lemma parseInt_number (s : string) :
  is_number s -> JS.parseInt (VStr s) = Int (number_of s).
Proof.
  intros [Hne Hd]. unfold JS.parseInt, number_of. simpl.
  rewrite <- (of_list_to_list s) at 1. apply parseInt_digits; [|done].
  intros E. apply Hne. by rewrite <- (of_list_to_list s), E.
Qed.

Lemma ProcessDates_days (e : DatesEntry) (days : list Z) :
  mapM (ProcessDates_day (DatesEntry_key e)) (map (fun d => VNum (Int d)) days)
  = Ok (map (DatesEntry_day e) days).
Proof.
  induction days as [|d days IH]; [done|]. cbn [map mapM].
  rewrite IH. unfold ProcessDates_day at 1. simpl.
  unfold DatesEntry_day at 2, JS.parseInt. simpl. by rewrite parseInt_of_Z.
Qed.

Lemma ProcessDates_entry (e : DatesEntry) :
  is_number (entry_year e) -> is_number (entry_month e) ->
  ProcessDates_month (DatesEntry_raw e) = Ok (DatesEntry_month e).
Proof.
  intros Hy Hm. unfold ProcessDates_month, DatesEntry_raw, split_at.
  rewrite split_key by done. cbn [JS.elements rbind].
  rewrite ProcessDates_days. simpl.
  rewrite !parseInt_number by done. done.
Qed.

(** Days below 100 are printed on exactly two characters that read back as
    the day. *)
Lemma padStart2_day (d : Z) :
  0 <= d < 100 ->
  String.length (Str.padStart2 (Str.of_Z d)) = 2%nat
  /\ JS.parseInt_string (Str.padStart2 (Str.of_Z d)) = Int d.
Proof.
  intros Hd.
  assert (Hall : forallb (fun n =>
            let s := Str.padStart2 (Str.of_Z (Z.of_nat n)) in
            (String.length s =? 2)%nat
            && match JS.parseInt_string s with
               | Int z => (z =? Z.of_nat n)%Z
               | NaN => false
               end) (seq 0 100) = true) by (vm_compute; reflexivity).
  rewrite forallb_forall in Hall.
  assert (Hin : In (Z.to_nat d) (seq 0 100)) by (apply in_seq; lia).
  specialize (Hall _ Hin). cbv zeta in Hall. rewrite Z2Nat.id in Hall by lia.
  apply andb_true_iff in Hall as [Hl Hp].
  apply Nat.eqb_eq in Hl. split; [done|].
  destruct (JS.parseInt_string _); [done|]. apply Z.eqb_eq in Hp. by subst.
Qed.

End Dates.

(** C7. For every dates mapping with keys ["YYYY-MM"] and day numbers,
    [ProcessDates] returns one month per key, in the order of the keys; the
    month carries the key as its date, the year and month numbers read from
    the two pieces of the key, the name at index month-1 of the month-name
    table, and one day per day number, with date ["YYYY-MM-DD"] and the day
    number; a day below 100 is written on two digits. *)
Theorem ProcessDates_months (entries : list DatesEntry) :
  Forall (fun e => is_number (entry_year e) /\ is_number (entry_month e)) entries ->
  ProcessDates (VObj (map DatesEntry_raw entries)) = Ok (map DatesEntry_month entries)
  /\ (forall e, e ∈ entries ->
        ReportMonth.name (DatesEntry_month e)
        = (if 1 <=? number_of (entry_month e)
           then MonthNames !! Z.to_nat (number_of (entry_month e) - 1) else None)
        /\ forall d, d ∈ entry_days e -> 0 <= d < 100 ->
             exists dd,
               ReportDay.date (DatesEntry_day e d)
               = entry_year e +:+ "-" +:+ entry_month e +:+ "-" +:+ dd
               /\ String.length dd = 2%nat /\ JS.parseInt_string dd = Int d).
Proof.
  intros H. split.
  - unfold ProcessDates. simpl.
    induction H as [|e entries [Hy Hm] _ IH]; [done|].
    cbn [map mapM]. rewrite ProcessDates_entry by done. cbn [rbind].
    by rewrite IH.
  - intros e He. split.
    + simpl. destruct (1 <=? _) eqn:E1.
      * apply Z.leb_le in E1.
        destruct (0 <=? _) eqn:E0; [done|]. apply Z.leb_gt in E0. lia.
      * apply Z.leb_gt in E1.
        destruct (0 <=? _) eqn:E0; [|done]. apply Z.leb_le in E0. lia.
    + intros d _ Hd. exists (Str.padStart2 (Str.of_Z d)). split.
      * simpl. unfold DatesEntry_key. by rewrite <- !append_assoc.
      * by apply padStart2_day.
Qed.

(** The mapping [{"2021-07": [5, 20], "2020-12": [3]}], keys not in
    chronological order. *)
Lemma ProcessDates_months_witness :
  ProcessDates (VObj [("2021-07", VArr [VNum (Int 5); VNum (Int 20)]);
                      ("2020-12", VArr [VNum (Int 3)])])
  = Ok [ {| ReportMonth.days :=
              [ {| ReportDay.date := "2021-07-05"; ReportDay.day := Int 5 |};
                {| ReportDay.date := "2021-07-20"; ReportDay.day := Int 20 |} ];
            ReportMonth.month := Int 7; ReportMonth.year := Int 2021;
            ReportMonth.date := "2021-07"; ReportMonth.name := Some "July" |};
         {| ReportMonth.days :=
              [ {| ReportDay.date := "2020-12-03"; ReportDay.day := Int 3 |} ];
            ReportMonth.month := Int 12; ReportMonth.year := Int 2020;
            ReportMonth.date := "2020-12"; ReportMonth.name := Some "December" |} ].
Proof.
  pose (e1 := {| entry_year := "2021"; entry_month := "07"; entry_days := [5; 20] |}).
  pose (e2 := {| entry_year := "2020"; entry_month := "12"; entry_days := [3] |}).
  assert (H : Forall (fun e => is_number (entry_year e) /\ is_number (entry_month e))
                [e1; e2]).
  { apply Forall_cons. split; [by repeat split|].
    apply Forall_cons. split; [by repeat split | apply Forall_nil_2]. }
  exact (proj1 (ProcessDates_months [e1; e2] H)).
Defined.

(** ** The store: reads and writes of local cells *)

Section StoreSteps.

Variable s0 : store.

Lemma run_bind {A B} (m : M A) (k : A -> M B) (s : store) :
  run (bind m k) s
  = match run m s with
    | (Ok a, s') => run (k a) s'
    | (Throw, s') => (Throw, s')
    end.
Proof. reflexivity. Qed.

Lemma run_lift {A} (r : result A) (s : store) : run (lift r) s = (r, s).
Proof. reflexivity. Qed.

Lemma run_ret {A} (a : A) (s : store) : run (ret a) s = (Ok a, s).
Proof. reflexivity. Qed.

Lemma run_read_old (a : addr) (v : value) (loc : list value) :
  s0 !! a = Some v -> run (read a) (s0 ++ loc) = (Ok v, s0 ++ loc).
Proof. intros H. unfold run, read. by rewrite (lookup_app_l_Some _ _ _ _ H). Qed.

Lemma run_read_local (k : nat) (v : value) (loc : list value) :
  loc !! k = Some v -> run (read (length s0 + k)%nat) (s0 ++ loc) = (Ok v, s0 ++ loc).
Proof. intros H. unfold run, read. by rewrite lookup_app_r, Nat.add_sub', H by lia. Qed.

Lemma run_write_local (k : nat) (v : value) (loc : list value) :
  run (write (length s0 + k)%nat v) (s0 ++ loc) = (Ok tt, s0 ++ <[k := v]> loc).
Proof. unfold run, write. by rewrite insert_app_r. Qed.

Lemma run_push_local (k : nat) (v : value) (elems loc : list value) :
  loc !! k = Some (VArr elems) ->
  run (push (length s0 + k)%nat v) (s0 ++ loc)
  = (Ok tt, s0 ++ <[k := VArr (elems ++ [v])]> loc).
Proof.
  intros H. unfold run, push.
  by rewrite lookup_app_r, Nat.add_sub', H, insert_app_r by lia.
Qed.

Lemma run_alloc (v : value) (loc : list value) :
  run (alloc v) (s0 ++ loc) = (Ok (length s0 + length loc)%nat, s0 ++ (loc ++ [v])).
Proof. unfold run, alloc. by rewrite length_app, app_assoc. Qed.

(** The rows of the response, read from a cell of [s0]. *)
Lemma run_data_rows (a : addr) (data : value) (loc : list value) :
  s0 !! a = Some data ->
  run (data_rows a) (s0 ++ loc)
  = (let? rows := JS.get data "data" in JS.elements rows, s0 ++ loc).
Proof.
  intros H. unfold data_rows. rewrite run_bind, (run_read_old _ _ _ H), run_bind, run_lift.
  destruct (JS.get data "data") as [rows|]; [|done]. by rewrite run_lift.
Qed.

(** The loop of [forEach] follows the pure [forEach] as long as reading the
    array gives [elems] and the callback follows the pure callback. *)
Lemma forEach_from_sim {Acc} (R : Acc -> list value -> Prop)
    (f : Acc -> value -> result Acc) (array : M (list value)) (cb : value -> M unit)
    (elems : list value) :
  (forall loc, run array (s0 ++ loc) = (Ok elems, s0 ++ loc)) ->
  (forall acc loc e, R acc loc -> sim R s0 (cb e) loc (f acc e)) ->
  forall (n k : nat) acc loc,
    R acc loc -> (k + n)%nat = length elems ->
    sim R s0 (forEach_from array cb k n) loc (forEach f (drop k elems) acc).
Proof.
  intros Harr Hcb. induction n as [|n IH]; intros k acc loc HR Hk.
  - rewrite drop_ge by lia. exists (Ok tt), loc. by split.
  - destruct (lookup_lt_is_Some_2 elems k) as [e He]; [lia|].
    rewrite (drop_S _ _ _ He). simpl forEach. simpl forEach_from.
    destruct (Hcb acc loc e HR) as (res&loc1&Hrun&Hres).
    unfold sim. rewrite run_bind, Harr, He, run_bind, Hrun.
    destruct (f acc e) as [acc1|]; simpl.
    + destruct Hres as [-> HR1]. apply (IH (S k) acc1 loc1 HR1). lia.
    + subst res. by exists Throw, loc1.
Qed.

Lemma forEachS_sim {Acc} (R : Acc -> list value -> Prop)
    (f : Acc -> value -> result Acc) (array : M (list value)) (cb : value -> M unit)
    (elems : list value) acc loc :
  (forall loc, run array (s0 ++ loc) = (Ok elems, s0 ++ loc)) ->
  (forall acc loc e, R acc loc -> sim R s0 (cb e) loc (f acc e)) ->
  R acc loc ->
  sim R s0 (forEachS array cb) loc (forEach f elems acc).
Proof.
  intros Harr Hcb HR. unfold sim, forEachS. rewrite run_bind, Harr.
  apply (forEach_from_sim R f array cb elems Harr Hcb (length elems) 0 acc loc HR).
  lia.
Qed.

(** When reading the array throws, so does [forEach]. *)
Lemma run_forEachS_throw (array : M (list value)) (cb : value -> M unit) (loc : list value) :
  run array (s0 ++ loc) = (Throw, s0 ++ loc) ->
  run (forEachS array cb) (s0 ++ loc) = (Throw, s0 ++ loc).
Proof. intros H. unfold forEachS. by rewrite run_bind, H. Qed.

End StoreSteps.

(** ** The store: ProcessBids *)

Ltac store_step s0 :=
  try rewrite run_bind;
  first [ rewrite run_lift
        | rewrite run_ret
        | erewrite (run_push_local s0) by reflexivity
        | erewrite (run_read_local s0) by reflexivity
        | rewrite (run_write_local s0)
        | rewrite (run_alloc s0) ];
  cbv beta iota; cbn [insert list_insert length app].

Section StoreBids.

Variable s0 : store.

Lemma index_nullish (v : value) (i : nat) : JS.is_nullish v = true -> JS.index v i = Throw.
Proof. by destruct v. Qed.

(** One run of the callback does to the five cells what the pure callback
    does to the record. *)
Lemma ProcessBidsS_callback_sim (acc : BidData.t) (loc : list value) (element : value) :
  loc = BidData_cells acc ->
  sim (fun acc loc => loc = BidData_cells acc) s0
    (ProcessBidsS_callback (length s0 + 0) (length s0 + 1) (length s0 + 2)
       (length s0 + 3) (length s0 + 4) element)
    loc (ProcessBids_callback acc element).
Proof.
  intros ->. unfold sim, ProcessBidsS_callback, ProcessBids_callback.
  destruct (JS.is_nullish element) eqn:E.
  - rewrite !index_nullish by done. rewrite run_bind, run_lift. simpl. eauto.
  - rewrite !(index_cell element) by done. cbn [rbind].
    unfold BidData_cells.
    do 14 store_step s0.
    eexists _, _. split; [reflexivity|]. split; [done|].
    unfold BidData_cells. cbn [BidData.bids BidData.profit BidData.volumeSold
                                 BidData.volumeBrought BidData.totalVolume].
    rewrite map_app. reflexivity.
Qed.

End StoreBids.

Lemma preserves_app (s loc : store) : preserves s (s ++ loc).
Proof. intros a Ha. by apply lookup_app_l. Qed.

(** [ProcessBids] on the store: the cells that were there are as before, and
    the outcome is the pure function's on the tree of the response. *)
Lemma ProcessBidsS_refines (s : store) (a : addr) (data : value) :
  s !! a = Some data ->
  exists res s',
    run (ProcessBidsS a) s = (res, s')
    /\ preserves s s'
    /\ match ProcessBids data with
       | Ok out => exists ra, res = Ok ra /\ s' !! ra = Some (BidData_value out)
       | Throw => res = Throw
       end.
Proof.
  intros Ha.
  assert (run (ProcessBidsS a) s = run (ProcessBidsS a) (s ++ [])) as ->
    by by rewrite app_nil_r.
  unfold ProcessBidsS, ProcessBids.
  do 5 store_step s. rewrite run_bind.
  destruct (let? rows := JS.get data "data" in JS.elements rows) as [elems|] eqn:Hrows.
  - destruct (forEachS_sim s (fun acc loc => loc = BidData_cells acc)
                ProcessBids_callback (data_rows a)
                (ProcessBidsS_callback (length s + 0) (length s + 1) (length s + 2)
                   (length s + 3) (length s + 4))
                elems ProcessBids_init (BidData_cells ProcessBids_init))
      as (res&loc'&Hrun&Hres).
    + intros loc. by rewrite (run_data_rows s a data loc Ha), Hrows.
    + intros acc loc e ->. by apply ProcessBidsS_callback_sim.
    + done.
    + change (BidData_cells ProcessBids_init)
        with [VArr []; VNum (Int 0); VNum (Int 0); VNum (Int 0); VNum (Int 0)] in Hrun.
      rewrite Hrun.
      destruct (JS.get data "data") as [rows|]; [|done].
      cbn [rbind] in Hrows |- *. rewrite Hrows.
      cbn [rbind]. destruct (forEach _ _ _) as [out|].
      * destruct Hres as [-> ->]. unfold BidData_cells.
        do 6 store_step s.
        eexists _, _. split; [reflexivity|]. split; [apply preserves_app|].
        eexists. split; [reflexivity|].
        rewrite lookup_app_r by lia. by rewrite Nat.add_sub'.
      * subst res. eexists _, _. split; [reflexivity|]. split; [apply preserves_app | done].
  - rewrite (run_forEachS_throw s (data_rows a)).
    + eexists _, _. split; [reflexivity|]. split; [apply preserves_app|].
      destruct (JS.get data "data") as [rows|]; [|done].
      cbn [rbind] in Hrows |- *. by rewrite Hrows.
    + by rewrite (run_data_rows s a data _ Ha), Hrows.
Qed.

(** ** The store: ProcessEnergy *)

Section StoreEnergy.

Variables (s0 : store) (a : addr) (data : value).
Hypothesis Ha : s0 !! a = Some data.

(** The [carbonRate] local of the callback. *)
Lemma run_carbonRate (e0 : value) (loc : list value) :
  run match e0 with
      | VStr s =>
          d <~ read a;;
          rates <~ lift (JS.get d "carbonRate");;
          lift (JS.get rates (Str.slice 0 10 s))
      | _ => ret (VNum (Int 0))
      end (s0 ++ loc)
  = (row_carbonRate data e0, s0 ++ loc).
Proof.
  destruct e0; try reflexivity.
  rewrite run_bind, (run_read_old s0 a data loc Ha), run_bind, run_lift. simpl.
  by destruct (JS.get data "carbonRate").
Qed.

Lemma ProcessEnergyS_callback_sim (rates : value) (acc : EnergyData.t)
    (loc : list value) (element : value) :
  loc = EnergyData_cells acc /\ EnergyData.carbonRate acc = rates ->
  sim (fun acc loc => loc = EnergyData_cells acc /\ EnergyData.carbonRate acc = rates) s0
    (ProcessEnergyS_callback a (length s0 + 0) (length s0 + 1) (length s0 + 2)
       (length s0 + 3) (length s0 + 4) (length s0 + 5) (length s0 + 6) (length s0 + 7)
       (length s0 + 8) (length s0 + 9) (length s0 + 10) (length s0 + 11) (length s0 + 12)
       element)
    loc (ProcessEnergy_callback data acc element).
Proof.
  intros [-> Hr]. unfold sim, ProcessEnergyS_callback, ProcessEnergy_callback.
  destruct (JS.is_nullish element) eqn:E.
  - rewrite !index_nullish by done. rewrite run_bind, run_lift. simpl. eauto.
  - rewrite !(index_cell element) by done. cbn [rbind].
    unfold EnergyData_cells.
    do 2 store_step s0. rewrite run_bind, run_carbonRate.
    destruct (row_carbonRate data (cell element 0)) as [rate|]; cbn [rbind];
      [|by eexists _, _].
    do 16 store_step s0.
    destruct (JS.is_nullish (cell element 5) || JS.is_nullish (cell element 6)).
    + do 2 store_step s0. eexists _, _. split; [reflexivity|]. by repeat split.
    + store_step s0. destruct (JS.is_null (cell element 4)); cbn [negb].
      * store_step s0. eexists _, _. split; [reflexivity|]. by repeat split.
      * do 3 store_step s0. eexists _, _. split; [reflexivity|]. by repeat split.
Qed.

End StoreEnergy.

Lemma get_Ok_not_nullish (v x : value) (k : string) :
  JS.get v k = Ok x -> JS.is_nullish v = false.
Proof. by destruct v. Qed.

(** [ProcessEnergy] on the store. *)
Lemma ProcessEnergyS_refines (s : store) (a : addr) (data : value) :
  s !! a = Some data ->
  exists res s',
    run (ProcessEnergyS a) s = (res, s')
    /\ preserves s s'
    /\ match ProcessEnergy data with
       | Ok out => exists ra, res = Ok ra /\ s' !! ra = Some (EnergyData_value out)
       | Throw => res = Throw
       end.
Proof.
  intros Ha.
  assert (run (ProcessEnergyS a) s = run (ProcessEnergyS a) (s ++ [])) as ->
    by by rewrite app_nil_r.
  unfold ProcessEnergyS, ProcessEnergy.
  do 13 store_step s. rewrite run_bind.
  destruct (let? rows := JS.get data "data" in JS.elements rows) as [elems|] eqn:Hrows.
  - destruct (JS.get data "data") as [rows|] eqn:Hget; [|done].
    cbn [rbind] in Hrows |- *. rewrite Hrows. cbn [rbind].
    pose proof (get_prop data "carbonRate" (get_Ok_not_nullish _ _ _ Hget)) as Hrates.
    rewrite Hrates. cbn [rbind].
    set (rates := prop data "carbonRate") in *.
    destruct (forEachS_sim s
                (fun acc loc => loc = EnergyData_cells acc
                                /\ EnergyData.carbonRate acc = rates)
                (ProcessEnergy_callback data) (data_rows a)
                (ProcessEnergyS_callback a (length s + 0) (length s + 1) (length s + 2)
                   (length s + 3) (length s + 4) (length s + 5) (length s + 6)
                   (length s + 7) (length s + 8) (length s + 9) (length s + 10)
                   (length s + 11) (length s + 12))
                elems (ProcessEnergy_init rates)
                (EnergyData_cells (ProcessEnergy_init rates)))
      as (res&loc'&Hrun&Hres).
    + intros loc. rewrite (run_data_rows s a data loc Ha), Hget. cbn [rbind].
      by rewrite Hrows.
    + intros acc loc e HR. by apply ProcessEnergyS_callback_sim.
    + done.
    + change (EnergyData_cells (ProcessEnergy_init rates))
        with [VArr []; VArr []; VArr []; VArr []; VArr []; VArr []; VArr []; VArr [];
              VArr []; VArr []; VArr []; VNum (Int 0); VNum (Int 0)] in Hrun.
      rewrite Hrun. destruct (forEach _ _ _) as [out|].
      * destruct Hres as [-> [-> Hout]]. unfold EnergyData_cells.
        store_step s. rewrite run_bind, (run_read_old s a data _ Ha).
        cbv beta iota. rewrite run_bind, run_lift, Hrates. cbv beta iota.
        do 13 store_step s.
        eexists _, _. split; [reflexivity|]. split; [apply preserves_app|].
        eexists. split; [reflexivity|].
        rewrite lookup_app_r by lia. rewrite Nat.add_sub'.
        unfold EnergyData_value. fold rates. by rewrite Hout.
      * subst res. eexists _, _. split; [reflexivity|]. split; [apply preserves_app | done].
  - rewrite (run_forEachS_throw s (data_rows a)).
    + eexists _, _. split; [reflexivity|]. split; [apply preserves_app|].
      destruct (JS.get data "data") as [rows|]; [|done].
      cbn [rbind] in Hrows |- *. by rewrite Hrows.
    + by rewrite (run_data_rows s a data _ Ha), Hrows.
Qed.

(** ** The store: ProcessDates *)

Section StoreDates.

Variable s0 : store.

Lemma forEach_push_result {A} (g : value -> result A) (elems : list value) (acc : list A) :
  forEach (push_result g) elems acc = let? bs := mapM g elems in Ok (acc ++ bs).
Proof.
  revert acc. induction elems as [|e elems IH]; intros acc; simpl.
  - by rewrite app_nil_r.
  - unfold push_result at 1. destruct (g e) as [b|]; simpl; [|done].
    rewrite IH. destruct (mapM g elems); simpl; [|done]. by rewrite <- app_assoc.
Qed.

(** The callback of the inner loop pushes on the cell behind [pre]. *)
Lemma ProcessDatesS_day_sim (pre : list value) (yearMonth : string)
    (days : list ReportDay.t) (loc : list value) (day : value) :
  loc = pre ++ [VArr (map ReportDay_value days)] ->
  sim (fun days loc => loc = pre ++ [VArr (map ReportDay_value days)]) s0
    (ProcessDatesS_day (length s0 + length pre) yearMonth day)
    loc (push_result (ProcessDates_day yearMonth) days day).
Proof.
  intros ->. unfold sim, ProcessDatesS_day, push_result, ProcessDates_day.
  rewrite run_bind, run_lift.
  destruct (JS.toString day) as [text|]; cbn [rbind]; [|by eexists _, _].
  erewrite (run_push_local s0) by by apply list_lookup_middle.
  eexists _, _. split; [reflexivity|]. split; [done|].
  rewrite insert_app_r_alt, Nat.sub_diag by lia. simpl. by rewrite map_app.
Qed.

(** The body of the outer loop pushes the month on the first local cell and
    leaves one more cell behind. *)
Lemma ProcessDatesS_body_sim (months : ReportMonths) (loc : list value)
    (yearMonth : string) (monthDays : value) :
  (exists junk, loc = VArr (map ReportMonth_value months) :: junk) ->
  sim (fun months loc => exists junk, loc = VArr (map ReportMonth_value months) :: junk) s0
    (ProcessDatesS_body (length s0 + 0) yearMonth monthDays)
    loc (push_result ProcessDates_month months (yearMonth, monthDays)).
Proof.
  intros [junk ->]. unfold sim, ProcessDatesS_body, push_result, ProcessDates_month.
  rewrite run_bind, run_alloc. cbv beta iota. rewrite run_bind.
  set (pre := VArr (map ReportMonth_value months) :: junk).
  destruct (JS.elements monthDays) as [elems|] eqn:He; cbn [rbind].
  - destruct (forEachS_sim s0
                (fun days loc => loc = pre ++ [VArr (map ReportDay_value days)])
                (push_result (ProcessDates_day yearMonth)) (lift (Ok elems))
                (ProcessDatesS_day (length s0 + length pre) yearMonth)
                elems [] (pre ++ [VArr []]))
      as (res&loc'&Hrun&Hres).
    + intros loc. by rewrite run_lift.
    + intros days loc e ->. by apply ProcessDatesS_day_sim.
    + done.
    + rewrite Hrun. rewrite forEach_push_result in Hres.
      destruct (mapM (ProcessDates_day yearMonth) elems) as [days|]; cbn [rbind] in *.
      * destruct Hres as [-> ->].
        rewrite run_bind.
        erewrite (run_read_local s0) by by apply list_lookup_middle.
        cbv beta iota. subst pre. cbn [app].
        erewrite (run_push_local s0) by reflexivity.
        eexists _, _. split; [reflexivity|]. split; [done|].
        eexists. cbn [insert list_insert]. rewrite map_app. reflexivity.
      * subst res. by eexists _, _.
  - rewrite (run_forEachS_throw s0) by by rewrite run_lift.
    by eexists _, _.
Qed.

(** The [for ... in] loop over entries of a response that sits in [s0]. *)
Lemma for_inS_sim (a : addr) (data : value) (entries : list (string * value)) :
  s0 !! a = Some data ->
  Forall (fun kv : string * value =>
            existsb (String.eqb kv.1) (map fst (JS.own_entries data)) = true
            /\ prop data kv.1 = kv.2) entries ->
  forall months loc,
    (exists junk, loc = VArr (map ReportMonth_value months) :: junk) ->
    sim (fun months loc => exists junk, loc = VArr (map ReportMonth_value months) :: junk) s0
      (for_inS (read a) (map fst entries) (ProcessDatesS_body (length s0 + 0)))
      loc (let? ms := mapM ProcessDates_month entries in Ok (months ++ ms)).
Proof.
  intros Ha. induction 1 as [|[k v] entries [Hk Hv] _ IH]; intros months loc HR.
  - simpl. rewrite app_nil_r. by exists (Ok tt), loc.
  - simpl in Hk, Hv. cbn [map fst for_inS mapM].
    destruct (ProcessDatesS_body_sim months loc k v HR) as (res&loc1&Hrun&Hres).
    destruct HR as [junk ->].
    unfold sim. rewrite run_bind, (run_read_old s0 a data _ Ha). cbv beta iota.
    rewrite Hk, Hv, run_bind, Hrun.
    unfold push_result in Hres. destruct (ProcessDates_month (k, v)) as [m|]; cbn [rbind] in *.
    + destruct Hres as [-> HR1]. cbv beta iota.
      destruct (IH (months ++ [m]) loc1 HR1) as (res2&loc2&Hrun2&Hres2).
      exists res2, loc2. split; [exact Hrun2|].
      destruct (mapM ProcessDates_month entries) as [ms|]; cbn [rbind] in *; [|done].
      by rewrite <- app_assoc in Hres2.
    + subst res. by exists Throw, loc1.
Qed.

Lemma own_keys_exist (data : value) :
  Forall (fun kv : string * value =>
            existsb (String.eqb kv.1) (map fst (JS.own_entries data)) = true)
         (JS.own_entries data).
Proof.
  apply Forall_forall. intros [k v] Hin. apply existsb_exists. exists k.
  split; [|apply String.eqb_refl].
  apply list_elem_of_In, list_elem_of_fmap. by exists (k, v).
Qed.

Lemma lookup_distinct (props : list (string * value)) (kv : string * value) :
  NoDup (map fst props) -> kv ∈ props -> JS.lookup props kv.1 = kv.2.
Proof.
  induction props as [|[k v] props IH]; intros Hnd Hin.
  - by apply elem_of_nil in Hin.
  - change (map fst ((k, v) :: props)) with (k :: map fst props) in Hnd.
    apply NoDup_cons in Hnd as [Hk Hnd]. cbn [JS.lookup].
    apply elem_of_cons in Hin as [->|Hin].
    + simpl. by rewrite String.eqb_refl.
    + destruct (String.eqb k kv.1) eqn:E; [|by apply IH].
      apply String.eqb_eq in E. subst k. destruct Hk.
      apply list_elem_of_fmap. by exists kv.
Qed.

Lemma read_key_distinct (props : list (string * value)) :
  NoDup (map fst props) -> well_keyed (VObj props).
Proof.
  intros Hnd. apply Forall_forall. intros kv Hin. by apply lookup_distinct.
Qed.

End StoreDates.

(** [ProcessDates] on the store. *)
Lemma ProcessDatesS_refines (s : store) (a : addr) (data : value) :
  s !! a = Some data ->
  well_keyed data ->
  exists res s',
    run (ProcessDatesS a) s = (res, s')
    /\ preserves s s'
    /\ match ProcessDates data with
       | Ok out => exists ra, res = Ok ra /\ s' !! ra = Some (ReportMonths_value out)
       | Throw => res = Throw
       end.
Proof.
  intros Ha Hwk.
  assert (run (ProcessDatesS a) s = run (ProcessDatesS a) (s ++ [])) as ->
    by by rewrite app_nil_r.
  unfold ProcessDatesS, ProcessDates.
  store_step s. rewrite run_bind, (run_read_old s a data _ Ha). cbv beta iota.
  rewrite run_bind.
  destruct (for_inS_sim s a data (JS.own_entries data) Ha) with (months := @nil ReportMonth.t)
    (loc := [VArr []]) as (res&loc'&Hrun&Hres).
  - pose proof (own_keys_exist data) as Hk. unfold well_keyed in Hwk.
    rewrite Forall_forall in Hk, Hwk |- *. intros kv Hin. split; auto.
  - by exists [].
  - rewrite Hrun. destruct (mapM ProcessDates_month _) as [ms|]; cbn [rbind] in Hres.
    + destruct Hres as [-> [junk ->]]. cbv beta iota. rewrite run_ret.
      eexists _, _. split; [reflexivity|]. split; [apply preserves_app|].
      eexists. split; [reflexivity|].
      rewrite lookup_app_r by lia. by rewrite Nat.add_sub'.
    + subst res. eexists _, _. split; [reflexivity|]. split; [apply preserves_app | done].
Qed.

(** From a refinement to the caller's view of the run. *)
Lemma refines_outcome {A} (f : A -> value) (pure : result A) (m : M addr) (s : store) :
  (exists res s',
     run m s = (res, s') /\ preserves s s'
     /\ match pure with
        | Ok out => exists ra, res = Ok ra /\ s' !! ra = Some (f out)
        | Throw => res = Throw
        end) ->
  preserves s (run m s).2 /\ outcome (run m s) = rmap (fun out => Some (f out)) pure.
Proof.
  intros (res&s'&Hrun&Hp&Hres). rewrite Hrun. split; [exact Hp|].
  unfold outcome. destruct pure as [out|]; simpl.
  - destruct Hres as (ra&->&Hra). simpl. by rewrite Hra.
  - by subst res.
Qed.

(** C8. The three processing functions, run as statements on a store that
    holds their input: every cell that existed before the call, the input
    among them, is unchanged after it, whether the call returns or throws;
    and what the caller gets is determined by the tree of the input alone,
    so that a second application, in any store and at any address holding
    the same tree, gives the same tree or the same throw. *)
Theorem processing_is_pure (s : store) (ab ae ad : addr) (bidsData energyData datesData : value) :
  s !! ab = Some bidsData ->
  s !! ae = Some energyData ->
  s !! ad = Some datesData ->
  well_keyed datesData ->
  (preserves s (run (ProcessBidsS ab) s).2
   /\ outcome (run (ProcessBidsS ab) s)
      = rmap (fun out => Some (BidData_value out)) (ProcessBids bidsData)
   /\ forall s2 a2, s2 !! a2 = Some bidsData ->
        outcome (run (ProcessBidsS a2) s2) = outcome (run (ProcessBidsS ab) s))
  /\ (preserves s (run (ProcessEnergyS ae) s).2
      /\ outcome (run (ProcessEnergyS ae) s)
         = rmap (fun out => Some (EnergyData_value out)) (ProcessEnergy energyData)
      /\ forall s2 a2, s2 !! a2 = Some energyData ->
           outcome (run (ProcessEnergyS a2) s2) = outcome (run (ProcessEnergyS ae) s))
  /\ (preserves s (run (ProcessDatesS ad) s).2
      /\ outcome (run (ProcessDatesS ad) s)
         = rmap (fun out => Some (ReportMonths_value out)) (ProcessDates datesData)
      /\ forall s2 a2, s2 !! a2 = Some datesData ->
           outcome (run (ProcessDatesS a2) s2) = outcome (run (ProcessDatesS ad) s)).
Proof.
  intros Hb He Hd Hwk.
  destruct (refines_outcome BidData_value _ _ _ (ProcessBidsS_refines s ab _ Hb))
    as [Hpb Hob].
  destruct (refines_outcome EnergyData_value _ _ _ (ProcessEnergyS_refines s ae _ He))
    as [Hpe Hoe].
  destruct (refines_outcome ReportMonths_value _ _ _ (ProcessDatesS_refines s ad _ Hd Hwk))
    as [Hpd Hod].
  repeat split; try done.
  - intros s2 a2 H2. rewrite Hob.
    apply (refines_outcome BidData_value _ _ _ (ProcessBidsS_refines s2 a2 _ H2)).
  - intros s2 a2 H2. rewrite Hoe.
    apply (refines_outcome EnergyData_value _ _ _ (ProcessEnergyS_refines s2 a2 _ H2)).
  - intros s2 a2 H2. rewrite Hod.
    apply (refines_outcome ReportMonths_value _ _ _
             (ProcessDatesS_refines s2 a2 _ H2 Hwk)).
Qed.

(** The three example responses in one store; each function is run, and
    run again on the store the first run left. *)
Lemma processing_is_pure_witness :
  let bidsData :=
    VObj [("data", VArr [VArr [VStr "2021-07-22"; VNum (Int 0); VStr "SELL";
                               VNum (Int 10); VNum (Int 50)];
                         VArr [VStr "2021-07-22"; VNum (Int 1); VStr "BUY";
                               VNum (Int 5); VNum (Int 40)]])] in
  let energyData :=
    VObj [("data", VArr [VArr [VStr "2021-07-22 00:00:00+00:00"; VNum (Int 100);
                               VNum (Int 40); VNum (Int 60); VNull;
                               VNum (Int 35); VNum (Int 55)]]);
          ("carbonRate", VObj [("2021-07-22", VNum (Int 2))])] in
  let datesData := VObj [("2021-07", VArr [VNum (Int 5); VNum (Int 20)])] in
  let s := [bidsData; energyData; datesData] in
  preserves s (run (ProcessBidsS 0) s).2
  /\ outcome (run (ProcessBidsS 0) (run (ProcessBidsS 0) s).2)
     = outcome (run (ProcessBidsS 0) s)
  /\ preserves s (run (ProcessEnergyS 1) s).2
  /\ preserves s (run (ProcessDatesS 2) s).2.
Proof.
  intros bidsData energyData datesData s.
  assert (Hwk : well_keyed datesData).
  { apply read_key_distinct. apply NoDup_cons. split; [|apply NoDup_nil_2].
    intros H. by apply elem_of_nil in H. }
  destruct (processing_is_pure s 0 1 2 bidsData energyData datesData
              eq_refl eq_refl eq_refl Hwk) as ((Hpb&_&H2)&(Hpe&_)&(Hpd&_)).
  split; [exact Hpb|]. split; [|by split].
  apply H2. rewrite (Hpb 0%nat); [reflexivity | simpl; lia].
Defined.

(** ** Dates the check accepts *)

Section DateSyntax.

Lemma length_append (a b : string) :
  String.length (a +:+ b) = (String.length a + String.length b)%nat.
Proof.
  induction a as [|c a IH]; [done|].
  change (S (String.length (a +:+ b)) = S (String.length a + String.length b)).
  by rewrite IH.
Qed.

Lemma length_nonempty (s : string) : s <> "" -> (1 <= String.length s)%nat.
Proof. destruct s; [done | simpl; lia]. Qed.

Lemma drop_spaces_digits (l : list ascii) :
  forallb Str.is_digit l = true -> Str.drop_spaces l = l.
Proof.
  destruct l as [|c r]; [done|]. simpl.
  intros [Hc _]%andb_true_iff. by rewrite (is_digit_not_space c Hc).
Qed.

Lemma forallb_rev (l : list ascii) :
  forallb Str.is_digit l = true -> forallb Str.is_digit (rev l) = true.
Proof.
  rewrite !forallb_forall. intros H c Hc. apply H. by apply in_rev.
Qed.

(** [Number(s)] of a run of digits is its value. *)
Lemma StringToNumber_number (s : string) :
  is_number s -> JS.StringToNumber s = Int (number_of s).
Proof.
  intros [Hne Hd]. unfold JS.StringToNumber, number_of, Str.trim.
  rewrite (drop_spaces_digits _ Hd), (drop_spaces_digits _ (forallb_rev _ Hd)), rev_involutive.
  destruct (Str.to_list s) as [|c r] eqn:E.
  - destruct s; [done | discriminate E].
  - pose proof Hd as Hd'. simpl in Hd. apply andb_true_iff in Hd as [Hc Hr].
    rewrite !(is_digit_not_char c) by done. rewrite Hd'. f_equal. lia.
Qed.

(** A date ["YYYY-MM-DD"] splits into its three pieces. *)
Lemma split_date (y m d : string) :
  is_number y -> is_number m -> is_number d ->
  Str.split "-" (y +:+ "-" +:+ m +:+ "-" +:+ d) = [y; m; d].
Proof.
  intros [_ Hy] [_ Hm] [_ Hd]. unfold Str.split.
  rewrite to_list_append. change (Str.to_list ("-" +:+ ?s)) with ("-"%char :: Str.to_list s).
  rewrite split_aux_first by by apply digits_no_dash.
  rewrite to_list_append. change (Str.to_list ("-" +:+ ?s)) with ("-"%char :: Str.to_list s).
  rewrite split_aux_first by by apply digits_no_dash.
  rewrite split_aux_none by by apply digits_no_dash.
  simpl. by rewrite !of_list_to_list.
Qed.

(** Every month ["YYYY-MM"] with month up to 12 is accepted. *)
Lemma ValidateDate_accepts_month (y m : string) :
  is_number y -> String.length y = 4%nat ->
  is_number m -> (String.length m <= 2)%nat -> number_of m <= 12 ->
  ValidateDate (y +:+ "-" +:+ m) = true.
Proof.
  intros Hy Hly Hm Hlm Hle. unfold ValidateDate.
  pose proof (length_nonempty m (proj1 Hm)) as Hm1.
  rewrite (split_key {| entry_year := y; entry_month := m; entry_days := [] |} Hy Hm
           : Str.split "-" (y +:+ "-" +:+ m) = [y; m]).
  rewrite !length_append. cbn [nth length String.length]. rewrite !Hly.
  rewrite (proj2 (Nat.ltb_ge _ _)) by lia. rewrite (proj2 (Nat.ltb_ge _ _)) by lia.
  cbn [Nat.eqb orb negb andb].
  rewrite (proj2 (Nat.ltb_ge 2 _)) by lia.
  rewrite (proj2 (Nat.eqb_neq _ 0%nat)) by lia. cbn [orb].
  rewrite StringToNumber_number by done. cbn [JS.num_gt].
  by rewrite (proj2 (Z.ltb_ge _ _)) by lia.
Qed.

(** Every day ["YYYY-MM-DD"] with month up to 12 and day up to 31 is
    accepted, whatever the month. *)
Lemma ValidateDate_accepts_day (y m d : string) :
  is_number y -> String.length y = 4%nat ->
  is_number m -> (String.length m <= 2)%nat -> number_of m <= 12 ->
  is_number d -> (String.length d <= 2)%nat -> number_of d <= 31 ->
  ValidateDate (y +:+ "-" +:+ m +:+ "-" +:+ d) = true.
Proof.
  intros Hy Hly Hm Hlm Hle Hd Hld Hled. unfold ValidateDate.
  pose proof (length_nonempty m (proj1 Hm)) as Hm1.
  pose proof (length_nonempty d (proj1 Hd)) as Hd1.
  rewrite split_date by done.
  rewrite !length_append. cbn [nth length String.length]. rewrite !Hly.
  rewrite (proj2 (Nat.ltb_ge _ _)) by lia. rewrite (proj2 (Nat.ltb_ge _ _)) by lia.
  cbn [Nat.eqb orb negb andb].
  rewrite (proj2 (Nat.ltb_ge 2 (String.length m))) by lia.
  rewrite (proj2 (Nat.eqb_neq (String.length m) 0%nat)) by lia. cbn [orb].
  rewrite (proj2 (Nat.ltb_ge 2 (String.length d))) by lia.
  rewrite (proj2 (Nat.eqb_neq (String.length d) 0%nat)) by lia. cbn [orb].
  rewrite !StringToNumber_number by done. cbn [JS.num_gt].
  rewrite (proj2 (Z.ltb_ge 12 _)) by lia. by rewrite (proj2 (Z.ltb_ge 31 _)) by lia.
Qed.

End DateSyntax.

(** ** What an accepted response guarantees *)

Section Accepted.

Lemma get_data_array (obj : value) (rows : list value) :
  JS.get obj "data" = Ok (VArr rows) ->
  JS.typeof obj = "object" /\ JS.is_nullish obj = false /\ prop obj "data" = VArr rows.
Proof.
  intros H. unfold prop. rewrite H. by destruct obj.
Qed.

Lemma dates_loop_exact (entries : list (string * value)) :
  dates_loop entries
  = if forallb (fun kv => JS.isArray kv.2) entries
    then ([], true) else (["Date values are not arrays."], false).
Proof.
  induction entries as [|[k v] rest IH]; [done|]. simpl.
  destruct (JS.isArray v); simpl; [exact IH | done].
Qed.

Lemma carbonRate_loop_None (entries : list (string * value)) :
  carbonRate_loop entries = None
  <-> Forall (fun kv => exists n, kv.2 = VNum n) entries.
Proof.
  induction entries as [|[k v] rest IH]; simpl.
  - split; [constructor | done].
  - destruct v; simpl; try (split; [done | by inversion 1 as [|? ? [? ?]]]).
    rewrite IH. split; [intros H; constructor; eauto | by inversion 1].
Qed.

End Accepted.

(** X1. On a dates response that is an object other than [null],
    [ValidateResponse] decides by one test: it accepts, with no message,
    when every own member is an array, and otherwise refuses with the one
    message that date values are not arrays. *)
Theorem ValidateResponse_dates_exact (obj : value) :
  JS.typeof obj = "object" -> JS.is_nullish obj = false ->
  ValidateResponse obj dates
  = if forallb (fun kv => JS.isArray kv.2) (JS.own_entries obj)
    then ([], true) else (["Date values are not arrays."], false).
Proof.
  intros Ht Hn. unfold ValidateResponse. rewrite Ht, Hn. simpl.
  apply dates_loop_exact.
Qed.

(** A month that is a number is refused. *)
Lemma ValidateResponse_dates_exact_witness :
  ValidateResponse (VObj [("2021-07", VArr [VNum (Int 5)]); ("2021-08", VNum (Int 3))]) dates
  = (["Date values are not arrays."], false).
Proof.
  exact (ValidateResponse_dates_exact
           (VObj [("2021-07", VArr [VNum (Int 5)]); ("2021-08", VNum (Int 3))])
           eq_refl eq_refl).
Defined.

(** X2. [ValidateResponse] accepts a bids response exactly when its
    [data] can be read and is an array, and an energy response exactly when
    [carbonRate] is an object other than [null] all of whose own members
    are numbers and [data] is an array.  The rows of [data] add messages
    but never decide acceptance. *)
Theorem ValidateResponse_true_iff (obj : value) :
  ((ValidateResponse obj bids).2 = true
   <-> exists rows, JS.get obj "data" = Ok (VArr rows))
  /\ ((ValidateResponse obj energy).2 = true
      <-> exists rates rows,
            JS.get obj "carbonRate" = Ok rates
            /\ JS.typeof rates = "object" /\ JS.is_null rates = false
            /\ Forall (fun kv => exists n, kv.2 = VNum n) (JS.own_entries rates)
            /\ JS.get obj "data" = Ok (VArr rows)).
Proof.
  split.
  - rewrite ValidateResponse_bids_result. split.
    + intros [[Ht Hn]%andb_true_iff Ha]%andb_true_iff.
      apply negb_true_iff in Hn.
      rewrite (get_prop obj "data" Hn).
      destruct (prop obj "data"); try done. eauto.
    + intros [rows (Ht&Hn&Hp)%get_data_array]. by rewrite Ht, Hn, Hp.
  - rewrite ValidateResponse_energy_result. split.
    + intros H.
      apply andb_true_iff in H as [H Ha]. apply andb_true_iff in H as [H Hl].
      apply andb_true_iff in H as [H _]. apply andb_true_iff in H as [H Hc].
      apply andb_true_iff in H as [H Ht]. apply andb_true_iff in H as [_ Hn].
      apply negb_true_iff in Hn, Hc. apply String.eqb_eq in Ht.
      rewrite !(get_prop obj _ Hn).
      destruct (prop obj "data"); try done.
      exists (prop obj "carbonRate"). eexists. split; [done|].
      split; [done|]. split; [done|]. split; [|done].
      apply carbonRate_loop_None. by destruct (carbonRate_loop _).
    + intros (rates&rows&Hr&Ht&Hn&Hall&(Hto&Hno&Hp)%get_data_array).
      rewrite (get_prop obj _ Hno) in Hr. injection Hr as ->.
      rewrite Hto, Hno, Hp, Ht, Hn. simpl.
      apply carbonRate_loop_None in Hall. by rewrite Hall.
Qed.

(** ** When the processing functions return *)

Section Returns.

Lemma forEach_bids_rows (rows : list value) (acc : BidData.t) :
  Forall (fun row => JS.is_nullish row = false) rows ->
  exists out,
    forEach ProcessBids_callback rows acc = Ok out
    /\ BidData.bids out = BidData.bids acc ++ map Bid_of_row rows.
Proof.
  intros H. revert acc. induction H as [|row rows Hrow _ IH]; intros acc.
  - exists acc. simpl. by rewrite app_nil_r.
  - cbn [forEach]. unfold ProcessBids_callback at 1.
    rewrite !index_cell by done. cbn [rbind].
    match goal with |- context [forEach _ rows ?a] => destruct (IH a) as (out&Ho&Hb) end.
    exists out. split; [exact Ho|]. rewrite Hb. cbn [BidData.bids map].
    by rewrite <- app_assoc.
Qed.




Lemma flat_map_nil {A B} (f : A -> list B) (l : list A) :
  flat_map f l = [] -> Forall (fun a => f a = []) l.
Proof.
  induction l as [|a l IH]; simpl; [constructor|].
  intros [Ha Hl]%app_eq_nil. constructor; auto.
Qed.

End Returns.


(** X4. A bids response that [ValidateResponse] accepts without
    any message is processed without an exception, into one bid per row, in
    row order, each holding the first five members of its row. *)
Theorem clean_bids_are_processed (obj : value) :
  ValidateResponse obj bids = ([], true) ->
  exists rows out,
    JS.get obj "data" = Ok (VArr rows)
    /\ ProcessBids obj = Ok out
    /\ BidData.bids out = map Bid_of_row rows.
Proof.
  intros Hv.
  assert (Ht : (ValidateResponse obj bids).2 = true) by by rewrite Hv.
  rewrite ValidateResponse_bids_result in Ht.
  apply andb_true_iff in Ht as [Ht Ha]. apply andb_true_iff in Ht as [Ht Hn].
  apply negb_true_iff in Hn.
  unfold ValidateResponse in Hv. rewrite Ht, Hn in Hv. simpl in Hv.
  destruct (prop obj "data") as [| | | | |rows|] eqn:Hp; try done. simpl in Hv.
  assert (Hrows : Forall (fun row => JS.is_nullish row = false) rows).
  { injection Hv as Hv. apply flat_map_nil in Hv.
    eapply Forall_impl; [exact Hv|]. intros row Hr. simpl in Hr.
    unfold bids_callback in Hr. by destruct row. }
  exists rows. unfold ProcessBids. rewrite (get_prop obj _ Hn), Hp. simpl.
  destruct (forEach_bids_rows rows ProcessBids_init Hrows) as (out&Ho&Hb).
  exists out. by repeat split.
Qed.

(** A row of two members gives a bid whose other members are [undefined]. *)
Lemma clean_bids_are_processed_witness :
  exists out,
    ProcessBids (VObj [("data", VArr [VArr [VStr "2021-07-22"; VNum (Int 3)]])]) = Ok out
    /\ BidData.bids out
       = [ {| Bid.date := VStr "2021-07-22"; Bid.hour := VNum (Int 3);
              Bid.type := VUndefined; Bid.volume := VUndefined;
              Bid.price := VUndefined |} ].
Proof.
  destruct (clean_bids_are_processed
              (VObj [("data", VArr [VArr [VStr "2021-07-22"; VNum (Int 3)]])]) eq_refl)
    as (rows&out&Hd&Ho&Hb).
  exists out. split; [exact Ho|]. injection Hd as <-. exact Hb.
Defined.

Section EnergyColumns.

Lemma energy_callback_clean (row : value) :
  energy_callback row = [] -> JS.is_nullish row = false.
Proof. unfold energy_callback. by destruct row. Qed.

End EnergyColumns.



(** X6. An energy response that [ValidateResponse] accepts
    without any message is processed without an exception, and every time
    of the result is a string, [null] or [undefined]. *)
Theorem clean_energy_is_processed (obj : value) :
  ValidateResponse obj energy = ([], true) ->
  exists rows out,
    JS.get obj "data" = Ok (VArr rows)
    /\ ProcessEnergy obj = Ok out
    /\ EnergyData.times out = map (fun row => cell row 0) rows
    /\ Forall (fun t => JS.typeof t = "string" \/ JS.is_nullish t = true)
         (EnergyData.times out).
Proof.
  intros Hv. unfold ValidateResponse in Hv.
  destruct (String.eqb (JS.typeof obj) "object"); [|done].
  destruct (JS.is_nullish obj) eqn:Hn; [done|]. simpl in Hv.
  destruct (JS.is_undefined (prop obj "carbonRate")) eqn:Hu; [done|].
  destruct (String.eqb (JS.typeof (prop obj "carbonRate")) "object"); [|done].
  destruct (JS.is_null (prop obj "carbonRate")) eqn:Hc; [done|]. simpl in Hv.
  destruct (JS.is_undefined (prop obj "data")); [done|].
  destruct (carbonRate_loop _); [done|].
  destruct (prop obj "data") as [| | | | |rows|] eqn:Hp; try done. simpl in Hv.
  injection Hv as Hv. apply flat_map_nil in Hv.
  assert (Hrows : Forall (fun row => JS.is_nullish row = false) rows).
  { eapply Forall_impl; [exact Hv|]. intros row Hr. by apply energy_callback_clean. }
  assert (Hobj : JS.is_nullish (prop obj "carbonRate") = false).
  { destruct (prop obj "carbonRate"); done. }
  exists rows. unfold ProcessEnergy. rewrite !(get_prop obj _ Hn), Hp.
  cbn [rbind JS.elements].
  destruct (forEach_energy obj _ (get_prop obj "carbonRate" Hn) Hobj rows
              (ProcessEnergy_init (prop obj "carbonRate")) Hrows)
    as (out&G0&G1&_).
  exists out. split; [done|]. split; [exact G0|]. rewrite G1. split; [done|].
  simpl. apply Forall_map. eapply Forall_impl; [exact Hv|].
  intros row Hr. simpl in Hr. unfold energy_callback in Hr.
  destruct row as [| | | | |elems|]; try done. simpl in Hr.
  destruct elems as [|e0 rest]; [by right|]. unfold cell. simpl.
  simpl in Hr. destruct e0; simpl in *; try done; auto.
Qed.

(** Rows with a [null] time and with no time at all pass unremarked. *)
Lemma clean_energy_is_processed_witness :
  exists out,
    ProcessEnergy
      (VObj [("carbonRate", VObj []); ("data", VArr [VArr [VNull; VNum (Int 4)]; VArr []])])
    = Ok out
    /\ EnergyData.times out = [VNull; VUndefined].
Proof.
  destruct (clean_energy_is_processed
              (VObj [("carbonRate", VObj []);
                     ("data", VArr [VArr [VNull; VNum (Int 4)]; VArr []])]) eq_refl)
    as (rows&out&Hd&Ho&Ht&_).
  exists out. split; [exact Ho|]. injection Hd as <-. exact Ht.
Defined.

Section DatesReturns.





End DatesReturns.



(** ** How a pipeline can end *)

Section Endings.

(** The [.catch] of the energy pipeline, followed by [markLoaded]. *)
Lemma energy_catch_state (p : Page) :
  let p' := markLoaded (energy_catch p) in
  HasEnergyData p' = false /\ Energy p' = Energy p
  /\ dom_energy p' = section SkeletonType.Energy
                       (skeletons SkeletonState.Error SkeletonType.Energy p)
  /\ HasBidData p' = HasBidData p /\ Bids p' = Bids p /\ dom_market p' = dom_market p
  /\ dom_dates p' = dom_dates p /\ PageDate p' = PageDate p /\ PageType p' = PageType p.
Proof.
  intros p'. subst p'.
  destruct (markLoaded_frame (energy_catch p)) as (H1&H2&H3&H4&H5&H6&Hs&_).
  rewrite H1, H2, H3, H4, H5, H6.
  rewrite (Hs SkeletonType.Energy : dom_energy _ = _).
  rewrite (Hs SkeletonType.Market : dom_market _ = _).
  rewrite (Hs SkeletonType.Dates : dom_dates _ = _).
  by repeat split.
Qed.

Lemma bids_catch_state (p : Page) :
  let p' := markLoaded (bids_catch p) in
  HasBidData p' = false /\ Bids p' = Bids p
  /\ dom_market p' = section SkeletonType.Market
                       (skeletons SkeletonState.Error SkeletonType.Market p)
  /\ HasEnergyData p' = HasEnergyData p /\ Energy p' = Energy p
  /\ dom_energy p' = dom_energy p
  /\ dom_dates p' = dom_dates p /\ PageDate p' = PageDate p /\ PageType p' = PageType p.
Proof.
  intros p'. subst p'.
  destruct (markLoaded_frame (bids_catch p)) as (H1&H2&H3&H4&H5&H6&Hs&_).
  rewrite H1, H2, H3, H4, H5, H6.
  rewrite (Hs SkeletonType.Energy : dom_energy _ = _).
  rewrite (Hs SkeletonType.Market : dom_market _ = _).
  rewrite (Hs SkeletonType.Dates : dom_dates _ = _).
  by repeat split.
Qed.

End Endings.

Section Failures.

Lemma energy_catch_trace (p : Page) :
  trace (markLoaded (energy_catch p))
  = trace p ++ [ConsoleError "Error parsing energy data"; UpdateCarbonCard None;
                ConsoleLog ("markLoaded(): "
                            +:+ JS.ToString (VNum (JS.sub (flagLoading p) (VNum (Int 1)))))].
Proof.
  destruct (markLoaded_frame (energy_catch p)) as (_&_&_&_&_&_&_&->).
  simpl. by rewrite <- !app_assoc.
Qed.

Lemma energy_then_throw (body : value) (p : Page) :
  (ValidateResponse body energy).2 = true -> ProcessEnergy body = Throw ->
  energy_then body p = (Throw, emits (map ConsoleError (ValidateResponse body energy).1) p).
Proof.
  intros Hv HT. unfold energy_then.
  destruct (ValidateResponse body energy) as [lines valid]. simpl in *. subst valid.
  simpl. by rewrite HT.
Qed.

End Failures.

(** X8. When the energy request is rejected, its body cannot be
    parsed, or an accepted body makes [ProcessEnergy] throw, the pipeline
    ends with [HasEnergyData] false, the cached energy data as they were,
    the energy section on its error skeleton, the carbon card reset to no
    data right before the loading counter is released, and everything of
    the market side untouched. *)
Theorem energy_failure_shows_error (o : Outcome) (p : Page) :
  (o = FetchRejected \/ (exists status, o = JsonRejected status)
   \/ exists status body, o = Json status body
        /\ (ValidateResponse body energy).2 = true /\ ProcessEnergy body = Throw) ->
  let p' := energy_settle o p in
  HasEnergyData p' = false /\ Energy p' = Energy p
  /\ dom_energy p' = {| content_hidden := true; skeleton_hidden := false;
                        skeleton_error := true; skeleton_effect := Some "sheen" |}
  /\ (exists lines count,
        trace p'
        = trace p ++ lines
          ++ [UpdateCarbonCard None; ConsoleLog ("markLoaded(): " +:+ count)])
  /\ HasBidData p' = HasBidData p /\ Bids p' = Bids p /\ dom_market p' = dom_market p.
Proof.
  intros [->|[[status ->]|(status&body&->&Hv&HT)]] p'; subst p'.
  - unfold energy_settle.
    destruct (markLoaded_frame
      (p |> emit (ConsoleError "Error requesting energy data")
         |> set_HasEnergyData false |> emit (UpdateCarbonCard None)
         |> skeletons SkeletonState.Error SkeletonType.Energy))
      as (_&_&H3&H4&H5&H6&Hs&Ht).
    rewrite H3, H4, H5, H6, Ht.
    rewrite (Hs SkeletonType.Energy : dom_energy _ = _).
    rewrite (Hs SkeletonType.Market : dom_market _ = _).
    repeat split. exists [ConsoleError "Error requesting energy data"]. eexists.
    simpl. by rewrite <- !app_assoc.
  - unfold energy_settle.
    destruct (energy_catch_state
      (emit (ConsoleLog ("Energy Response Status:" +:+ Str.of_Z status)) p))
      as (H1&H2&H3&H4&H5&H6&_).
    rewrite H1, H2, H3, H4, H5, H6, energy_catch_trace.
    repeat split.
    exists [ConsoleLog ("Energy Response Status:" +:+ Str.of_Z status);
            ConsoleError "Error parsing energy data"]. eexists.
    simpl. by rewrite <- !app_assoc.
  - unfold energy_settle. rewrite energy_then_throw by done.
    set (es := map ConsoleError (ValidateResponse body energy).1).
    set (q := emit _ p).
    destruct (energy_catch_state (emits es q)) as (H1&H2&H3&H4&H5&H6&_).
    destruct (emits_frame es q) as (_&_&G3&_&G5&G6&G7&Gs&_).
    rewrite H1, H2, H3, H4, H5, H6, energy_catch_trace, trace_emits, G3, G5, G6, G7.
    rewrite (Gs SkeletonType.Market : dom_market _ = _).
    unfold skeletons. simpl. repeat split.
    exists ([ConsoleLog ("Energy Response Status:" +:+ Str.of_Z status)] ++ es
            ++ [ConsoleError "Error parsing energy data"]). eexists.
    by rewrite <- !app_assoc.
Qed.

(** A [null] row: the response is accepted with a message, and
    processing it throws. *)
Lemma energy_failure_shows_error_witness :
  let body := VObj [("carbonRate", VObj []); ("data", VArr [VNull])] in
  let p := pageLoad_start None DateType.Day "2021-07-22" in
  ValidateResponse body energy = (["Energy data array does not contain arrays."], true)
  /\ HasEnergyData (energy_settle (Json 200 body) p) = false
  /\ skeleton_error (dom_energy (energy_settle (Json 200 body) p)) = true.
Proof.
  intros body p. split; [reflexivity|].
  destruct (energy_failure_shows_error (Json 200 body) p) as (H1&_&H3&_).
  - right. right. exists 200, body. by repeat split.
  - split; [exact H1|]. by rewrite H3.
Defined.

Section Successes.





Lemma energy_then_Ok (body : value) (p : Page) (e : EnergyData.t) (newTimes : list value) :
  (ValidateResponse body energy).2 = true ->
  ProcessEnergy body = Ok e ->
  mapM (slice_method (match PageType p with DateType.Day => 11 | DateType.Month => 0 end)
                     16) (EnergyData.times e) = Ok newTimes ->
  energy_then body p
  = (Ok tt,
     emits (map ConsoleError (ValidateResponse body energy).1) p
       |> set_Energy e |> set_HasEnergyData true
       |> set_Energy (with_times newTimes e)
       |> emit (DisplayChart "windPower")
       |> emit (DisplayChart "solarPower")
       |> emit (DisplayChart "overviewPower")
       |> emit (DisplayChart "netPower")
       |> emit (UpdateCarbonCard (Some (with_times newTimes e)))
       |> skeletons SkeletonState.Hidden SkeletonType.Energy).
Proof.
  intros Hv He Hm. unfold energy_then.
  destruct (ValidateResponse body energy) as [lines valid]. simpl in Hv. subst valid.
  cbn [negb fst snd]. rewrite He.
  destruct (emits_frame (map ConsoleError lines) p) as (_&Ht&_).
  cbn [PageType set_HasEnergyData set_Energy]. rewrite Ht.
  destruct (PageType p); cbn [fst snd] in *; by rewrite Hm.
Qed.

Lemma energy_then_slice_Throw (body : value) (p : Page) (e : EnergyData.t) :
  (ValidateResponse body energy).2 = true ->
  ProcessEnergy body = Ok e ->
  mapM (slice_method (match PageType p with DateType.Day => 11 | DateType.Month => 0 end)
                     16) (EnergyData.times e) = Throw ->
  energy_then body p
  = (Throw,
     emits (map ConsoleError (ValidateResponse body energy).1) p
       |> set_Energy e |> set_HasEnergyData true).
Proof.
  intros Hv He Hm. unfold energy_then.
  destruct (ValidateResponse body energy) as [lines valid]. simpl in Hv. subst valid.
  cbn [negb fst snd]. rewrite He.
  destruct (emits_frame (map ConsoleError lines) p) as (_&Ht&_).
  cbn [PageType set_HasEnergyData set_Energy]. rewrite Ht.
  destruct (PageType p); cbn [fst snd] in *; by rewrite Hm.
Qed.

End Successes.

Section Shown.

(** The page the energy callback leaves when it runs to its end, after
    [markLoaded]. *)
Lemma energy_shown_state (q : Page) (e e' : EnergyData.t) :
  let p' := markLoaded
              (q |> set_Energy e |> set_HasEnergyData true
                 |> set_Energy e'
                 |> emit (DisplayChart "windPower")
                 |> emit (DisplayChart "solarPower")
                 |> emit (DisplayChart "overviewPower")
                 |> emit (DisplayChart "netPower")
                 |> emit (UpdateCarbonCard (Some e'))
                 |> skeletons SkeletonState.Hidden SkeletonType.Energy) in
  HasEnergyData p' = true /\ Energy p' = Some e'
  /\ content_hidden (dom_energy p') = false /\ skeleton_hidden (dom_energy p') = true
  /\ HasBidData p' = HasBidData q /\ Bids p' = Bids q /\ dom_market p' = dom_market q
  /\ dom_dates p' = dom_dates q
  /\ trace p'
     = trace q
       ++ [DisplayChart "windPower"; DisplayChart "solarPower";
           DisplayChart "overviewPower"; DisplayChart "netPower";
           UpdateCarbonCard (Some e');
           ConsoleLog ("markLoaded(): "
                       +:+ JS.ToString (VNum (JS.sub (flagLoading q) (VNum (Int 1)))))].
Proof.
  intros p'. subst p'.
  match goal with |- context [markLoaded ?x] => set (X := x) end.
  assert (Ht : trace X
               = trace q ++ [DisplayChart "windPower"; DisplayChart "solarPower";
                             DisplayChart "overviewPower"; DisplayChart "netPower";
                             UpdateCarbonCard (Some e')]).
  { subst X. cbn [trace skeletons set_section emit set_Energy set_HasEnergyData].
    rewrite <- !app_assoc. cbn [app]. reflexivity. }
  assert (Hf : flagLoading X = flagLoading q) by reflexivity.
  destruct (markLoaded_frame X) as (_&_&H3&H4&H5&H6&Hs&Htr).
  rewrite H3, H4, H5, H6, Htr, Ht, Hf.
  rewrite (Hs SkeletonType.Energy : dom_energy _ = _).
  rewrite (Hs SkeletonType.Market : dom_market _ = _).
  rewrite (Hs SkeletonType.Dates : dom_dates _ = _).
  do 8 (split; [reflexivity|]).
  rewrite <- app_assoc. reflexivity.
Qed.

End Shown.






Section BidsEndings.

Lemma bids_catch_trace (p : Page) :
  trace (markLoaded (bids_catch p))
  = trace p ++ [ConsoleError "Error parsing bids"; UpdateProfitCard None;
                ConsoleLog ("markLoaded(): "
                            +:+ JS.ToString (VNum (JS.sub (flagLoading p) (VNum (Int 1)))))].
Proof.
  destruct (markLoaded_frame (bids_catch p)) as (_&_&_&_&_&_&_&->).
  simpl. by rewrite <- !app_assoc.
Qed.

Lemma bids_then_throw (body : value) (p : Page) :
  (ValidateResponse body bids).2 = true -> ProcessBids body = Throw ->
  bids_then body p = (Throw, emits (map ConsoleError (ValidateResponse body bids).1) p).
Proof.
  intros Hv HT. unfold bids_then.
  destruct (ValidateResponse body bids) as [lines valid]. simpl in *. subst valid.
  simpl. by rewrite HT.
Qed.

Lemma bids_then_Ok (body : value) (p : Page) (b : BidData.t) :
  (ValidateResponse body bids).2 = true -> ProcessBids body = Ok b ->
  bids_then body p
  = (Ok tt,
     emits (map ConsoleError (ValidateResponse body bids).1) p
       |> set_Bids b |> set_HasBidData true
       |> emit (DisplayChart "overviewMarket")
       |> emit (UpdateProfitCard (Some b))
       |> emit (UpdateBidTable b)
       |> skeletons SkeletonState.Hidden SkeletonType.Market).
Proof.
  intros Hv HT. unfold bids_then.
  destruct (ValidateResponse body bids) as [lines valid]. simpl in *. subst valid.
  simpl. by rewrite HT.
Qed.

Lemma bids_shown_state (q : Page) (b : BidData.t) :
  let p' := markLoaded
              (q |> set_Bids b |> set_HasBidData true
                 |> emit (DisplayChart "overviewMarket")
                 |> emit (UpdateProfitCard (Some b))
                 |> emit (UpdateBidTable b)
                 |> skeletons SkeletonState.Hidden SkeletonType.Market) in
  HasBidData p' = true /\ Bids p' = Some b
  /\ content_hidden (dom_market p') = false /\ skeleton_hidden (dom_market p') = true
  /\ HasEnergyData p' = HasEnergyData q /\ Energy p' = Energy q
  /\ dom_energy p' = dom_energy q /\ dom_dates p' = dom_dates q
  /\ trace p'
     = trace q
       ++ [DisplayChart "overviewMarket"; UpdateProfitCard (Some b); UpdateBidTable b;
           ConsoleLog ("markLoaded(): "
                       +:+ JS.ToString (VNum (JS.sub (flagLoading q) (VNum (Int 1)))))].
Proof.
  intros p'. subst p'.
  match goal with |- context [markLoaded ?x] => set (X := x) end.
  assert (Ht : trace X
               = trace q ++ [DisplayChart "overviewMarket"; UpdateProfitCard (Some b);
                             UpdateBidTable b]).
  { subst X. cbn [trace skeletons set_section emit set_Bids set_HasBidData].
    rewrite <- !app_assoc. cbn [app]. reflexivity. }
  assert (Hf : flagLoading X = flagLoading q) by reflexivity.
  destruct (markLoaded_frame X) as (_&_&H3&H4&H5&H6&Hs&Htr).
  rewrite H3, H4, H5, H6, Htr, Ht, Hf.
  rewrite (Hs SkeletonType.Energy : dom_energy _ = _).
  rewrite (Hs SkeletonType.Market : dom_market _ = _).
  rewrite (Hs SkeletonType.Dates : dom_dates _ = _).
  do 8 (split; [reflexivity|]).
  rewrite <- app_assoc. reflexivity.
Qed.

End BidsEndings.

(** X11. When the bids request is rejected, its body cannot be
    parsed, or an accepted body makes [ProcessBids] throw, the pipeline
    ends with [HasBidData] false, the cached bids as they were, the market
    section on its error skeleton, the profit card reset to no data right
    before the loading counter is released, and everything of the energy
    side untouched. *)
Theorem bids_failure_shows_error (o : Outcome) (p : Page) :
  (o = FetchRejected \/ (exists status, o = JsonRejected status)
   \/ exists status body, o = Json status body
        /\ (ValidateResponse body bids).2 = true /\ ProcessBids body = Throw) ->
  let p' := bids_settle o p in
  HasBidData p' = false /\ Bids p' = Bids p
  /\ dom_market p' = {| content_hidden := true; skeleton_hidden := false;
                        skeleton_error := true; skeleton_effect := Some "sheen" |}
  /\ (exists lines count,
        trace p'
        = trace p ++ lines
          ++ [UpdateProfitCard None; ConsoleLog ("markLoaded(): " +:+ count)])
  /\ HasEnergyData p' = HasEnergyData p /\ Energy p' = Energy p
  /\ dom_energy p' = dom_energy p.
Proof.
  intros [->|[[status ->]|(status&body&->&Hv&HT)]] p'; subst p'.
  - unfold bids_settle.
    destruct (markLoaded_frame
      (p |> emit (ConsoleError "Error requesting bids")
         |> set_HasBidData false |> emit (UpdateProfitCard None)
         |> skeletons SkeletonState.Error SkeletonType.Market))
      as (_&_&H3&H4&H5&H6&Hs&Ht).
    rewrite H3, H4, H5, H6, Ht.
    rewrite (Hs SkeletonType.Energy : dom_energy _ = _).
    rewrite (Hs SkeletonType.Market : dom_market _ = _).
    do 3 (split; [reflexivity|]). split; [|by repeat split].
    exists [ConsoleError "Error requesting bids"]. eexists.
    simpl. by rewrite <- !app_assoc.
  - unfold bids_settle.
    destruct (bids_catch_state
      (emit (ConsoleLog ("Bid Response Status:" +:+ Str.of_Z status)) p))
      as (H1&H2&H3&H4&H5&H6&_).
    rewrite H1, H2, H3, H4, H5, H6, bids_catch_trace.
    do 3 (split; [reflexivity|]). split; [|by repeat split].
    exists [ConsoleLog ("Bid Response Status:" +:+ Str.of_Z status);
            ConsoleError "Error parsing bids"]. eexists.
    simpl. by rewrite <- !app_assoc.
  - unfold bids_settle. rewrite bids_then_throw by done.
    set (es := map ConsoleError (ValidateResponse body bids).1).
    set (q := emit _ p).
    destruct (bids_catch_state (emits es q)) as (H1&H2&H3&H4&H5&H6&_).
    destruct (emits_frame es q) as (_&_&_&G4&G5&G6&G7&Gs&_).
    rewrite H1, H2, H3, H4, H5, H6, bids_catch_trace, trace_emits, G4, G5, G6, G7.
    rewrite (Gs SkeletonType.Energy : dom_energy _ = _).
    unfold skeletons. cbn [section set_section dom_market].
    do 3 (split; [reflexivity|]). split; [|by repeat split].
    exists ([ConsoleLog ("Bid Response Status:" +:+ Str.of_Z status)] ++ es
            ++ [ConsoleError "Error parsing bids"]). eexists.
    subst q. cbn [trace emit flagLoading]. by rewrite <- !app_assoc.
Qed.

(** A [null] row: the response is accepted with a message, and
    processing it throws. *)
Lemma bids_failure_shows_error_witness :
  let body := VObj [("data", VArr [VNull])] in
  let p := pageLoad_start None DateType.Day "2021-07-22" in
  ValidateResponse body bids = (["Bid data array does not contain arrays."], true)
  /\ HasBidData (bids_settle (Json 200 body) p) = false
  /\ skeleton_error (dom_market (bids_settle (Json 200 body) p)) = true.
Proof.
  intros body p. split; [reflexivity|].
  destruct (bids_failure_shows_error (Json 200 body) p) as (H1&_&H3&_).
  - right. right. exists 200, body. by repeat split.
  - split; [exact H1|]. by rewrite H3.
Defined.

(** ** Availability flags and what the sections show *)

Section Availability.

Lemma energy_settle_flags (o : Outcome) (p : Page) :
  let p' := energy_settle o p in
  HasBidData p' = HasBidData p /\ dom_market p' = dom_market p
  /\ (HasEnergyData p' = HasEnergyData p /\ dom_energy p' = dom_energy p
      \/ HasEnergyData p' = negb (content_hidden (dom_energy p'))).
Proof.
  intros p'. subst p'. destruct o as [|status|status body].
  - unfold energy_settle.
    match goal with |- context [markLoaded ?x] =>
      destruct (markLoaded_frame x) as (_&_&H3&H4&_&_&Hs&_) end.
    rewrite H3, H4.
    rewrite (Hs SkeletonType.Energy : dom_energy _ = _).
    rewrite (Hs SkeletonType.Market : dom_market _ = _).
    split; [reflexivity|]. split; [reflexivity|]. right. reflexivity.
  - unfold energy_settle.
    match goal with |- context [energy_catch ?x] =>
      destruct (energy_catch_state x) as (H1&_&H3&H4&_&H6&_) end.
    rewrite H1, H3, H4, H6.
    split; [reflexivity|]. split; [reflexivity|]. right. reflexivity.
  - destruct ((ValidateResponse body energy).2) eqn:Hv.
    + unfold energy_settle.
      set (q := emit (ConsoleLog ("Energy Response Status:" +:+ Str.of_Z status)) p).
      set (es := map ConsoleError (ValidateResponse body energy).1).
      destruct (emits_frame es q) as (_&_&G3&_&_&_&_&Gs&_).
      destruct (ProcessEnergy body) as [e|] eqn:HP.
      * destruct (mapM (slice_method
                          (match PageType q with DateType.Day => 11 | DateType.Month => 0 end)
                          16) (EnergyData.times e)) as [newTimes|] eqn:Hm.
        -- rewrite (energy_then_Ok body q e newTimes Hv HP Hm). fold es.
           destruct (energy_shown_state (emits es q) e (with_times newTimes e))
             as (H1&_&H3&_&H5&_&H7&_).
           rewrite H1, H3, H5, H7, G3, (Gs SkeletonType.Market : dom_market _ = _).
           split; [reflexivity|]. split; [reflexivity|]. by right.
        -- rewrite (energy_then_slice_Throw body q e Hv HP Hm). fold es.
           match goal with |- context [energy_catch ?x] =>
             destruct (energy_catch_state x) as (H1&_&H3&H4&_&H6&_) end.
           rewrite H1, H3, H4, H6.
           cbn [HasBidData dom_market set_HasEnergyData set_Energy].
           rewrite G3, (Gs SkeletonType.Market : dom_market _ = _).
           split; [reflexivity|]. split; [reflexivity|]. right. reflexivity.
      * rewrite (energy_then_throw body q Hv HP). fold es.
        destruct (energy_catch_state (emits es q)) as (H1&_&H3&H4&_&H6&_).
        rewrite H1, H3, H4, H6, G3, (Gs SkeletonType.Market : dom_market _ = _).
        split; [reflexivity|]. split; [reflexivity|]. right. reflexivity.
    + destruct (energy_settle_invalid_frame p status body Hv)
        as (_&(H1&_&H3)&(H4&_&H6)&_).
      rewrite H1, H3, H4, H6. split; [reflexivity|]. split; [reflexivity|]. by left.
Qed.

Lemma bids_settle_flags (o : Outcome) (p : Page) :
  let p' := bids_settle o p in
  HasEnergyData p' = HasEnergyData p /\ dom_energy p' = dom_energy p
  /\ (HasBidData p' = HasBidData p /\ dom_market p' = dom_market p
      \/ HasBidData p' = negb (content_hidden (dom_market p'))).
Proof.
  intros p'. subst p'. destruct o as [|status|status body].
  - unfold bids_settle.
    match goal with |- context [markLoaded ?x] =>
      destruct (markLoaded_frame x) as (_&_&H3&H4&_&_&Hs&_) end.
    rewrite H3, H4.
    rewrite (Hs SkeletonType.Energy : dom_energy _ = _).
    rewrite (Hs SkeletonType.Market : dom_market _ = _).
    split; [reflexivity|]. split; [reflexivity|]. right. reflexivity.
  - unfold bids_settle.
    match goal with |- context [bids_catch ?x] =>
      destruct (bids_catch_state x) as (H1&_&H3&H4&_&H6&_) end.
    rewrite H1, H3, H4, H6.
    split; [reflexivity|]. split; [reflexivity|]. right. reflexivity.
  - destruct ((ValidateResponse body bids).2) eqn:Hv.
    + unfold bids_settle.
      set (q := emit (ConsoleLog ("Bid Response Status:" +:+ Str.of_Z status)) p).
      set (es := map ConsoleError (ValidateResponse body bids).1).
      destruct (emits_frame es q) as (_&_&_&G4&_&_&_&Gs&_).
      destruct (ProcessBids body) as [b|] eqn:HP.
      * rewrite (bids_then_Ok body q b Hv HP). fold es.
        destruct (bids_shown_state (emits es q) b) as (H1&_&H3&_&H5&_&H7&_).
        rewrite H1, H3, H5, H7, G4, (Gs SkeletonType.Energy : dom_energy _ = _).
        split; [reflexivity|]. split; [reflexivity|]. by right.
      * rewrite (bids_then_throw body q Hv HP). fold es.
        destruct (bids_catch_state (emits es q)) as (H1&_&H3&H4&_&H6&_).
        rewrite H1, H3, H4, H6, G4, (Gs SkeletonType.Energy : dom_energy _ = _).
        split; [reflexivity|]. split; [reflexivity|]. right. reflexivity.
    + destruct (bids_settle_invalid_frame p status body Hv)
        as (_&(H1&_&H3)&(H4&_&H6)&_).
      rewrite H1, H3, H4, H6. split; [reflexivity|]. split; [reflexivity|]. by left.
Qed.

Lemma ChangeDate_flags (date : string) (w : World) :
  HasEnergyData (page (ChangeDate date w)) = HasEnergyData (page w)
  /\ HasBidData (page (ChangeDate date w)) = HasBidData (page w)
  /\ dom_energy (page (ChangeDate date w)) = dom_energy (page w)
  /\ dom_market (page (ChangeDate date w)) = dom_market (page w).
Proof.
  destruct (ValidateDate date) eqn:Hd.
  - destruct (ChangeDate_accepted_frame date w Hd) as (_&_&_&_&_&H1&H2&_&_&Hs&_).
    rewrite H1, H2.
    rewrite (Hs SkeletonType.Energy : dom_energy _ = _).
    by rewrite (Hs SkeletonType.Market : dom_market _ = _).
  - by rewrite ChangeDate_rejected.
Qed.

Lemma download_flags (p : Page) :
  HasEnergyData (download p) = HasEnergyData p
  /\ HasBidData (download p) = HasBidData p
  /\ dom_energy (download p) = dom_energy p
  /\ dom_market (download p) = dom_market p.
Proof.
  unfold download. destruct (negb _); [done|].
  destruct (HasEnergyData p) eqn:HE; destruct (HasBidData p) eqn:HB; cbn; rewrite ?HE, ?HB; done.
Qed.

Lemma pageLoad_resolve_flags (urlDate : option string) (Dates : ReportMonths) (w : World) :
  HasEnergyData (page (pageLoad_resolve urlDate Dates w)) = HasEnergyData (page w)
  /\ HasBidData (page (pageLoad_resolve urlDate Dates w)) = HasBidData (page w)
  /\ dom_energy (page (pageLoad_resolve urlDate Dates w)) = dom_energy (page w)
  /\ dom_market (page (pageLoad_resolve urlDate Dates w)) = dom_market (page w).
Proof.
  unfold pageLoad_resolve.
  destruct (months_loop (PageDate (page w)) (PageType (page w)) Dates) as [latest found].
  destruct urlDate as [d|], found, (Latest_date latest) as [l|];
    first [ by repeat split
          | match goal with |- context [ChangeDate ?d ?x] =>
              destruct (ChangeDate_flags d x) as (->&->&->&->) end; by repeat split ].
Qed.

Lemma dates_settle_flags (urlDate : option string) (o : Outcome) (d : Document) :
  let p := page (world d) in
  let p' := page (world (dates_settle urlDate o d)) in
  HasEnergyData p' = HasEnergyData p /\ HasBidData p' = HasBidData p
  /\ dom_energy p' = dom_energy p /\ dom_market p' = dom_market p.
Proof.
  intros p p'. subst p p'. destruct o as [|status|status body]; [by repeat split..|].
  unfold dates_settle, dates_then. cbn [world page inflight HistoryDates].
  destruct (ValidateResponse body dates) as [lines valid].
  set (q := emit (ConsoleLog ("Date Response Status:" +:+ Str.of_Z status)) (page (world d))).
  destruct (emits_frame (map ConsoleError lines) q) as (_&_&G3&G4&_&_&_&Gs&_).
  pose proof (Gs SkeletonType.Energy : dom_energy _ = _) as GE.
  pose proof (Gs SkeletonType.Market : dom_market _ = _) as GM.
  destruct valid; cbn [negb].
  - destruct (ProcessDates body) as [Dates|].
    + cbn [world].
      match goal with |- context [pageLoad_resolve ?u ?D ?x] =>
        destruct (pageLoad_resolve_flags u D x) as (->&->&->&->) end.
      cbn [page skeletons set_section HasEnergyData HasBidData dom_energy dom_market].
      by rewrite G3, G4, GE, GM.
    + cbn [dates_catch world page skeletons set_section emit
           HasEnergyData HasBidData dom_energy dom_market].
      by rewrite G3, G4, GE, GM.
  - cbn [world page emit HasEnergyData HasBidData dom_energy dom_market].
    by rewrite G3, G4, GE, GM.
Qed.

Lemma step_flags (w w' : World) :
  step w w' -> flags_match (page w) -> flags_match (page w').
Proof.
  unfold flags_match. intros Hstep [HE HB].
  destruct Hstep as [urlDate o w history|date w|i o w w' Hs|w].
  - destruct (dates_settle_flags urlDate o {| world := w; HistoryDates := history |})
      as (->&->&->&->). done.
  - destruct (ChangeDate_flags date w) as (->&->&->&->). done.
  - unfold settle in Hs. destruct (inflight w !! i) as [[d|d]|]; [| |done].
    + injection Hs as <-. cbn [page].
      destruct (energy_settle_flags o (page w)) as (->&->&[[-> ->]|H]); done.
    + injection Hs as <-. cbn [page].
      destruct (bids_settle_flags o (page w)) as (->&->&[[-> ->]|H]); done.
  - cbn [page]. destruct (download_flags (page w)) as (->&->&->&->). done.
Qed.

End Availability.

(** X12. After [pageLoad] and any sequence of dates responses, date
    changes, ended requests and download clicks, [HasEnergyData] is true
    exactly when the energy section shows its content, and [HasBidData]
    exactly when the market section does. *)
Theorem flags_match_sections
    (urlDate : option string) (urlType : DateType.t) (Today : string) (w : World) :
  steps {| page := pageLoad_start urlDate urlType Today; inflight := [] |} w ->
  HasEnergyData (page w) = negb (content_hidden (dom_energy (page w)))
  /\ HasBidData (page w) = negb (content_hidden (dom_market (page w))).
Proof.
  intros H. change (flags_match (page w)).
  remember {| page := pageLoad_start urlDate urlType Today; inflight := [] |} as w0 eqn:E.
  induction H as [w|w w1 w2 _ IH Hstep].
  - subst w. unfold pageLoad_start.
    destruct urlDate as [d|]; [destruct (ValidateDate d)|]; by split.
  - eapply step_flags; [exact Hstep | by apply IH].
Qed.

(** The page after a date change and an energy response that is refused. *)
Lemma flags_match_sections_witness :
  let w0 := {| page := pageLoad_start None DateType.Day "2021-07-22"; inflight := [] |} in
  let w1 := ChangeDate "2021-07-22" w0 in
  exists w2,
    settle 0 (Json 200 (VObj [])) w1 = Some w2
    /\ HasEnergyData (page w2) = negb (content_hidden (dom_energy (page w2))).
Proof.
  intros w0 w1.
  destruct (settle 0 (Json 200 (VObj [])) w1) as [w2|] eqn:Hs; [|by vm_compute in Hs].
  exists w2. split; [reflexivity|].
  apply (flags_match_sections None DateType.Day "2021-07-22" w2).
  eapply steps_step; [eapply steps_step; [apply steps_refl|]|].
  - apply (step_ChangeDate "2021-07-22").
  - eapply step_settle. exact Hs.
Defined.





Section Catalog.

Lemma days_loop_member (target : string) (days : list ReportDay.t)
    (latest : option ReportDay.t) (d : ReportDay.t) (found : bool) :
  days_loop target days latest = (Some d, found) -> d ∈ days \/ latest = Some d.
Proof.
  revert latest. induction days as [|day rest IH]; intros latest; simpl.
  - intros [= -> _]. by right.
  - destruct (String.eqb (ReportDay.date day) target).
    + intros [= <- _]. left. left.
    + destruct (JS.num_gt _ _); intros H; apply IH in H as [H|H].
      * left. by right.
      * injection H as <-. left. left.
      * left. by right.
      * injection H as H. destruct latest as [l|]; simpl in H; subst.
        -- by right.
        -- left. left.
Qed.

Lemma months_loop_catalog (target : string) (type : DateType.t) (Dates : ReportMonths)
    (latest : Latest) (found : bool) (d : string) :
  months_loop target type Dates = (latest, found) ->
  Latest_date latest = Some d -> catalog_date Dates d.
Proof.
  induction Dates as [|month rest IH]; simpl; [by intros [= <- _]|].
  destruct (String.eqb (ReportMonth.date month) (year_month target)).
  - destruct type.
    + destruct (days_loop target (ReportMonth.days month) None) as [[day|] f] eqn:E.
      * intros [= <- _] [= <-]. apply days_loop_member in E as [E|E]; [|done].
        exists month. split; [left|]. right. by exists day.
      * by intros [= <- _].
    + intros [= <- _] [= <-]. exists month. split; [left | by left].
  - intros H Hd. destruct (IH H Hd) as (m&Hm&Hc). exists m. split; [by right | done].
Qed.

End Catalog.

(** X15. Every request pending after [pageLoad] has resolved
    the dates was pending before or asks for the energy or the bids of a
    date of the catalog: the date of one of its months or of one of their
    days. *)
Theorem pageLoad_requests_catalog_dates
    (urlDate : option string) (Dates : ReportMonths) (w : World) (r : Request) :
  r ∈ inflight (pageLoad_resolve urlDate Dates w) ->
  r ∈ inflight w
  \/ exists d, catalog_date Dates d /\ (r = RequestEnergy d \/ r = RequestBids d).
Proof.
  unfold pageLoad_resolve.
  destruct (months_loop (PageDate (page w)) (PageType (page w)) Dates)
    as [latest found] eqn:E.
  assert (Hcd : forall d w1, Latest_date latest = Some d ->
            r ∈ inflight (ChangeDate d w1) ->
            r ∈ inflight w1
            \/ exists d, catalog_date Dates d /\ (r = RequestEnergy d \/ r = RequestBids d)).
  { intros d w1 Hd Hr. unfold ChangeDate in Hr.
    destruct (ValidateDate d); cbn [negb inflight] in Hr; [|by left].
    apply elem_of_app in Hr as [Hr|Hr]; [by left|]. right. exists d.
    split; [by eapply months_loop_catalog|].
    apply elem_of_cons in Hr as [->|Hr]; [by left|].
    apply elem_of_cons in Hr as [->|Hr]; [by right|]. by apply elem_of_nil in Hr. }
  destruct urlDate as [u|], found; destruct (Latest_date latest) as [d|] eqn:Hd;
    intros Hr; first [by left | exact (Hcd _ _ eq_refl Hr)].
Qed.

(** With no date in the address and no report for today, the latest
    day of the month is requested. *)
Lemma pageLoad_requests_catalog_dates_witness :
  let Dates :=
    [ {| ReportMonth.days :=
           [ {| ReportDay.date := "2021-07-05"; ReportDay.day := Int 5 |};
             {| ReportDay.date := "2021-07-20"; ReportDay.day := Int 20 |} ];
         ReportMonth.month := Int 7; ReportMonth.year := Int 2021;
         ReportMonth.date := "2021-07"; ReportMonth.name := Some "July" |} ] in
  let w := {| page := pageLoad_start None DateType.Day "2021-07-22"; inflight := [] |} in
  inflight (pageLoad_resolve None Dates w)
  = [RequestEnergy "2021-07-20"; RequestBids "2021-07-20"]
  /\ exists d, catalog_date Dates d
               /\ (RequestEnergy "2021-07-20" = RequestEnergy d
                   \/ RequestEnergy "2021-07-20" = RequestBids d).
Proof.
  intros Dates w.
  assert (Hi : inflight (pageLoad_resolve None Dates w)
               = [RequestEnergy "2021-07-20"; RequestBids "2021-07-20"])
    by (vm_compute; reflexivity).
  split; [exact Hi|].
  destruct (pageLoad_requests_catalog_dates None Dates w (RequestEnergy "2021-07-20"))
    as [H|H].
  - rewrite Hi. left.
  - by apply elem_of_nil in H.
  - exact H.
Defined.

Section CatalogDates.

Lemma padStart2_number (d : Z) :
  0 <= d < 100 ->
  is_number (Str.padStart2 (Str.of_Z d))
  /\ String.length (Str.padStart2 (Str.of_Z d)) = 2%nat
  /\ number_of (Str.padStart2 (Str.of_Z d)) = d.
Proof.
  intros Hd.
  assert (Hall : forallb (fun n =>
            let s := Str.padStart2 (Str.of_Z (Z.of_nat n)) in
            negb (String.eqb s "") && forallb Str.is_digit (Str.to_list s)
            && (String.length s =? 2)%nat
            && (Str.digits_value 0 (Str.to_list s) =? Z.of_nat n)%Z) (seq 0 100) = true)
    by (vm_compute; reflexivity).
  rewrite forallb_forall in Hall.
  assert (Hin : In (Z.to_nat d) (seq 0 100)) by (apply in_seq; lia).
  specialize (Hall _ Hin). cbv zeta in Hall. rewrite Z2Nat.id in Hall by lia.
  apply andb_true_iff in Hall as [Hall Hv]. apply andb_true_iff in Hall as [Hall Hl].
  apply andb_true_iff in Hall as [Hne Hdig].
  apply negb_true_iff, String.eqb_neq in Hne.
  apply Nat.eqb_eq in Hl. apply Z.eqb_eq in Hv. by repeat split.
Qed.

Lemma ProcessDates_entries (entries : list DatesEntry) :
  Forall (fun e => is_number (entry_year e) /\ is_number (entry_month e)) entries ->
  ProcessDates (VObj (map DatesEntry_raw entries)) = Ok (map DatesEntry_month entries).
Proof.
  unfold ProcessDates. cbn [JS.own_entries].
  induction 1 as [|e entries [Hy Hm] _ IH]; [done|].
  cbn [map mapM]. rewrite ProcessDates_entry by done. cbn [rbind]. by rewrite IH.
Qed.

(** Every date of the catalog built from well-formed entries passes the
    check of dates. *)
Lemma catalog_dates_valid (entries : list DatesEntry) :
  Forall well_formed_entry entries ->
  exists Dates,
    ProcessDates (VObj (map DatesEntry_raw entries)) = Ok Dates
    /\ forall d, catalog_date Dates d -> ValidateDate d = true.
Proof.
  intros Hwf. exists (map DatesEntry_month entries). split.
  - apply ProcessDates_entries. eapply Forall_impl; [exact Hwf|].
    by intros e (?&_&?&_).
  - intros d (month&Hin&Hd).
    apply list_elem_of_fmap in Hin as (e&->&He).
    rewrite Forall_forall in Hwf. destruct (Hwf e He) as (Hy&Hly&Hm&Hlm&Hle&Hdays).
    destruct Hd as [->|(day&Hday&->)].
    + cbn [DatesEntry_month ReportMonth.date]. unfold DatesEntry_key.
      by apply ValidateDate_accepts_month.
    + cbn [DatesEntry_month ReportMonth.days] in Hday.
      apply list_elem_of_fmap in Hday as (z&->&Hz).
      rewrite Forall_forall in Hdays. specialize (Hdays z Hz).
      destruct (padStart2_number z) as (Hn&Hl&Hv); [lia|].
      cbn [DatesEntry_day ReportDay.date]. unfold DatesEntry_key.
      rewrite <- !append_assoc.
      apply ValidateDate_accepts_day; try done; lia.
Qed.

End CatalogDates.

(** ** The tick labels and the date parameter *)

Section Splitting.

Lemma split_aux_head (sep : ascii) (cur l : list ascii) :
  exists l1 rest,
    nth 0 (Str.split_aux sep cur l) "" = Str.of_list (rev cur ++ l1)
    /\ Forall (fun c => Ascii.eqb c sep = false) l1
    /\ l = l1 ++ rest
    /\ (rest = [] \/ exists r, rest = sep :: r).
Proof.
  revert cur. induction l as [|c l IH]; intros cur.
  - exists [], []. simpl. rewrite app_nil_r. repeat split; auto.
  - simpl. destruct (Ascii.eqb c sep) eqn:E.
    + apply Ascii.eqb_eq in E as ->. exists [], (sep :: l). simpl.
      rewrite app_nil_r. repeat split; eauto.
    + destruct (IH (c :: cur)) as (l1&rest&Hn&Hf&Hl&Hr).
      exists (c :: l1), rest. rewrite Hn. simpl. rewrite <- app_assoc. simpl.
      repeat split; [by constructor | by rewrite Hl | done].
Qed.

Lemma of_list_app (a b : list ascii) :
  Str.of_list (a ++ b) = Str.of_list a +:+ Str.of_list b.
Proof. induction a as [|c a IH]; [done|]. simpl. by rewrite IH. Qed.

Lemma starts_with_first (c : ascii) (sep l : list ascii) (x : ascii) :
  Ascii.eqb c x = false -> starts_with (c :: sep) (x :: l) = false.
Proof. intros H. simpl. by rewrite H. Qed.

(** A text without the separator's first character is one piece. *)
Lemma split_str_aux_none (c : ascii) (sep cur l : list ascii) :
  Forall (fun x => Ascii.eqb c x = false) l ->
  split_str_aux (c :: sep) 0 cur l = [Str.of_list (rev cur ++ l)].
Proof.
  intros H. revert cur. induction H as [|x l Hx _ IH]; intros cur.
  - simpl. by rewrite app_nil_r.
  - cbn [split_str_aux]. rewrite starts_with_first by done.
    rewrite IH. simpl. by rewrite <- app_assoc.
Qed.

End Splitting.

(** X16. [tickDate] returns the start of the label up to its first
    space: a prefix of the label with no space in it, followed in the label
    by nothing or by a space. *)
Theorem tickDate_first_segment (label : string) :
  exists rest,
    label = tickDate label +:+ rest
    /\ Forall (fun c => Ascii.eqb c " " = false) (Str.to_list (tickDate label))
    /\ (rest = "" \/ exists r, rest = String " " r).
Proof.
  unfold tickDate, Str.split.
  destruct (split_aux_head " " [] (Str.to_list label)) as (l1&rest&Hn&Hf&Hl&Hr).
  rewrite Hn. simpl. exists (Str.of_list rest). rewrite to_list_of_list.
  split; [|split; [done|]].
  - by rewrite <- of_list_app, <- Hl, of_list_to_list.
  - destruct Hr as [->|[r ->]]; [by left|]. right. by eexists.
Qed.

(** X17. For an address [base?date=d] with no question mark in [base]
    and [d] made of digits and hyphens, [pageLoad] reads [d] as a day when
    it has 9 or 10 characters, as a month when it has 6 or 7, and reads no
    date at all for any other length. *)
Theorem pageLoad_url_date (base d : string) :
  Forall (fun c => Ascii.eqb c "?" = false) (Str.to_list base) ->
  Forall (fun c => Str.is_digit c = true \/ c = "-"%char) (Str.to_list d) ->
  pageLoad_url (base +:+ "?date=" +:+ d)
  = (let n := String.length d in
     if (n =? 9)%nat || (n =? 10)%nat then (Some d, DateType.Day)
     else if (n =? 6)%nat || (n =? 7)%nat then (Some d, DateType.Month)
     else (None, DateType.Day)).
Proof.
  intros Hbase Hd.
  assert (Hq : Forall (fun c => Ascii.eqb c "?" = false) (Str.to_list ("date=" +:+ d))).
  { rewrite to_list_append. apply Forall_app. split; [by repeat constructor|].
    eapply Forall_impl; [exact Hd|]. intros c [Hc| ->]; [|done].
    by apply is_digit_not_char. }
  assert (Hsplit : Str.split "?" (base +:+ "?date=" +:+ d) = [base; "date=" +:+ d]).
  { unfold Str.split. rewrite to_list_append.
    change (Str.to_list ("?date=" +:+ d)) with ("?"%char :: Str.to_list ("date=" +:+ d)).
    rewrite split_aux_first by done. rewrite split_aux_none by done.
    simpl. by rewrite !of_list_to_list. }
  assert (Hparam : split_str "date=" ("date=" +:+ d) = [""; d]).
  { unfold split_str. rewrite to_list_append.
    change (Str.to_list "date=") with ["d"; "a"; "t"; "e"; "="]%char.
    cbn [app split_str_aux starts_with Ascii.eqb Bool.eqb andb length Nat.sub rev Str.of_list].
    rewrite split_str_aux_none.
    - cbn [rev app]. by rewrite of_list_to_list.
    - eapply Forall_impl; [exact Hd|]. intros c [Hc| ->]; [|done].
      rewrite Ascii.eqb_sym. by apply is_digit_not_char. }
  unfold pageLoad_url. rewrite Hsplit. cbn [lookup list_lookup].
  rewrite Hparam, length_append. cbn [String.length length Nat.eqb lookup list_lookup].
  set (n := String.length d). cbv zeta.
  destruct (Nat.ltb_spec 13 (5 + n)); destruct (Nat.ltb_spec (5 + n) 16);
    destruct (Nat.ltb_spec 10 (5 + n)); destruct (Nat.ltb_spec (5 + n) 13);
    destruct (Nat.eqb_spec n 9); destruct (Nat.eqb_spec n 10);
    destruct (Nat.eqb_spec n 6); destruct (Nat.eqb_spec n 7);
    cbn [andb orb]; try reflexivity; lia.
Qed.

(** A day of eight characters is not read from the address, although
    [ValidateDate] accepts it. *)
Lemma pageLoad_url_date_witness :
  pageLoad_url "http://localhost/history.html?date=2021-7-5" = (None, DateType.Day)
  /\ ValidateDate "2021-7-5" = true.
Proof.
  split; [|reflexivity].
  apply (pageLoad_url_date "http://localhost/history.html" "2021-7-5").
  - by vm_compute; repeat constructor.
  - repeat (apply Forall_cons; split; [by (left + right)|]). apply Forall_nil_2.
Defined.

(** ** The list of dates *)

Section DateLinks.

Lemma link_targets_textContent (s : option string) :
  flat_map link_targets (textContent s) = [].
Proof. by destruct s as [[|c s]|]. Qed.

Lemma link_targets_day (month : ReportMonth.t) (day : ReportDay.t) :
  link_targets (CreateDates_day month day) = [ReportDay.date day].
Proof.
  unfold CreateDates_day. cbn [link_targets flat_map].
  by rewrite link_targets_textContent.
Qed.

Lemma link_targets_month (month : ReportMonth.t) :
  link_targets (CreateDates_month month)
  = ReportMonth.date month :: map ReportDay.date (ReportMonth.days month).
Proof.
  unfold CreateDates_month. cbn [link_targets flat_map].
  rewrite flat_map_app. cbn [link_targets flat_map].
  rewrite !link_targets_textContent. cbn [app]. rewrite ?app_nil_r. f_equal.
  induction (ReportMonth.days month) as [|day days IH]; [done|].
  cbn [map flat_map]. by rewrite link_targets_day, IH.
Qed.

Lemma CreateDates_targets (dates : ReportMonths) :
  flat_map link_targets (CreateDates dates)
  = flat_map (fun month => ReportMonth.date month
                           :: map ReportDay.date (ReportMonth.days month)) dates.
Proof.
  unfold CreateDates. induction dates as [|month dates IH]; [done|].
  cbn [map flat_map]. by rewrite link_targets_month, IH.
Qed.

Lemma targets_catalog (dates : ReportMonths) (d : string) :
  d ∈ flat_map link_targets (CreateDates dates) <-> catalog_date dates d.
Proof.
  rewrite CreateDates_targets. unfold catalog_date. split.
  - intros Hin. apply list_elem_of_In, in_flat_map in Hin as (month&Hm&Hd).
    exists month. split; [by apply list_elem_of_In|].
    destruct Hd as [<-|Hd]; [by left|]. right.
    apply in_map_iff in Hd as (day&<-&Hday). exists day. split; [by apply list_elem_of_In|done].
  - intros (month&Hm&Hd). apply list_elem_of_In, in_flat_map.
    exists month. split; [by apply list_elem_of_In|].
    destruct Hd as [->|(day&Hday&->)]; [by left|]. right.
    apply in_map_iff. exists day. split; [done | by apply list_elem_of_In].
Qed.

End DateLinks.

(** X18. The links [CreateDates] builds pass to [ChangeDate], in
    document order, the date of each month followed by the dates of its
    days: one link per month and one per day. *)
Theorem CreateDates_links (dates : ReportMonths) :
  flat_map link_targets (CreateDates dates)
  = flat_map (fun month => ReportMonth.date month
                           :: map ReportDay.date (ReportMonth.days month)) dates
  /\ length (flat_map link_targets (CreateDates dates))
     = (length dates + foldr Nat.add 0 (map (fun month => length (ReportMonth.days month)) dates))%nat.
Proof.
  split; [apply CreateDates_targets|]. rewrite CreateDates_targets.
  induction dates as [|month dates IH]; [done|].
  cbn [flat_map map foldr length]. rewrite length_app, IH. cbn [length].
  rewrite length_map. lia.
Qed.

(** X19. For a catalog of well-formed entries, [ProcessDates]
    returns, and every link [CreateDates] builds from its result carries a
    date [ValidateDate] accepts: following it sets the page date to that
    date and sends the energy and the bids request for it. *)
Theorem links_lead_to_accepted_dates (entries : list DatesEntry) :
  Forall well_formed_entry entries ->
  exists Dates,
    ProcessDates (VObj (map DatesEntry_raw entries)) = Ok Dates
    /\ forall d, d ∈ flat_map link_targets (CreateDates Dates) ->
         ValidateDate d = true
         /\ forall w, PageDate (page (ChangeDate d w)) = d
                      /\ inflight (ChangeDate d w)
                         = inflight w ++ [RequestEnergy d; RequestBids d].
Proof.
  intros Hwf. destruct (catalog_dates_valid entries Hwf) as (Dates&HP&Hv).
  exists Dates. split; [exact HP|]. intros d Hd%targets_catalog.
  specialize (Hv d Hd). split; [exact Hv|]. intros w.
  destruct (ChangeDate_accepted_frame d w Hv) as (H1&_).
  split; [exact H1 | by apply ChangeDate_accepted_inflight].
Qed.

(** A month with two days gives three links. *)
Lemma links_lead_to_accepted_dates_witness :
  exists Dates,
    ProcessDates (VObj [("2021-07", VArr [VNum (Int 5); VNum (Int 20)])]) = Ok Dates
    /\ flat_map link_targets (CreateDates Dates) = ["2021-07"; "2021-07-05"; "2021-07-20"]
    /\ forall d, d ∈ flat_map link_targets (CreateDates Dates) -> ValidateDate d = true.
Proof.
  destruct (links_lead_to_accepted_dates
              [ {| entry_year := "2021"; entry_month := "07"; entry_days := [5; 20] |} ])
    as (Dates&HP&Hv).
  - apply Forall_cons. split; [|apply Forall_nil_2].
    split; [by split|]. split; [reflexivity|]. split; [by split|].
    split; [cbn; lia|]. split; [by vm_compute|].
    apply Forall_cons. split; [lia|]. apply Forall_cons. split; [lia|]. apply Forall_nil_2.
  - exists Dates. split; [exact HP|]. split; [|intros d Hd; by apply Hv].
    assert (HP' : ProcessDates (VObj [("2021-07", VArr [VNum (Int 5); VNum (Int 20)])])
                  = Ok [ {| ReportMonth.days :=
                              [ {| ReportDay.date := "2021-07-05"; ReportDay.day := Int 5 |};
                                {| ReportDay.date := "2021-07-20"; ReportDay.day := Int 20 |} ];
                            ReportMonth.month := Int 7; ReportMonth.year := Int 2021;
                            ReportMonth.date := "2021-07"; ReportMonth.name := Some "July" |} ])
      by (vm_compute; reflexivity).
    change (ProcessDates (VObj (map DatesEntry_raw
              [ {| entry_year := "2021"; entry_month := "07"; entry_days := [5; 20] |} ])))
      with (ProcessDates (VObj [("2021-07", VArr [VNum (Int 5); VNum (Int 20)])])) in HP.
    rewrite HP' in HP. injection HP as <-. reflexivity.
Defined.

(** ** The dates pipeline *)

(** X20. Unless the dates response is accepted and processed,
    [pageLoad] sends no energy and no bids request, adds nothing to the
    history list and leaves the energy and market sections, the page date
    and the loading counter as they were; the dates section goes to its
    error skeleton, except after a refused body, which leaves it as it
    was. *)
Theorem dates_failure_requests_nothing
    (urlDate : option string) (o : Outcome) (d : Document) :
  (forall status body Dates,
     o = Json status body -> (ValidateResponse body dates).2 = true ->
     ProcessDates body <> Ok Dates) ->
  let d' := dates_settle urlDate o d in
  let p := page (world d) in
  let p' := page (world d') in
  inflight (world d') = inflight (world d)
  /\ HistoryDates d' = HistoryDates d
  /\ dom_energy p' = dom_energy p /\ dom_market p' = dom_market p
  /\ PageDate p' = PageDate p /\ flagLoading p' = flagLoading p
  /\ ((exists status body, o = Json status body /\ (ValidateResponse body dates).2 = false)
      /\ dom_dates p' = dom_dates p
      \/ dom_dates p' = {| content_hidden := true; skeleton_hidden := false;
                           skeleton_error := true; skeleton_effect := Some "sheen" |}).
Proof.
  intros Hfail d' p p'. subst d' p p'. destruct o as [|status|status body].
  - cbn. repeat split. by right.
  - cbn. repeat split. by right.
  - unfold dates_settle, dates_then. cbn [world page inflight HistoryDates].
    specialize (Hfail status body).
    destruct (ValidateResponse body dates) as [lines valid] eqn:EV. cbn [fst snd] in *.
    set (q := emit (ConsoleLog ("Date Response Status:" +:+ Str.of_Z status)) (page (world d))).
    destruct (emits_frame (map ConsoleError lines) q) as (G1&_&_&_&G5&_&_&Gs&_).
    destruct valid; cbn [negb].
    + destruct (ProcessDates body) as [Dates|]; [by destruct (Hfail Dates)|].
      cbn [dates_catch world page inflight HistoryDates skeletons set_section emit
           dom_energy dom_market dom_dates PageDate flagLoading section].
      rewrite G1, G5.
      rewrite (Gs SkeletonType.Energy : dom_energy _ = _).
      rewrite (Gs SkeletonType.Market : dom_market _ = _).
      do 6 (split; [reflexivity|]). by right.
    + cbn [world page inflight HistoryDates emit
           dom_energy dom_market dom_dates PageDate flagLoading].
      rewrite G1, G5.
      rewrite (Gs SkeletonType.Energy : dom_energy _ = _).
      rewrite (Gs SkeletonType.Market : dom_market _ = _).
      rewrite (Gs SkeletonType.Dates : dom_dates _ = _).
      do 6 (split; [reflexivity|]). left. split; [|reflexivity]. exists status, body. by rewrite EV.
Qed.

(** An accepted response with a [null] day. *)
Lemma dates_failure_requests_nothing_witness :
  let d := {| world := {| page := pageLoad_start None DateType.Day "2021-07-22";
                          inflight := [] |};
              HistoryDates := [] |} in
  let d' := dates_settle None (Json 200 (VObj [("2021-07", VArr [VNull])])) d in
  (ValidateResponse (VObj [("2021-07", VArr [VNull])]) dates).2 = true
  /\ inflight (world d') = []
  /\ skeleton_error (dom_dates (page (world d'))) = true
  /\ content_hidden (dom_energy (page (world d'))) = true.
Proof.
  intros d d'. split; [reflexivity|].
  destruct (dates_failure_requests_nothing None
              (Json 200 (VObj [("2021-07", VArr [VNull])])) d)
    as (H1&_&H3&_&_&_&[[(st&b&Ho&Hv) _]|H7]).
  - intros status body Dates [= _ <-] _. by vm_compute.
  - injection Ho as _ <-. by vm_compute in Hv.
  - subst d'. split; [exact H1|]. split; [by rewrite H7|]. by rewrite H3.
Defined.

Section Header.

Lemma MonthNames_at_range (z : Z) :
  (0 <= z < 12 -> exists name, name ∈ MonthNames /\ MonthNames_at (Int z) = Some name)
  /\ (z < 0 \/ 12 <= z -> MonthNames_at (Int z) = None).
Proof.
  unfold MonthNames_at. split.
  - intros Hz. rewrite (proj2 (Z.leb_le 0 z)) by lia.
    destruct (MonthNames !! Z.to_nat z) as [name|] eqn:E.
    + exists name. split; [by eapply list_elem_of_lookup_2 | done].
    + apply lookup_ge_None in E. simpl in E. lia.
  - intros [Hz|Hz].
    + by rewrite (proj2 (Z.leb_gt 0 z)) by lia.
    + rewrite (proj2 (Z.leb_le 0 z)) by lia. apply lookup_ge_None. simpl. lia.
Qed.

End Header.

(** X21. For a page date of numerals, the header of a day page
    is the year, the name of the month and the day as written, joined by
    hyphens, and that of a month page the name of the month followed by
    " Overview"; the name is an entry of [MonthNames] for the months 1 to
    12 and reads "undefined" for month 0 and months above 12. *)
Theorem header_names_the_month (y m d : string) :
  is_number y -> is_number m -> is_number d ->
  let name := MonthNames_at (Int (number_of m - 1)) in
  header_text (y +:+ "-" +:+ m +:+ "-" +:+ d) DateType.Day
  = y +:+ "-" +:+ text_of name +:+ "-" +:+ d
  /\ header_text (y +:+ "-" +:+ m) DateType.Month = text_of name +:+ " Overview"
  /\ (1 <= number_of m <= 12 -> exists n, n ∈ MonthNames /\ name = Some n)
  /\ (number_of m = 0 \/ 12 < number_of m -> text_of name = "undefined").
Proof.
  intros Hy Hm Hd name. subst name. unfold header_text, split_at.
  rewrite split_date by done.
  rewrite (split_key {| entry_year := y; entry_month := m; entry_days := [] |} Hy Hm
           : Str.split "-" (y +:+ "-" +:+ m) = [y; m]).
  change (([y; m; d] : list string) !! 0%nat) with (Some y).
  change (([y; m; d] : list string) !! 1%nat) with (Some m).
  change (([y; m; d] : list string) !! 2%nat) with (Some d).
  change (([y; m] : list string) !! 1%nat) with (Some m).
  change (JS.ToNumber (default VUndefined (VStr <$> Some m)))
    with (JS.StringToNumber m).
  rewrite StringToNumber_number by done.
  change (JS.num_sub (Int (number_of m)) (Int 1)) with (Int (number_of m - 1)).
  split; [reflexivity|]. split; [reflexivity|].
  destruct (MonthNames_at_range (number_of m - 1)) as [Hin Hout]. split.
  - intros H. apply Hin. lia.
  - intros H. rewrite Hout; [done | lia].
Qed.

(** July, and a month 0. *)
Lemma header_names_the_month_witness :
  header_text "2021-07-22" DateType.Day = "2021-July-22"
  /\ header_text "2021-00-10" DateType.Day = "2021-undefined-10".
Proof.
  destruct (header_names_the_month "2021" "07" "22") as (H1&_); [by split..|].
  destruct (header_names_the_month "2021" "00" "10") as (H2&_&_&H3); [by split..|].
  split; [exact H1|]. etrans; [exact H2|]. rewrite H3; [reflexivity | by left].
Defined.
